(** * JoJo wellness chat: crisis detection and the message-send handler

    A shallow embedding of [server/src/routes/jojo.js] (the keyword risk
    classifier, the crisis reply templates, the region tables and the
    [POST /api/jojo/message] handler) and of the parts of
    [server/src/services/aiService.js] the handler calls, followed by the
    properties of the natural-language specification.

    Modelling conventions.
    - A JavaScript string is a Rocq [string], one character per UTF-16 code
      unit, for code units up to U+00FF.  [toLowerCase], [trim] and
      [includes] are written out for that range.  The reply templates are
      only concatenated and compared; their pictographs are kept as the byte
      sequence the source file stores.
    - Prisma tables are lists in creation order (messages, conversations,
      crisis logs) or finite maps on their unique key (wellness profiles on
      [userId], chat analytics on [(userId, date)]).  Store calls succeed;
      columns that hold [JSON.stringify] of a list are represented by the
      list.  A query ordered by [createdAt] descending is the reversed
      creation order.
    - Record identifiers are drawn from a counter; dates are integers
      (milliseconds); the clock readings of one request are part of its
      environment, as is the outcome of the one HTTP call to the completion
      endpoint.  The calls made to that endpoint are recorded in the world.
    - The handler is entered with the caller's id: [authenticateToken] and
      the rate limiter run before it.  [content], when present, is a string.
    - [console] output, the conversation title, the text of the system
      prompt and the token-usage figures of the response body are left
      out. *)

From Stdlib Require Import String Ascii List ZArith NArith Lia Bool Sorted.
From stdpp Require Import base option list gmap strings.

Local Open Scope list_scope.

(** ** JavaScript string primitives *)

Module JsString.

(** A double quote, for literals that contain one. *)
Definition dquote : string := String (ascii_of_nat 34) EmptyString.

(** Upper-case letters that [String.prototype.toLowerCase] moves by 32:
    [A-Z] and the Latin-1 capitals U+00C0..U+00DE except the
    multiplication sign U+00D7. *)
Definition isUpper (c : ascii) : bool :=
  let n := nat_of_ascii c in
  ((65 <=? n) && (n <=? 90))%nat
  || ((192 <=? n) && (n <=? 222) && negb (n =? 215))%nat.

Definition lowerChar (c : ascii) : ascii :=
  if isUpper c then ascii_of_nat (nat_of_ascii c + 32) else c.

Fixpoint toLowerCase (s : string) : string :=
  match s with
  | EmptyString => EmptyString
  | String c s' => String (lowerChar c) (toLowerCase s')
  end.

(** [s.startsWith(k)] *)
Fixpoint startsWith (s k : string) {struct k} : bool :=
  match k, s with
  | EmptyString, _ => true
  | String _ _, EmptyString => false
  | String a k', String b s' => if Ascii.eqb a b then startsWith s' k' else false
  end.

(** [s.includes(k)] *)
Fixpoint includes (s k : string) : bool :=
  startsWith s k ||
  match s with
  | EmptyString => false
  | String _ s' => includes s' k
  end.

(** White space and line terminators removed by [String.prototype.trim]:
    TAB, LF, VT, FF, CR, SPACE and NBSP. *)
Definition isWhiteSpace (c : ascii) : bool :=
  let n := nat_of_ascii c in
  ((9 <=? n) && (n <=? 13))%nat || (n =? 32)%nat || (n =? 160)%nat.

Fixpoint trimStart (s : string) : string :=
  match s with
  | EmptyString => EmptyString
  | String c s' => if isWhiteSpace c then trimStart s' else s
  end.

Fixpoint trimEnd (s : string) : string :=
  match s with
  | EmptyString => EmptyString
  | String c s' =>
      match trimEnd s' with
      | EmptyString => if isWhiteSpace c then EmptyString else String c EmptyString
      | r => String c r
      end
  end.

Definition trim (s : string) : string := trimEnd (trimStart s).

(** Every character of [s] is white space. *)
Fixpoint allWhiteSpace (s : string) : bool :=
  match s with
  | EmptyString => true
  | String c s' => isWhiteSpace c && allWhiteSpace s'
  end.

(** [s.substring(0, n)] *)
Fixpoint substring0 (n : nat) (s : string) : string :=
  match n, s with
  | O, _ => EmptyString
  | S _, EmptyString => EmptyString
  | S n', String c s' => String c (substring0 n' s')
  end.

(** [k] occurs in [s] as a contiguous run of characters. *)
Definition IsSubstring (k s : string) : Prop :=
  exists a c, s = a +:+ k +:+ c.

(** [k] occurs in [s] up to letter case. *)
Definition ContainsIgnoringCase (s k : string) : Prop :=
  exists a b c, s = a +:+ b +:+ c /\ toLowerCase b = toLowerCase k.

End JsString.

Import JsString.

(** ** Reply texts

    The literals below are the template literals of the source, split at
    their interpolation points. *)

(** [getLocalHotlines]: the block returned for Nigeria. *)
Definition nigeriaContacts : string :=
"ðŸ‡³ðŸ‡¬ **Nigeria Emergency Contacts:**
- **Emergency Services:** 199, 911
- **Mental Health Helpline:** +234 809 210 6493
- **Lagos State Domestic & Sexual Violence Response Team:** 08000333333
- **Suicide Prevention:** Contact nearest hospital emergency room".

(** [getLocalHotlines]: the block returned for the USA. *)
Definition usaResources : string :=
"ðŸ‡ºðŸ‡¸ **USA Crisis Resources:**
- **988 Suicide & Crisis Lifeline:** 988 (24/7)
- **Crisis Text Line:** Text HOME to 741741
- **National Domestic Violence Hotline:** 1-800-799-7233
- **Emergency Services:** 911".

(** [getLocalHotlines]: the block returned for the UK. *)
Definition ukResources : string :=
"ðŸ‡¬ðŸ‡§ **UK Crisis Resources:**
- **Samaritans:** 116 123 (free, 24/7)
- **Crisis Text Line:** Text SHOUT to 85258
- **National Domestic Abuse Helpline:** 0808 2000 247
- **Emergency Services:** 999".

(** [getLocalHotlines]: the block returned otherwise. *)
Definition internationalResources : string :=
"ðŸŒ **International Crisis Resources:**
- **International Association for Suicide Prevention:** https://www.iasp.info/resources/Crisis_Centres/
- **Befrienders Worldwide:** https://www.befrienders.org/
- **Emergency Services:** Contact your local emergency number".

(** [generateCrisisResponse]: the HIGH template up to the hotline block. *)
Definition highOpening : string :=
"ðŸš¨ **URGENT: I'm deeply concerned about you**

I hear that you're in significant emotional pain right now. Your life has value, and you deserve support and help.

**ðŸ†˜ IMMEDIATE HELP:**
Please reach out for professional support right now:
".

(** [generateCrisisResponse]: the HIGH template after the hotline block. *)
Definition highClosing : string :=
"

**ðŸ’š IMMEDIATE SAFETY STEPS:**
1. **Stay with someone** - Don't be alone right now
2. **Remove any means of harm** - Ask someone to help
3. **Go to your nearest emergency room** if you're in immediate danger
4. **Call emergency services** if you need immediate help

**ðŸ¤ YOU ARE NOT ALONE:**
- These feelings can change with proper help
- Mental health professionals are trained for exactly this
- Many people who felt this way found relief and meaning again
- Your pain is real, but it can be treated

**ðŸ“ž PLEASE CALL ONE OF THE NUMBERS ABOVE RIGHT NOW**

I'm an AI and cannot provide the emergency support you need, but human professionals are standing by 24/7 to help you through this crisis.

Your life matters. You matter. Please reach out for help. ðŸ’™

âš ï¸ **This is not a substitute for professional mental health care. Please contact emergency services or a crisis hotline immediately.**".

(** [generateCrisisResponse]: the MEDIUM template up to the hotline block. *)
Definition mediumOpening : string :=
"ðŸ’› **I'm concerned about you and want to help**

It sounds like you're going through a really difficult time. Your feelings are valid, and there are people who want to support you.

**ðŸ¤ Support Resources:**
".

(** [generateCrisisResponse]: the MEDIUM template after the hotline block. *)
Definition mediumClosing : string :=
"

**ðŸ’¡ Immediate steps that might help:**
- Reach out to a trusted friend, family member, or counselor
- Consider professional support - therapy can be incredibly helpful
- Practice grounding techniques: deep breathing, name 5 things you can see
- Remember: difficult feelings are temporary and can change

**ðŸŒŸ You deserve support:**
- Your struggles are real and valid
- Professional help can provide tools and strategies
- Many people have worked through similar challenges

If you're having thoughts of self-harm, please reach out to the crisis resources above immediately.

âš ï¸ **Please consider reaching out to a mental health professional for ongoing support.**".

(** [generateCrisisResponse]: the remaining template up to the hotline block. *)
Definition lowOpening : string :=
"ðŸ’™ **I hear that you're having a tough time**

It's completely normal to feel overwhelmed sometimes. Thank you for sharing - that takes courage.

**ðŸŒ± Some things that might help:**
- Talk to someone you trust about how you're feeling
- Consider speaking with a counselor or therapist
- Practice self-care activities that usually help you feel better
- Remember that difficult periods don't last forever

**ðŸ“ž If you need someone to talk to:**
".

(** [generateCrisisResponse]: the remaining template after the hotline block. *)
Definition lowClosing : string :=
"

**ðŸ¤— Gentle reminders:**
- Your feelings are valid
- It's okay to ask for help
- Taking care of your mental health is important
- Small steps forward still count as progress

Is there something specific I can help you with today? I'm here to support your wellness journey.".

(** The reply the route handler substitutes in its own [catch]. *)
Definition routeFallbackContent : string :=
"I'm here to help with your wellness journey! ðŸŒŸ 

I can provide advice on:
ðŸ’ª **Fitness & Exercise** - Workout plans and training tips
ðŸŽ **Nutrition** - Healthy eating and meal planning  
ðŸ§˜â€â™€ï¸ **Mental Health** - Stress management and wellness strategies
ðŸ˜´ **Sleep & Recovery** - Better sleep habits

Could you tell me more specifically what you'd like help with?".

(** [getFallbackResponse]: the text after the greeting. *)
Definition fallbackBody : string :=
"I'm here to help with your wellness journey! 🌟 

I can provide personalized advice on:
💪 **Fitness & Exercise** - Workout plans, form tips, progression strategies
🍎 **Nutrition** - Meal planning, healthy eating, budget-friendly options  
🧘‍♀️ **Mental Health** - Stress management, mindfulness, emotional wellness
😴 **Sleep & Recovery** - Better sleep habits and rest optimization

Could you tell me more specifically what you'd like help with? For example:
- " +:+ dquote +:+ "I want to start working out but don't know where to begin" +:+ dquote +:+ "
- " +:+ dquote +:+ "Help me plan healthy meals on a budget" +:+ dquote +:+ "
- " +:+ dquote +:+ "I'm feeling stressed and need coping strategies" +:+ dquote +:+ "
- " +:+ dquote +:+ "How can I improve my sleep quality?" +:+ dquote +:+ "

I'm here to support your wellness goals with practical, actionable advice! 💚".

(** ** Data model (the Prisma schema) *)

Inductive MessageSender := USER | JOJO.

Inductive MessageType :=
  TEXT | SUGGESTION | EXERCISE | RECIPE | MENTAL_HEALTH | CRISIS_RESPONSE
| GOAL_SETTING | PROGRESS_UPDATE.

Inductive CrisisRiskLevel := LOW | MEDIUM | HIGH | CRITICAL.

(** A [String?] column meant to hold a JSON array, tagged with what
    [JSON.parse] does on its text. *)
Inductive JsonColumn :=
| ParsesToArray (raw : string)
    (* an array: [goals.join(', ')] is defined *)
| ParsesToOther (raw : string) (promptThrows : bool)
    (* another JSON value; [promptThrows] when [goals.length > 0] or
       [goals.join] raises a TypeError on it (null, a string, ...) *)
| ParseThrows (raw : string).
    (* not JSON text *)

Record WellnessProfile := {
  wp_userId : nat;
  wp_region : option string;
  wp_healthGoals : option JsonColumn;
  wp_dietaryRestrictions : option JsonColumn;
  wp_crisisMonitoring : bool;
}.

Record ChatConversation := {
  conv_id : nat;
  conv_userId : nat;
  conv_isActive : bool;
  conv_lastMessageAt : option Z;
}.

Record ChatMessage := {
  msg_id : nat;
  msg_conversationId : nat;
  msg_userId : nat;
  msg_content : string;
  msg_sender : MessageSender;
  msg_messageType : MessageType;
  msg_responseTime : option Z;        (* milliseconds *)
  msg_confidence : option nat;        (* hundredths: 0.85 is 85 *)
  msg_triggerKeywords : option (list string);
}.

Record CrisisLog := {
  cl_id : nat;
  cl_userId : nat;
  cl_messageId : option nat;
  cl_triggerContent : string;
  cl_keywords : list string;
  cl_riskLevel : CrisisRiskLevel;
  cl_responseGiven : string;
  cl_resourcesShared : list string;
  cl_userRegion : option string;
  cl_hotlinesProvided : list string;
  cl_followUpNeeded : bool;
  cl_adminNotified : bool;
}.

Record ChatAnalytics := {
  ca_userId : nat;
  ca_date : Z;
  ca_messagesCount : Z;
  ca_conversationTime : Z;            (* minutes *)
}.

#[global] Instance MessageSender_eq_dec : EqDecision MessageSender.
Proof. solve_decision. Defined.
#[global] Instance MessageType_eq_dec : EqDecision MessageType.
Proof. solve_decision. Defined.
#[global] Instance CrisisRiskLevel_eq_dec : EqDecision CrisisRiskLevel.
Proof. solve_decision. Defined.

(** ** The keyword risk classifier and the reply templates (jojo.js) *)

Module CRISIS_KEYWORDS.
Definition HIGH_RISK : list string :=
  [ "kill myself"; "suicide"; "end my life"; "overdose"; "hanging myself";
    "jump off"; "better off dead"; "end it all"; "kill me" ].
Definition MEDIUM_RISK : list string :=
  [ "want to die"; "hurt myself"; "self harm"; "cut myself"; "suicidal";
    "self-harm"; "harm myself"; "hate myself"; "worthless"; "hopeless";
    "cannot go on"; "give up on life"; "not worth living" ].
Definition LOW_RISK : list string :=
  [ "depressed"; "sad all the time"; "can't cope"; "overwhelmed";
    "life is hard"; "struggling"; "feeling down" ].
End CRISIS_KEYWORDS.

(** [region?.toLowerCase() || ''] *)
Definition regionLower (region : option string) : string :=
  match region with
  | Some r => toLowerCase r
  | None => EmptyString
  end.

(** The inner function of [generateCrisisResponse]. *)
Definition getLocalHotlines (region : option string) : string :=
  let regionLower := regionLower region in
  if includes regionLower "nigeria" || includes regionLower "ng" then
    nigeriaContacts
  else if includes regionLower "usa" || includes regionLower "united states" then
    usaResources
  else if includes regionLower "uk" || includes regionLower "united kingdom" then
    ukResources
  else internationalResources.

Definition generateCrisisResponse (region : option string)
    (riskLevel : CrisisRiskLevel) : string :=
  match riskLevel with
  | HIGH => highOpening +:+ getLocalHotlines region +:+ highClosing
  | MEDIUM => mediumOpening +:+ getLocalHotlines region +:+ mediumClosing
  | _ => lowOpening +:+ getLocalHotlines region +:+ lowClosing
  end.

Definition getCrisisResources (region : option string) : list string :=
  let regionLower := regionLower region in
  if includes regionLower "nigeria" then
    [ "Crisis hotlines"; "Emergency services (199, 911)";
      "Mental health professionals"; "Hospital emergency rooms";
      "Lagos State DSVRT"; "Community health centers" ]
  else
    [ "Crisis hotlines"; "Emergency services"; "Mental health professionals";
      "Hospital emergency rooms"; "Community support services";
      "Online crisis chat services" ].

Definition getCrisisHotlines (region : option string) : list string :=
  let regionLower := regionLower region in
  if includes regionLower "nigeria" then
    [ "+234 809 210 6493"; "199"; "911"; "08000333333" ]
  else if includes regionLower "usa" then
    [ "988"; "741741"; "911"; "1-800-799-7233" ]
  else if includes regionLower "uk" then
    [ "116 123"; "85258"; "999"; "0808 2000 247" ]
  else if includes regionLower "canada" then
    [ "1-833-456-4566"; "45645"; "911" ]
  else [ "Local emergency services" ].

(** The object [detectCrisis] returns: [{ isCrisis: false }] or the full
    record. *)
Inductive CrisisDetection :=
| NoCrisis
| Crisis (riskLevel : CrisisRiskLevel) (keywords : list string)
         (response : string) (resources hotlines : list string).

Definition isCrisis (d : CrisisDetection) : bool :=
  match d with NoCrisis => false | Crisis _ _ _ _ _ => true end.

Definition riskLevel (d : CrisisDetection) : option CrisisRiskLevel :=
  match d with NoCrisis => None | Crisis r _ _ _ _ => Some r end.

Definition keywords (d : CrisisDetection) : list string :=
  match d with NoCrisis => [] | Crisis _ ks _ _ _ => ks end.

Definition hotlines (d : CrisisDetection) : list string :=
  match d with NoCrisis => [] | Crisis _ _ _ _ hs => hs end.

(** [profile?.region] *)
Definition profileRegion (profile : option WellnessProfile) : option string :=
  match profile with
  | Some p => wp_region p
  | None => None
  end.

(** The tier and the keyword list [detectCrisis] settles on; [None] is the
    source's ['NONE']. *)
Definition detectTier (message : string)
    : option CrisisRiskLevel * list string :=
  let lowerMessage := toLowerCase message in
  let detectedKeywords : list string := [] in
  let highRiskFound :=
    List.filter (fun keyword => includes lowerMessage keyword)
                CRISIS_KEYWORDS.HIGH_RISK in
  if (0 <? length highRiskFound)%nat then
    (Some HIGH, detectedKeywords ++ highRiskFound)
  else
    let mediumRiskFound :=
      List.filter (fun keyword => includes lowerMessage keyword)
                  CRISIS_KEYWORDS.MEDIUM_RISK in
    if (0 <? length mediumRiskFound)%nat then
      (Some MEDIUM, detectedKeywords ++ mediumRiskFound)
    else
      let lowRiskFound :=
        List.filter (fun keyword => includes lowerMessage keyword)
                    CRISIS_KEYWORDS.LOW_RISK in
      if (0 <? length lowRiskFound)%nat then
        (Some LOW, detectedKeywords ++ lowRiskFound)
      else (None, detectedKeywords).

Definition detectCrisis (message : string) (profile : option WellnessProfile)
    : CrisisDetection :=
  match detectTier message with
  | (None, _) => NoCrisis
  | (Some riskLevel, detectedKeywords) =>
      Crisis riskLevel detectedKeywords
             (generateCrisisResponse (profileRegion profile) riskLevel)
             (getCrisisResources (profileRegion profile))
             (getCrisisHotlines (profileRegion profile))
  end.

(** [typeMapping[aiType] || 'TEXT'], for the tags [analyzeResponse] and the
    fallbacks produce. *)
Definition typeMapping : list (string * MessageType) :=
  [ ("GREETING", TEXT); ("SUGGESTION", TEXT); ("EXERCISE", TEXT);
    ("NUTRITION", RECIPE); ("MENTAL_HEALTH", TEXT); ("SLEEP", TEXT);
    ("CRISIS_RESPONSE", TEXT) ].

Fixpoint assoc {A} (k : string) (l : list (string * A)) : option A :=
  match l with
  | [] => None
  | (k', v) :: l' => if String.eqb k k' then Some v else assoc k l'
  end.

Definition mapMessageType (aiType : string) : MessageType :=
  match assoc aiType typeMapping with
  | Some t => t
  | None => TEXT
  end.

(** ** aiService.js *)

Inductive ChatRole := RoleUser | RoleAssistant.

(** One entry of the [messages] array posted to the completion endpoint.
    The system entry stands for
    [{ role: 'system', content: createSystemPrompt(profile, userContext) }]. *)
Inductive PromptMessage :=
| SystemPrompt (profile : option WellnessProfile)
| Turn (role : ChatRole) (content : string).

(** What the HTTP call does: a well-formed completion carrying
    [choices[0].message.content], or a rejection (network failure, non-2xx
    status, the 30000 ms timeout, a malformed body). *)
Inductive ProviderOutcome :=
| Completed (content : string)
| Failed (message : string).

Record AiResponse := {
  ai_content : string;
  ai_type : string;
  ai_confidence : nat;                (* hundredths *)
  ai_keywords : list string;
  ai_topics : list string;
  ai_fallbackUsed : bool;
}.

(** [history.slice(-5)] *)
Definition sliceLast (n : nat) {A} (l : list A) : list A :=
  drop (length l - n) l.

(** The arrow function [formatConversationHistory] maps over the history. *)
Definition formatMessage (msg : ChatMessage) : PromptMessage :=
  Turn (match msg_sender msg with USER => RoleUser | JOJO => RoleAssistant end)
       (if (1000 <? String.length (msg_content msg))%nat
        then substring0 1000 (msg_content msg) +:+ "..."
        else msg_content msg).

Definition formatConversationHistory (history : list ChatMessage)
    : list PromptMessage :=
  map formatMessage (sliceLast 5 history).

(** [\w] of a regular expression without the [u] flag. *)
Definition isWordChar (c : ascii) : bool :=
  let n := nat_of_ascii c in
  (((48 <=? n) && (n <=? 57)) || ((65 <=? n) && (n <=? 90))
   || ((97 <=? n) && (n <=? 122)) || (n =? 95))%nat.

(** The maximal runs of word characters of [s], left to right; [cur] is
    the run being read. *)
Fixpoint wordsFrom (cur s : string) : list string :=
  match s with
  | EmptyString =>
      match cur with EmptyString => [] | _ => [cur] end
  | String c s' =>
      if isWordChar c then wordsFrom (cur +:+ String c EmptyString) s'
      else match cur with
           | EmptyString => wordsFrom EmptyString s'
           | _ => cur :: wordsFrom EmptyString s'
           end
  end.

Definition keywordAlternatives : list string :=
  [ "weight"; "loss"; "muscle"; "fitness"; "nutrition"; "stress"; "anxiety";
    "sleep"; "workout"; "exercise"; "diet"; "mental"; "health"; "meditation";
    "yoga"; "strength"; "cardio"; "protein"; "calories"; "goal"; "plan" ].

Definition inList (k : string) (l : list string) : bool :=
  existsb (String.eqb k) l.

(** [[...new Set(l)]]: first occurrences, in order. *)
Fixpoint dedupeFrom (seen l : list string) : list string :=
  match l with
  | [] => []
  | x :: l' =>
      if inList x seen then dedupeFrom seen l'
      else x :: dedupeFrom (x :: seen) l'
  end.

(** [userInput.match(keywordRegex)] lower-cased and de-duplicated.  Every
    alternative of the expression is a run of letters between two [\b], so
    a match is a whole maximal run of word characters that equals an
    alternative up to ASCII case. *)
Definition extractKeywords (userInput : string) : list string :=
  let matches :=
    List.filter (fun word => inList (toLowerCase word) keywordAlternatives)
                (wordsFrom EmptyString userInput) in
  dedupeFrom [] (map (fun k => toLowerCase k) matches).

Record Analysis := {
  an_type : string;
  an_topics : list string;
  an_keywords : list string;
  an_confidence : nat;
}.

Definition analyzeResponse (response userInput : string) : Analysis :=
  let input := toLowerCase userInput in
  let content := toLowerCase response in
  let st0 : string * list string := ("SUGGESTION", []) in
  let st1 :=
    if includes content "workout" || includes content "exercise"
       || includes content "training" || includes content "fitness"
    then ("EXERCISE", snd st0 ++ ["fitness"]) else st0 in
  let st2 :=
    if includes content "nutrition" || includes content "meal"
       || includes content "diet" || includes content "food"
       || includes content "recipe" || includes content "calories"
    then ("NUTRITION", snd st1 ++ ["nutrition"]) else st1 in
  let st3 :=
    if includes content "stress" || includes content "anxiety"
       || includes content "mental" || includes content "meditation"
       || includes content "mindfulness"
    then ("MENTAL_HEALTH", snd st2 ++ ["mental_health"]) else st2 in
  let st4 :=
    if includes content "sleep" || includes content "rest"
       || includes content "recovery"
    then ("SLEEP", snd st3 ++ ["sleep"]) else st3 in
  let st5 :=
    if includes input "hello" || includes input "hi" || includes input "hey"
    then ("GREETING", snd st4 ++ ["introduction"]) else st4 in
  {| an_type := fst st5;
     an_topics := snd st5;
     an_keywords := extractKeywords userInput;
     an_confidence := 85 |}.

(** [profile?.firstName]: the wellness profile table has no such column. *)
Definition firstName (profile : option WellnessProfile) : option string := None.

Definition getFallbackResponse (profile : option WellnessProfile) : AiResponse :=
  let greeting :=
    match firstName profile with
    | None | Some EmptyString => "Hi there! "
    | Some userName => "Hi " +:+ userName +:+ "! "
    end in
  {| ai_content := greeting +:+ fallbackBody;
     ai_type := "SUGGESTION";
     ai_confidence := 60;
     ai_keywords := [];
     ai_topics := ["general"];
     ai_fallbackUsed := true |}.

(** Whether [createSystemPrompt] raises: [parseJsonField] swallows a parse
    error, but a parsed value that is not an array can make
    [goals.length > 0] or [goals.join] raise. *)
Definition columnBreaksPrompt (c : option JsonColumn) : bool :=
  match c with
  | Some (ParsesToOther (String _ _) true) => true
  | _ => false
  end.

Definition createSystemPromptThrows (profile : option WellnessProfile) : bool :=
  match profile with
  | Some p => columnBreaksPrompt (wp_healthGoals p)
              || columnBreaksPrompt (wp_dietaryRestrictions p)
  | None => false
  end.

(** ** The store, and a request's effects on it *)

Record World := mkWorld {
  chatConversations : list ChatConversation;
  chatMessages : list ChatMessage;
  wellnessProfiles : gmap nat WellnessProfile;
  crisisLogs : list CrisisLog;
  chatAnalytics : gmap (nat * Z) ChatAnalytics;
  nextId : nat;
  (** the [messages] arrays posted to the completion endpoint, oldest first *)
  providerCalls : list (list PromptMessage);
}.

(** A computation over the world that either yields a value or leaves
    early with an [E]: a response already sent ([return res...]) or a
    thrown error. *)
Definition Eff (E A : Type) : Type := World -> (E + A) * World.

Definition ret {E A} (a : A) : Eff E A := fun w => (inr a, w).

Definition leave {E A} (e : E) : Eff E A := fun w => (inl e, w).

Definition bind {E A B} (m : Eff E A) (k : A -> Eff E B) : Eff E B :=
  fun w =>
    match m w with
    | (inl e, w') => (inl e, w')
    | (inr a, w') => k a w'
    end.

(** [try { m } catch (e) { h e }] *)
Definition tryCatch {E E' A} (m : Eff E A) (h : E -> Eff E' A) : Eff E' A :=
  fun w =>
    match m w with
    | (inl e, w') => h e w'
    | (inr a, w') => (inr a, w')
    end.

Notation "x <- m ;; k" := (bind m (fun x => k))
  (at level 100, m at next level, right associativity).
Notation "m ;; k" := (bind m (fun _ => k))
  (at level 100, right associativity).

(** Field updates of the world. *)
Definition setNextId (n : nat) (w : World) : World :=
  mkWorld (chatConversations w) (chatMessages w) (wellnessProfiles w)
          (crisisLogs w) (chatAnalytics w) n (providerCalls w).

Definition setConversations (l : list ChatConversation) (w : World) : World :=
  mkWorld l (chatMessages w) (wellnessProfiles w) (crisisLogs w)
          (chatAnalytics w) (nextId w) (providerCalls w).

Definition setMessages (l : list ChatMessage) (w : World) : World :=
  mkWorld (chatConversations w) l (wellnessProfiles w) (crisisLogs w)
          (chatAnalytics w) (nextId w) (providerCalls w).

Definition setCrisisLogs (l : list CrisisLog) (w : World) : World :=
  mkWorld (chatConversations w) (chatMessages w) (wellnessProfiles w) l
          (chatAnalytics w) (nextId w) (providerCalls w).

Definition setAnalytics (m : gmap (nat * Z) ChatAnalytics) (w : World) : World :=
  mkWorld (chatConversations w) (chatMessages w) (wellnessProfiles w)
          (crisisLogs w) m (nextId w) (providerCalls w).

Definition setProviderCalls (l : list (list PromptMessage)) (w : World) : World :=
  mkWorld (chatConversations w) (chatMessages w) (wellnessProfiles w)
          (crisisLogs w) (chatAnalytics w) (nextId w) l.

Definition freshId {E} : Eff E nat :=
  fun w => (inr (nextId w), setNextId (S (nextId w)) w).

(** [lastMessageAt] of the conversation [id] set to [t]. *)
Definition touch (id : nat) (t : Z) (l : list ChatConversation)
    : list ChatConversation :=
  map (fun c => if (conv_id c =? id)%nat
                then {| conv_id := conv_id c; conv_userId := conv_userId c;
                        conv_isActive := conv_isActive c;
                        conv_lastMessageAt := Some t |}
                else c) l.

(** The day's analytics row after one more exchange of [minutes]. *)
Definition upsertedRow (userId : nat) (date minutes : Z)
    (m : gmap (nat * Z) ChatAnalytics) : ChatAnalytics :=
  match m !! (userId, date) with
  | Some r => {| ca_userId := ca_userId r; ca_date := ca_date r;
                 ca_messagesCount := ca_messagesCount r + 1;
                 ca_conversationTime := ca_conversationTime r + minutes |}
  | None => {| ca_userId := userId; ca_date := date;
               ca_messagesCount := 1;
               ca_conversationTime := minutes |}
  end.

Module prisma.

(** [chatConversation.findUnique({ where: { id, userId } })] *)
Definition chatConversation_findUnique {E} (id userId : nat)
    : Eff E (option ChatConversation) :=
  fun w =>
    (inr (List.find (fun c => (conv_id c =? id)%nat && (conv_userId c =? userId)%nat)
                    (chatConversations w)), w).

(** [chatConversation.create({ data: { userId, title, lastMessageAt } })] *)
Definition chatConversation_create {E} (userId : nat) (lastMessageAt : Z)
    : Eff E ChatConversation :=
  id <- freshId ;;
  fun w =>
    let c := {| conv_id := id; conv_userId := userId; conv_isActive := true;
                conv_lastMessageAt := Some lastMessageAt |} in
    (inr c, setConversations (chatConversations w ++ [c]) w).

(** [chatConversation.update({ where: { id }, data: { lastMessageAt } })] *)
Definition chatConversation_update {E} (id : nat) (lastMessageAt : Z)
    : Eff E unit :=
  fun w =>
    (inr tt, setConversations (touch id lastMessageAt (chatConversations w)) w).

(** [chatMessage.create({ data })]; [data id] is the row with its fresh id. *)
Definition chatMessage_create {E} (data : nat -> ChatMessage) : Eff E ChatMessage :=
  id <- freshId ;;
  fun w => (inr (data id), setMessages (chatMessages w ++ [data id]) w).

(** [chatMessage.findMany({ where: { conversationId },
    orderBy: { createdAt: 'desc' }, take })] *)
Definition chatMessage_findMany {E} (conversationId take : nat)
    : Eff E (list ChatMessage) :=
  fun w =>
    (inr (firstn take
            (rev (List.filter (fun m => (msg_conversationId m =? conversationId)%nat)
                              (chatMessages w)))), w).

(** [wellnessProfile.findUnique({ where: { userId } })] *)
Definition wellnessProfile_findUnique {E} (userId : nat)
    : Eff E (option WellnessProfile) :=
  fun w => (inr (wellnessProfiles w !! userId), w).

(** [crisisLog.create({ data })] *)
Definition crisisLog_create {E} (data : nat -> CrisisLog) : Eff E CrisisLog :=
  id <- freshId ;;
  fun w => (inr (data id), setCrisisLogs (crisisLogs w ++ [data id]) w).

(** [chatAnalytics.upsert] on the key [userId_date]: increment the row, or
    create it with [messagesCount: 1]. *)
Definition chatAnalytics_upsert {E} (userId : nat) (date minutes : Z)
    : Eff E ChatAnalytics :=
  fun w =>
    let row := upsertedRow userId date minutes (chatAnalytics w) in
    (inr row, setAnalytics (<[(userId, date) := row]> (chatAnalytics w)) w).

End prisma.

(** [axios.post(baseUrl, { model, messages, ... }, { timeout: 30000 })]:
    the call is recorded, then it resolves or rejects as [outcome] says. *)
Definition axios_post (messages : list PromptMessage) (outcome : ProviderOutcome)
    : Eff string string :=
  fun w =>
    (match outcome with
     | Completed content => inr content
     | Failed message => inl message
     end,
     setProviderCalls (providerCalls w ++ [messages]) w).

(** [aiService.generateJoJoResponse(userInput, wellnessProfile,
    { conversationHistory, userContext })] *)
Definition generateJoJoResponse (outcome : ProviderOutcome) (userInput : string)
    (wellnessProfile : option WellnessProfile)
    (conversationHistory : list ChatMessage) : Eff string AiResponse :=
  tryCatch
    ((if createSystemPromptThrows wellnessProfile
      then leave "TypeError" else ret tt) ;;
     let messages :=
       SystemPrompt wellnessProfile
       :: formatConversationHistory conversationHistory
       ++ [Turn RoleUser userInput] in
     aiResponse <- axios_post messages outcome ;;
     let analysis := analyzeResponse aiResponse userInput in
     ret {| ai_content := aiResponse;
            ai_type := an_type analysis;
            ai_confidence := an_confidence analysis;
            ai_keywords := an_keywords analysis;
            ai_topics := an_topics analysis;
            ai_fallbackUsed := false |})
    (fun error : string => ret (getFallbackResponse wellnessProfile)).

(** ** POST /api/jojo/message *)

(** [req.body]: an absent field is [None]; so is a [conversationId] that is
    falsy. *)
Record RequestBody := {
  conversationId : option nat;
  content : option string;
}.

(** The clock readings of one request, the calendar day they fall on, and
    what the completion endpoint does if it is called. *)
Record Env := {
  env_createdAt : Z;     (* [new Date()] when the conversation is created *)
  env_startTime : Z;     (* [Date.now()] before the AI call *)
  env_endTime : Z;       (* [Date.now()] after it *)
  env_updatedAt : Z;     (* [new Date()] when [lastMessageAt] is updated *)
  env_today : Z;         (* [new Date()] with [setHours(0, 0, 0, 0)] *)
  env_outcome : ProviderOutcome;
}.

Record ReplyMetadata := {
  md_responseTime : Z;
  md_confidence : nat;
  md_messageType : string;
  md_aiProvider : string;
  md_keywords : list string;
}.

Inductive Response :=
| Rejected (status : nat) (message : string)
| CrisisReply (conversation : ChatConversation)
              (userMessage jojoMessage : ChatMessage)
              (riskLevel : CrisisRiskLevel) (keywords : list string)
| ChatReply (conversation : ChatConversation)
            (userMessage jojoMessage : ChatMessage)
            (metadata : ReplyMetadata).

(** Whether [column ? JSON.parse(column) : []] raises: the column is a
    non-empty string that is not JSON text. *)
Definition parseThrows (c : option JsonColumn) : bool :=
  match c with
  | Some (ParseThrows (String _ _)) => true
  | _ => false
  end.

(** [column ? JSON.parse(column) : []], for its exception only. *)
Definition parseColumn (c : option JsonColumn) : Eff string unit :=
  if parseThrows c then leave "SyntaxError" else ret tt.

(** The literal the route's own [catch] assigns to [aiResponse]. *)
Definition routeFallback : AiResponse :=
  {| ai_content := routeFallbackContent;
     ai_type := "SUGGESTION";
     ai_confidence := 60;
     ai_keywords := [];
     ai_topics := [];
     ai_fallbackUsed := true |}.

(** [Math.ceil(responseTime / 1000 / 60)] *)
Definition minutesOf (responseTime : Z) : Z := (- ((- responseTime) / 60000))%Z.

(** [aiResponse.confidence || 0.7] *)
Definition confidenceOr70 (r : AiResponse) : nat :=
  match ai_confidence r with O => 70 | c => c end.

(** [aiResponse.type || 'SUGGESTION'] *)
Definition typeOrSuggestion (r : AiResponse) : string :=
  match ai_type r with EmptyString => "SUGGESTION" | t => t end.

(** The handler is one function in the source; its commented blocks are
    named here.  [leave r] is [return res.status(..).json(..)] or
    [return res.json(..)] before the end of the function. *)

(** "Get or create conversation" *)
Definition getOrCreateConversation (env : Env) (userId : nat)
    (conversationId : option nat) : Eff Response ChatConversation :=
  match conversationId with
  | Some conversationId =>
      found <- prisma.chatConversation_findUnique conversationId userId ;;
      match found with
      | None => leave (Rejected 404 "Conversation not found")
      | Some conversation => ret conversation
      end
  | None => prisma.chatConversation_create userId (env_createdAt env)
  end.

(** "Save user message" *)
Definition saveUserMessage (userId : nat) (conversation : ChatConversation)
    (content : string) : Eff Response ChatMessage :=
  prisma.chatMessage_create (fun id =>
    {| msg_id := id; msg_conversationId := conv_id conversation;
       msg_userId := userId; msg_content := trim content;
       msg_sender := USER; msg_messageType := TEXT;
       msg_responseTime := None; msg_confidence := None;
       msg_triggerKeywords := None |}).

(** The branch taken when [crisisDetection.isCrisis]: "Log crisis
    incident", "Save crisis response", "Update conversation timestamp". *)
Definition crisisBranch (env : Env) (userId : nat) (content : string)
    (conversation : ChatConversation) (userMessage : ChatMessage)
    (wellnessProfile : option WellnessProfile)
    (riskLevel : CrisisRiskLevel) (keywords : list string) (response : string)
    (resources hotlines : list string) : Eff Response Response :=
  crisisLog <-
    prisma.crisisLog_create (fun id =>
      {| cl_id := id; cl_userId := userId;
         cl_messageId := Some (msg_id userMessage);
         cl_triggerContent := content;
         cl_keywords := keywords;
         cl_riskLevel := riskLevel;
         cl_responseGiven := response;
         cl_resourcesShared := resources;
         cl_userRegion := profileRegion wellnessProfile;
         cl_hotlinesProvided := hotlines;
         cl_followUpNeeded := bool_decide (riskLevel = HIGH);
         cl_adminNotified := bool_decide (riskLevel = HIGH) |}) ;;
  jojoMessage <-
    prisma.chatMessage_create (fun id =>
      {| msg_id := id; msg_conversationId := conv_id conversation;
         msg_userId := userId; msg_content := response;
         msg_sender := JOJO; msg_messageType := CRISIS_RESPONSE;
         msg_responseTime := None; msg_confidence := None;
         msg_triggerKeywords := None |}) ;;
  prisma.chatConversation_update (conv_id conversation) (env_updatedAt env) ;;
  leave (CrisisReply conversation userMessage jojoMessage riskLevel keywords).

(** "Generate AI response using your custom AI service": the [try] block
    around the call of the AI service and its [catch]; the result is
    [aiResponse] with [aiProvider]. *)
Definition generateAiResponse (env : Env) (content : string)
    (wellnessProfile : option WellnessProfile)
    (conversationHistory : list ChatMessage)
    : Eff Response (AiResponse * string) :=
  tryCatch
    (parseColumn (wellnessProfile ≫= wp_healthGoals) ;;
     parseColumn (wellnessProfile ≫= wp_dietaryRestrictions) ;;
     groqResponse <-
       generateJoJoResponse (env_outcome env) content wellnessProfile
                            (firstn 5 conversationHistory) ;;
     ret (groqResponse, "groq"))
    (fun aiError : string => ret (routeFallback, "fallback")).

(** The rest of the handler when no crisis is detected: the AI response,
    "Save JoJo's response", "Update conversation timestamp", "Track
    analytics". *)
Definition aiBranch (env : Env) (userId : nat) (content : string)
    (conversation : ChatConversation) (userMessage : ChatMessage)
    (wellnessProfile : option WellnessProfile)
    (conversationHistory : list ChatMessage) : Eff Response Response :=
  ai <- generateAiResponse env content wellnessProfile conversationHistory ;;
  let aiResponse := fst ai in
  let aiProvider := snd ai in
  let responseTime := (env_endTime env - env_startTime env)%Z in
  jojoMessage <-
    prisma.chatMessage_create (fun id =>
      {| msg_id := id; msg_conversationId := conv_id conversation;
         msg_userId := userId; msg_content := ai_content aiResponse;
         msg_sender := JOJO;
         msg_messageType := mapMessageType (ai_type aiResponse);
         msg_responseTime := Some responseTime;
         msg_confidence := Some (confidenceOr70 aiResponse);
         msg_triggerKeywords := Some (ai_keywords aiResponse) |}) ;;
  prisma.chatConversation_update (conv_id conversation) (env_updatedAt env) ;;
  prisma.chatAnalytics_upsert userId (env_today env) (minutesOf responseTime) ;;
  ret (ChatReply conversation userMessage jojoMessage
         {| md_responseTime := responseTime;
            md_confidence := confidenceOr70 aiResponse;
            md_messageType := typeOrSuggestion aiResponse;
            md_aiProvider := aiProvider;
            md_keywords := ai_keywords aiResponse |}).

(** [router.post('/message', ...)] *)
Definition sendMessage (env : Env) (userId : nat) (body : RequestBody)
    : Eff Response Response :=
  match content body with
  | None => leave (Rejected 400 "Message content is required")
  | Some content =>
  if match content with EmptyString => true | _ => false end
     || (String.length (trim content) =? 0)%nat
  then leave (Rejected 400 "Message content is required")
  else if (2000 <? String.length content)%nat
  then leave (Rejected 400 "Message too long (max 2000 characters)")
  else
    conversation <- getOrCreateConversation env userId (conversationId body) ;;
    userMessage <- saveUserMessage userId conversation content ;;
    wellnessProfile <- prisma.wellnessProfile_findUnique userId ;;
    conversationHistory <-
      prisma.chatMessage_findMany (conv_id conversation) 10 ;;
    (* "Check for crisis FIRST" *)
    match detectCrisis content wellnessProfile with
    | Crisis riskLevel keywords response resources hotlines =>
        crisisBranch env userId content conversation userMessage
                     wellnessProfile riskLevel keywords response resources
                     hotlines
    | NoCrisis =>
        aiBranch env userId content conversation userMessage wellnessProfile
                 conversationHistory
    end
  end.

(** What the caller and the store see of one request. *)
Definition sent (x : (Response + Response) * World) : Response * World :=
  match x with
  | (inl r, w') => (r, w')
  | (inr r, w') => (r, w')
  end.

Definition postMessage (env : Env) (userId : nat) (body : RequestBody)
    (w : World) : Response * World :=
  sent (sendMessage env userId body w).

(** ** Vocabulary of the properties *)

(** The assistant rows of a message list. *)
Definition assistantMessages (l : list ChatMessage) : list ChatMessage :=
  List.filter (fun m => bool_decide (msg_sender m = JOJO)) l.

(** The content passes the handler's two checks. *)
Definition validContent (body : RequestBody) : Prop :=
  exists c, content body = Some c /\ trim c <> EmptyString
            /\ (String.length c <= 2000)%nat.

(** The conversation the request names exists and belongs to the caller,
    or the request names none. *)
Definition conversationResolves (userId : nat) (body : RequestBody)
    (w : World) : Prop :=
  match conversationId body with
  | Some id => exists c, c ∈ chatConversations w
                         /\ conv_id c = id /\ conv_userId c = userId
  | None => True
  end.

(** The request is accepted: the handler stores the user's message. *)
Definition accepted (userId : nat) (body : RequestBody) (w : World) : Prop :=
  validContent body /\ conversationResolves userId body w.

(** The AI branch gets as far as the HTTP call: both JSON columns of the
    profile parse and the system prompt can be built. *)
Definition reachesProvider (profile : option WellnessProfile) : bool :=
  negb (parseThrows (profile ≫= wp_healthGoals))
  && negb (parseThrows (profile ≫= wp_dietaryRestrictions))
  && negb (createSystemPromptThrows profile).

(** The text of a prompt entry; the system entry is not expanded. *)
Definition turnContent (m : PromptMessage) : string :=
  match m with
  | SystemPrompt _ => EmptyString
  | Turn _ c => c
  end.

(** The day's message count, 0 when the day has no row. *)
Definition messagesCountOn (userId : nat) (date : Z) (w : World) : Z :=
  match chatAnalytics w !! (userId, date) with
  | Some r => ca_messagesCount r
  | None => 0
  end.

(** The rows of a conversation, newest first. *)
Definition newestFirst (conversationId : nat) (l : list ChatMessage)
    : list ChatMessage :=
  rev (List.filter (fun m => (msg_conversationId m =? conversationId)%nat) l).

(** Some phrase of the tier occurs in the text, up to letter case. *)
Definition AnyMatch (tier : list string) (text : string) : Prop :=
  exists k, k ∈ tier /\ ContainsIgnoringCase text k.

(** [ks] lists, in table order, exactly the phrases of the tier that occur
    in the text. *)
Definition MatchedKeywords (tier : list string) (text : string)
    (ks : list string) : Prop :=
  sublist ks tier /\ forall k, k ∈ ks <-> k ∈ tier /\ ContainsIgnoringCase text k.

(** The tiered reference algorithm of the specification: HIGH first, with
    all matched HIGH phrases; else MEDIUM; else LOW; no risk only when no
    list matches. *)
Inductive TieredReference (text : string)
    : option CrisisRiskLevel -> list string -> Prop :=
| reference_high ks :
    AnyMatch CRISIS_KEYWORDS.HIGH_RISK text ->
    MatchedKeywords CRISIS_KEYWORDS.HIGH_RISK text ks ->
    TieredReference text (Some HIGH) ks
| reference_medium ks :
    ~ AnyMatch CRISIS_KEYWORDS.HIGH_RISK text ->
    AnyMatch CRISIS_KEYWORDS.MEDIUM_RISK text ->
    MatchedKeywords CRISIS_KEYWORDS.MEDIUM_RISK text ks ->
    TieredReference text (Some MEDIUM) ks
| reference_low ks :
    ~ AnyMatch CRISIS_KEYWORDS.HIGH_RISK text ->
    ~ AnyMatch CRISIS_KEYWORDS.MEDIUM_RISK text ->
    AnyMatch CRISIS_KEYWORDS.LOW_RISK text ->
    MatchedKeywords CRISIS_KEYWORDS.LOW_RISK text ks ->
    TieredReference text (Some LOW) ks
| reference_none :
    ~ AnyMatch CRISIS_KEYWORDS.HIGH_RISK text ->
    ~ AnyMatch CRISIS_KEYWORDS.MEDIUM_RISK text ->
    ~ AnyMatch CRISIS_KEYWORDS.LOW_RISK text ->
    TieredReference text None [].

(** Sample inputs: an environment with fixed clock readings, a request
    that opens a conversation, a request inside a conversation, and a text
    of [n] letters. *)
Definition sampleEnv (outcome : ProviderOutcome) : Env :=
  {| env_createdAt := 1000; env_startTime := 2000; env_endTime := 92000;
     env_updatedAt := 93000; env_today := 0; env_outcome := outcome |}.

Definition newChat (text : string) : RequestBody :=
  {| conversationId := None; content := Some text |}.

Definition inChat (id : nat) (text : string) : RequestBody :=
  {| conversationId := Some id; content := Some text |}.

Fixpoint letters (n : nat) : string :=
  match n with
  | O => EmptyString
  | S n' => String "a"%char (letters n')
  end.

(** A store whose only row is the wellness profile of user 7, region
    Canada. *)
Definition canadianProfile : WellnessProfile :=
  {| wp_userId := 7; wp_region := Some "Canada"; wp_healthGoals := None;
     wp_dietaryRestrictions := None; wp_crisisMonitoring := true |}.

Definition canadianWorld : World :=
  mkWorld [] [] {[ 7 := canadianProfile ]} [] ∅ 0 [].

(** A store whose only row is the wellness profile of user 7, with crisis
    monitoring switched off. *)
Definition optedOutProfile : WellnessProfile :=
  {| wp_userId := 7; wp_region := None; wp_healthGoals := None;
     wp_dietaryRestrictions := None; wp_crisisMonitoring := false |}.

Definition optedOutWorld : World :=
  mkWorld [] [] {[ 7 := optedOutProfile ]} [] ∅ 0 [].

(** The empty store. *)
Definition emptyWorld : World :=
  mkWorld [] [] ∅ [] ∅ 0 [].

(** ** Vocabulary of the further properties *)

(** The word lists of the five checks of [analyzeResponse], in the order
    the checks are made. *)
Definition exerciseTerms : list string :=
  [ "workout"; "exercise"; "training"; "fitness" ].
Definition nutritionTerms : list string :=
  [ "nutrition"; "meal"; "diet"; "food"; "recipe"; "calories" ].
Definition mentalHealthTerms : list string :=
  [ "stress"; "anxiety"; "mental"; "meditation"; "mindfulness" ].
Definition sleepTerms : list string := [ "sleep"; "rest"; "recovery" ].
Definition greetingTerms : list string := [ "hello"; "hi"; "hey" ].

(** The rank of a verdict of the classifier: no risk, LOW, MEDIUM, HIGH. *)
Definition severity (r : option CrisisRiskLevel) : nat :=
  match r with
  | None => 0
  | Some LOW => 1
  | Some MEDIUM => 2
  | Some HIGH => 3
  | Some CRITICAL => 4
  end.

(** The first character of [k] is no white space; the last character of
    [k] is no white space. *)
Definition startsNonWhite (k : string) : bool :=
  match k with
  | EmptyString => false
  | String c _ => negb (isWhiteSpace c)
  end.

Fixpoint endsNonWhite (k : string) : bool :=
  match k with
  | EmptyString => false
  | String c EmptyString => negb (isWhiteSpace c)
  | String _ k' => endsNonWhite k'
  end.

(** The day's conversation time in minutes, 0 when the day has no row. *)
Definition conversationTimeOn (userId : nat) (date : Z) (w : World) : Z :=
  match chatAnalytics w !! (userId, date) with
  | Some r => ca_conversationTime r
  | None => 0
  end.


(** The response carries the conversation [conv]. *)
Definition repliesIn (conv : ChatConversation) (r : Response) : Prop :=
  match r with
  | Rejected _ _ => False
  | CrisisReply c _ _ _ _ => c = conv
  | ChatReply c _ _ _ => c = conv
  end.

(** Sample stores: one in which user 8 owns conversation 3, and one whose
    only row is the wellness profile of user 7 with a health goals column
    that is not JSON text. *)
Definition othersConversation : ChatConversation :=
  {| conv_id := 3; conv_userId := 8; conv_isActive := true;
     conv_lastMessageAt := Some 500%Z |}.

Definition sharedWorld : World :=
  mkWorld [othersConversation] [] ∅ [] ∅ 4 [].

Definition unparsableProfile : WellnessProfile :=
  {| wp_userId := 7; wp_region := None;
     wp_healthGoals := Some (ParseThrows "lose weight, sleep better");
     wp_dietaryRestrictions := None; wp_crisisMonitoring := true |}.

Definition unparsableWorld : World :=
  mkWorld [] [] {[ 7 := unparsableProfile ]} [] ∅ 0 [].

(** ** The read routes of jojo.js *)

(** The answer of a read route:
    [res.status(status).json({ success: false, message })] or
    [res.json({ success: true, data })]. *)
Inductive Reply (A : Type) :=
| Refused (status : nat) (message : string)
| Served (data : A).

Arguments Refused {A} status message.
Arguments Served {A} data.

(** What the caller and the store see of one read. *)
Definition replied {A} (x : (A + A) * World) : A * World :=
  match x with
  | (inl r, w') => (r, w')
  | (inr r, w') => (r, w')
  end.

(** The columns [id, content, sender, messageType, responseTime,
    confidence] of a message row ([createdAt] is the position of the row in
    the table). *)
Record MessageRow := {
  row_id : nat;
  row_content : string;
  row_sender : MessageSender;
  row_messageType : MessageType;
  row_responseTime : option Z;
  row_confidence : option nat;
}.

Definition selectRow (m : ChatMessage) : MessageRow :=
  {| row_id := msg_id m; row_content := msg_content m;
     row_sender := msg_sender m; row_messageType := msg_messageType m;
     row_responseTime := msg_responseTime m;
     row_confidence := msg_confidence m |}.

(** The rows of a conversation in the order of their creation. *)
Definition messagesOf (conversationId : nat) (w : World) : list ChatMessage :=
  List.filter (fun m => (msg_conversationId m =? conversationId)%nat)
              (chatMessages w).

(** [chatMessage.findMany({ where: { conversationId },
    orderBy: { createdAt: 'asc' }, skip, take, select })]; without [take],
    all rows from [skip] on. *)
Definition chatMessage_findManyAsc {E} (conversationId skip : nat)
    (take : option nat) : Eff E (list MessageRow) :=
  fun w =>
    let rows := skipn skip (messagesOf conversationId w) in
    (inr (map selectRow (match take with
                         | Some n => firstn n rows
                         | None => rows
                         end)), w).

(** [chatConversation.findUnique({ where: { id, userId },
    include: { _count: { select: { messages: true } } } })] *)
Definition chatConversation_findUniqueWithCount {E} (id userId : nat)
    : Eff E (option (ChatConversation * nat)) :=
  fun w =>
    (inr (match List.find (fun c => (conv_id c =? id)%nat
                                    && (conv_userId c =? userId)%nat)
                          (chatConversations w) with
          | Some c => Some (c, length (messagesOf id w))
          | None => None
          end), w).

(** *** GET /api/jojo/current-chat/:conversationId *)

(** One entry of [chatMessages]; [timestamp] and [displayTime] are left
    out. *)
Record ChatLine := {
  line_id : nat;
  line_text : string;
  line_isUser : bool;
  line_isJojo : bool;
  line_responseTime : option Z;
  line_confidence : option nat;
  line_type : MessageType;
}.

Definition chatLine (msg : MessageRow) : ChatLine :=
  {| line_id := row_id msg;
     line_text := row_content msg;
     line_isUser := bool_decide (row_sender msg = USER);
     line_isJojo := bool_decide (row_sender msg = JOJO);
     line_responseTime := row_responseTime msg;
     line_confidence := row_confidence msg;
     line_type := row_messageType msg |}.

Record CurrentChat := {
  cc_conversationId : nat;
  cc_messages : list ChatLine;
  cc_messageCount : nat;
}.

Definition getCurrentChat (userId conversationId : nat)
    : Eff (Reply CurrentChat) (Reply CurrentChat) :=
  conversation <- prisma.chatConversation_findUnique conversationId userId ;;
  match conversation with
  | None => leave (Refused 404 "Conversation not found")
  | Some conversation =>
      messages <- chatMessage_findManyAsc conversationId 0 None ;;
      let chatMessages := map chatLine messages in
      ret (Served {| cc_conversationId := conv_id conversation;
                     cc_messages := chatMessages;
                     cc_messageCount := length chatMessages |})
  end.

(** *** GET /api/jojo/recent-chats and GET /api/jojo/conversations *)

(** [a] sorts before [b] under [orderBy: { lastMessageAt: 'desc' }]; rows
    without a time come last (the datasource is SQLite, which sorts NULL
    lowest), and rows that compare equal keep the order of the table. *)
Definition sortsBefore (a b : ChatConversation) : bool :=
  match conv_lastMessageAt a, conv_lastMessageAt b with
  | Some x, Some y => (y <=? x)%Z
  | Some _, None => true
  | None, Some _ => false
  | None, None => true
  end.

Fixpoint insertDesc (c : ChatConversation) (l : list ChatConversation)
    : list ChatConversation :=
  match l with
  | [] => [c]
  | d :: l' => if sortsBefore c d then c :: d :: l' else d :: insertDesc c l'
  end.

Definition orderByLastMessageAtDesc (l : list ChatConversation)
    : list ChatConversation :=
  foldr insertDesc [] l.

(** A conversation with [include: { messages: { orderBy: { createdAt:
    'desc' }, take: 1 }, _count: { select: { messages: true } } }]. *)
Record ConversationWithMessages := {
  cw_conversation : ChatConversation;
  cw_messages : list ChatMessage;
  cw_count : nat;
}.

Definition includeMessages (w : World) (c : ChatConversation)
    : ConversationWithMessages :=
  {| cw_conversation := c;
     cw_messages := firstn 1 (rev (messagesOf (conv_id c) w));
     cw_count := length (messagesOf (conv_id c) w) |}.

(** The rows selected by [where: { userId, isActive: true }]. *)
Definition activeOf (userId : nat) (w : World) : list ChatConversation :=
  List.filter (fun c => (conv_userId c =? userId)%nat && conv_isActive c)
              (chatConversations w).

(** [chatConversation.findMany({ where: { userId, isActive: true },
    orderBy: { lastMessageAt: 'desc' }, skip, take, include })] *)
Definition chatConversation_findMany {E} (userId skip take : nat)
    : Eff E (list ConversationWithMessages) :=
  fun w =>
    (inr (map (includeMessages w)
              (firstn take
                 (skipn skip (orderByLastMessageAtDesc (activeOf userId w))))),
     w).

(** [chatConversation.count({ where: { userId, isActive: true } })] *)
Definition chatConversation_count {E} (userId : nat) : Eff E nat :=
  fun w => (inr (length (activeOf userId w)), w).

Record ChatPreview := {
  pv_text : string;
  pv_isFromUser : bool;
}.

Record RecentChat := {
  rc_id : nat;
  rc_lastMessageAt : option Z;
  rc_messageCount : nat;
  rc_preview : option ChatPreview;
  rc_timeAgo : string;
}.

(** [getTimeAgo] is called at line 126 and is neither defined nor
    imported in the module: evaluating the call raises a ReferenceError. *)
Definition getTimeAgo (lastMessageAt : option Z) : Eff string string :=
  leave "ReferenceError: getTimeAgo is not defined".

(** The arrow function mapped over [recentConversations]. *)
Definition formatChat (conv : ConversationWithMessages) : Eff string RecentChat :=
  let preview :=
    match cw_messages conv with
    | m :: _ =>
        Some {| pv_text := if (80 <? String.length (msg_content m))%nat
                           then substring0 80 (msg_content m) +:+ "..."
                           else msg_content m;
                pv_isFromUser := bool_decide (msg_sender m = USER) |}
    | [] => None
    end in
  timeAgo <- getTimeAgo (conv_lastMessageAt (cw_conversation conv)) ;;
  ret {| rc_id := conv_id (cw_conversation conv);
         rc_lastMessageAt := conv_lastMessageAt (cw_conversation conv);
         rc_messageCount := cw_count conv;
         rc_preview := preview;
         rc_timeAgo := timeAgo |}.

(** [array.map(f)] for a callback that may throw. *)
Fixpoint mapM {E A B} (f : A -> Eff E B) (l : list A) : Eff E (list B) :=
  match l with
  | [] => ret []
  | x :: l' =>
      y <- f x ;;
      ys <- mapM f l' ;;
      ret (y :: ys)
  end.

(** [limit] is the value of [parseInt(limit)], a natural number, or absent
    (then 10). *)
Definition getRecentChats (userId : nat) (limit : option nat)
    : Eff (Reply (list RecentChat)) (Reply (list RecentChat)) :=
  tryCatch
    (recentConversations <-
       chatConversation_findMany userId 0
         (match limit with Some n => n | None => 10 end) ;;
     formattedChats <- mapM formatChat recentConversations ;;
     ret (Served formattedChats))
    (fun error : string => ret (Refused 500 "Failed to get recent chats")).

Record Pagination := {
  pg_page : Z;
  pg_limit : Z;
  pg_total : Z;
  pg_pages : Z;
  pg_hasNext : bool;
  pg_hasPrev : bool;
}.

(** [parseInt] of a query parameter that holds an integer, or the default
    of the destructuring when the parameter is absent. *)
Definition queryInt (default : Z) (param : option Z) : Z :=
  match param with
  | Some n => n
  | None => default
  end.

(** [Math.ceil(total / limitNum)] for [limitNum >= 1]. *)
Definition ceilDiv (total limitNum : Z) : Z := (- ((- total) / limitNum))%Z.

Record ConversationSummary := {
  cs_conversation : ConversationWithMessages;
  cs_lastMessage : option ChatMessage;
  cs_messageCount : nat;
}.

Record ConversationPage := {
  cp_conversations : list ConversationSummary;
  cp_pagination : Pagination;
}.

Definition getConversations (userId : nat) (page limit : option Z)
    : Eff (Reply ConversationPage) (Reply ConversationPage) :=
  let pageNum := Z.max 1 (queryInt 1 page) in
  let limitNum := Z.min 50 (Z.max 1 (queryInt 20 limit)) in
  conversations <-
    chatConversation_findMany userId (Z.to_nat ((pageNum - 1) * limitNum))
                              (Z.to_nat limitNum) ;;
  total <- chatConversation_count userId ;;
  ret (Served
         {| cp_conversations :=
              map (fun conv =>
                     {| cs_conversation := conv;
                        cs_lastMessage := head (cw_messages conv);
                        cs_messageCount := cw_count conv |})
                  conversations;
            cp_pagination :=
              {| pg_page := pageNum;
                 pg_limit := limitNum;
                 pg_total := Z.of_nat total;
                 pg_pages := ceilDiv (Z.of_nat total) limitNum;
                 pg_hasNext := (pageNum * limitNum <? Z.of_nat total)%Z;
                 pg_hasPrev := (1 <? pageNum)%Z |} |}).

(** *** GET /api/jojo/conversation/:id/history *)

Record ConversationHistory := {
  ch_conversationId : nat;
  ch_lastMessageAt : option Z;
  ch_messageCount : nat;
  ch_messages : list MessageRow;
  ch_pagination : Pagination;
}.

Definition getConversationHistory (userId conversationId : nat)
    (page limit : option Z)
    : Eff (Reply ConversationHistory) (Reply ConversationHistory) :=
  let pageNum := Z.max 1 (queryInt 1 page) in
  let limitNum := Z.min 100 (Z.max 1 (queryInt 50 limit)) in
  conversation <-
    chatConversation_findUniqueWithCount conversationId userId ;;
  match conversation with
  | None => leave (Refused 404 "Conversation not found or access denied")
  | Some (conversation, count) =>
      messages <-
        chatMessage_findManyAsc conversationId
          (Z.to_nat ((pageNum - 1) * limitNum)) (Some (Z.to_nat limitNum)) ;;
      let total := count in
      ret (Served
             {| ch_conversationId := conv_id conversation;
                ch_lastMessageAt := conv_lastMessageAt conversation;
                ch_messageCount := total;
                ch_messages := messages;
                ch_pagination :=
                  {| pg_page := pageNum;
                     pg_limit := limitNum;
                     pg_total := Z.of_nat total;
                     pg_pages := ceilDiv (Z.of_nat total) limitNum;
                     pg_hasNext := (pageNum * limitNum <? Z.of_nat total)%Z;
                     pg_hasPrev := (1 <? pageNum)%Z |} |})
  end.

(** The messages a read of the history returned, none for a refusal; the
    pagination block; the conversations a page of the list returned. *)
Definition servedMessages (r : Reply ConversationHistory) : list MessageRow :=
  match r with
  | Served h => ch_messages h
  | Refused _ _ => []
  end.

Definition historyPage (userId conversationId : nat) (limit : option Z)
    (w : World) (page : nat) : list MessageRow :=
  servedMessages
    (fst (replied (getConversationHistory userId conversationId
                     (Some (Z.of_nat page)) limit w))).

Definition servedConversations (r : Reply ConversationPage)
    : list ChatConversation :=
  match r with
  | Served p => map (fun s => cw_conversation (cs_conversation s))
                    (cp_conversations p)
  | Refused _ _ => []
  end.

Definition conversationsPage (userId : nat) (limit : option Z) (w : World)
    (page : nat) : list ChatConversation :=
  servedConversations
    (fst (replied (getConversations userId (Some (Z.of_nat page)) limit w))).

(** A store with one conversation of user 7 that holds three messages. *)
Definition ownConversation : ChatConversation :=
  {| conv_id := 1; conv_userId := 7; conv_isActive := true;
     conv_lastMessageAt := Some 900%Z |}.

Definition sampleMessage (id : nat) (sender : MessageSender) (text : string)
    : ChatMessage :=
  {| msg_id := id; msg_conversationId := 1; msg_userId := 7;
     msg_content := text; msg_sender := sender; msg_messageType := TEXT;
     msg_responseTime := None; msg_confidence := None;
     msg_triggerKeywords := None |}.

Definition chattyWorld : World :=
  mkWorld [ownConversation; othersConversation]
          [ sampleMessage 10 USER "Any tips for today?";
            sampleMessage 11 JOJO "Drink water.";
            sampleMessage 12 USER "Thanks" ]
          ∅ [] ∅ 13 [].

(** * Properties *)

(** ** Strings *)

Section StringFacts.

Lemma append_cons (x : ascii) (a b : string) :
  String x a +:+ b = String x (a +:+ b).
Proof. reflexivity. Qed.

Lemma append_empty_l (b : string) : EmptyString +:+ b = b.
Proof. reflexivity. Qed.

Lemma append_assoc (a b c : string) : (a +:+ b) +:+ c = a +:+ (b +:+ c).
Proof.
  induction a as [|x a IH]; [reflexivity|].
  now rewrite !append_cons, IH.
Qed.

Lemma append_empty_r (a : string) : a +:+ EmptyString = a.
Proof.
  induction a as [|x a IH]; [reflexivity|].
  now rewrite append_cons, IH.
Qed.

Lemma length_append (a b : string) :
  String.length (a +:+ b) = String.length a + String.length b.
Proof.
  induction a as [|x a IH]; [reflexivity|].
  rewrite append_cons. simpl. now rewrite IH.
Qed.

Lemma toLowerCase_append (a b : string) :
  toLowerCase (a +:+ b) = toLowerCase a +:+ toLowerCase b.
Proof.
  induction a as [|x a IH]; [reflexivity|].
  rewrite append_cons. simpl. now rewrite IH, append_cons.
Qed.

Lemma toLowerCase_length (s : string) :
  String.length (toLowerCase s) = String.length s.
Proof. induction s as [|x s IH]; simpl; [reflexivity | now rewrite IH]. Qed.

Lemma lowerChar_idem (c : ascii) : lowerChar (lowerChar c) = lowerChar c.
Proof.
  destruct c as [[] [] [] [] [] [] [] []]; vm_compute; reflexivity.
Qed.

Lemma toLowerCase_idem (s : string) : toLowerCase (toLowerCase s) = toLowerCase s.
Proof.
  induction s as [|x s IH]; simpl; [reflexivity|].
  now rewrite lowerChar_idem, IH.
Qed.

(** A split of the lower-cased text comes from a split of the text. *)
Lemma toLowerCase_split (s a' b' : string) :
  toLowerCase s = a' +:+ b' ->
  exists a b, s = a +:+ b /\ toLowerCase a = a' /\ toLowerCase b = b'.
Proof.
  revert s; induction a' as [|x a' IH]; intros s H.
  - exists EmptyString, s. rewrite append_empty_l in H. auto.
  - destruct s as [|y s]; rewrite append_cons in H; simpl in H; [discriminate|].
    injection H as Hx Hs.
    destruct (IH _ Hs) as (a & b & -> & Ha & Hb).
    exists (String y a), b. rewrite append_cons. simpl. rewrite Ha, Hx. auto.
Qed.

Lemma startsWith_spec (s k : string) :
  startsWith s k = true <-> exists c, s = k +:+ c.
Proof.
  revert s; induction k as [|a k IH]; intros s; simpl.
  - split; [intros _; now exists s | reflexivity].
  - destruct s as [|b s].
    + split; [discriminate | intros [c H]; discriminate].
    + destruct (Ascii.eqb_spec a b) as [->|Hne].
      * rewrite IH. split; intros [c H]; exists c.
        -- now rewrite H.
        -- rewrite append_cons in H. now injection H.
      * split; [discriminate|]. intros [c H].
        rewrite append_cons in H. injection H as H1 _.
        now symmetry in H1.
Qed.

Lemma includes_spec (s k : string) :
  includes s k = true <-> IsSubstring k s.
Proof.
  unfold IsSubstring.
  induction s as [|b s IH].
  - cbn [includes]. rewrite orb_false_r, startsWith_spec.
    split.
    + intros [c H]. now exists EmptyString, c.
    + intros (a & c & H). destruct a; [now exists c|discriminate].
  - cbn [includes]. rewrite orb_true_iff, startsWith_spec, IH.
    split.
    + intros [[c H] | (a & c & H)].
      * now exists EmptyString, c.
      * exists (String b a), c. rewrite append_cons. now rewrite H.
    + intros (a & c & H). destruct a as [|x a].
      * left. now exists c.
      * right. rewrite append_cons in H. injection H as _ H. now exists a, c.
Qed.

(** Against a lower-case phrase, [includes] on the lower-cased text is
    containment up to letter case. *)
Lemma includes_toLowerCase (s k : string) :
  toLowerCase k = k ->
  includes (toLowerCase s) k = true <-> ContainsIgnoringCase s k.
Proof.
  intros Hk. rewrite includes_spec. unfold IsSubstring, ContainsIgnoringCase.
  split.
  - intros (a' & c' & H).
    destruct (toLowerCase_split _ _ _ H) as (a & bc & -> & _ & Hbc).
    destruct (toLowerCase_split _ _ _ Hbc) as (b & c & -> & Hb & _).
    exists a, b, c. split; [reflexivity|]. now rewrite Hk.
  - intros (a & b & c & -> & Hb).
    exists (toLowerCase a), (toLowerCase c).
    rewrite !toLowerCase_append, Hb, Hk. reflexivity.
Qed.

Lemma trimStart_allWhiteSpace (s : string) :
  allWhiteSpace (trimStart s) = allWhiteSpace s.
Proof.
  induction s as [|c s IH]; simpl; [reflexivity|].
  destruct (isWhiteSpace c) eqn:E; simpl; [exact IH | now rewrite E].
Qed.

Lemma trimEnd_empty (s : string) :
  trimEnd s = EmptyString <-> allWhiteSpace s = true.
Proof.
  induction s as [|c s IH]; simpl; [tauto|].
  destruct (trimEnd s) eqn:E.
  - destruct (isWhiteSpace c); simpl.
    + rewrite <- IH. tauto.
    + split; discriminate.
  - rewrite andb_true_iff. split; [discriminate|].
    intros [_ H]. apply IH in H. discriminate.
Qed.

Lemma trim_empty (s : string) :
  trim s = EmptyString <-> allWhiteSpace s = true.
Proof. unfold trim. now rewrite trimEnd_empty, trimStart_allWhiteSpace. Qed.

Lemma length_zero (s : string) : String.length s = 0 <-> s = EmptyString.
Proof. destruct s; simpl; split; (reflexivity || discriminate). Qed.

End StringFacts.

(** ** The keyword risk classifier *)

Section Classifier.

Lemma keywords_lower_case :
  Forall (fun k => toLowerCase k = k)
         (CRISIS_KEYWORDS.HIGH_RISK ++ CRISIS_KEYWORDS.MEDIUM_RISK
          ++ CRISIS_KEYWORDS.LOW_RISK).
Proof. repeat (constructor; [vm_compute; reflexivity|]). constructor. Qed.

Lemma tier_lower_case (tier : list string) :
  tier = CRISIS_KEYWORDS.HIGH_RISK \/ tier = CRISIS_KEYWORDS.MEDIUM_RISK
  \/ tier = CRISIS_KEYWORDS.LOW_RISK ->
  Forall (fun k => toLowerCase k = k) tier.
Proof.
  pose proof keywords_lower_case as H.
  apply Forall_app in H as [H1 H]. apply Forall_app in H as [H2 H3].
  intros [-> | [-> | ->]]; assumption.
Qed.

Lemma filter_sublist {A} (f : A -> bool) (l : list A) :
  sublist (List.filter f l) l.
Proof.
  induction l as [|x l IH]; simpl; [constructor|].
  destruct (f x); now constructor.
Qed.

(** The list a tier's [filter] call yields is the reference's match list. *)
Lemma found_matched (tier : list string) (message : string) :
  Forall (fun k => toLowerCase k = k) tier ->
  MatchedKeywords tier message
    (List.filter (fun keyword => includes (toLowerCase message) keyword) tier).
Proof.
  intros Hlow. split; [apply filter_sublist|].
  rewrite Forall_forall in Hlow.
  intros k. split.
  - intros Hk. apply list_elem_of_In, filter_In in Hk as [Hin Hk].
    apply list_elem_of_In in Hin.
    split; [assumption|]. apply includes_toLowerCase; auto.
  - intros [Hin Hk]. apply list_elem_of_In, filter_In.
    split; [now apply list_elem_of_In|]. apply includes_toLowerCase; auto.
Qed.

(** [found.length > 0] says that some phrase of the tier occurs. *)
Lemma found_nonempty (tier : list string) (message : string) :
  Forall (fun k => toLowerCase k = k) tier ->
  (0 <? length (List.filter (fun keyword => includes (toLowerCase message) keyword)
                            tier))%nat = true
  <-> AnyMatch tier message.
Proof.
  intros Hlow. destruct (found_matched tier message Hlow) as [_ Hm].
  rewrite Nat.ltb_lt. split.
  - intros Hlen.
    destruct (List.filter _ tier) as [|k ks] eqn:E; [simpl in Hlen; lia|].
    exists k. apply Hm. left.
  - intros (k & Hin & Hk).
    assert (Hk' : k ∈ List.filter
                    (fun keyword => includes (toLowerCase message) keyword) tier)
      by (apply Hm; auto).
    destruct (List.filter _ tier); [inversion Hk' | simpl; lia].
Qed.

Lemma detectTier_reference (message : string) :
  TieredReference message (fst (detectTier message)) (snd (detectTier message)).
Proof.
  unfold detectTier.
  pose proof (found_nonempty CRISIS_KEYWORDS.HIGH_RISK message
                (tier_lower_case _ (or_introl eq_refl))) as HH.
  pose proof (found_nonempty CRISIS_KEYWORDS.MEDIUM_RISK message
                (tier_lower_case _ (or_intror (or_introl eq_refl)))) as HM.
  pose proof (found_nonempty CRISIS_KEYWORDS.LOW_RISK message
                (tier_lower_case _ (or_intror (or_intror eq_refl)))) as HL.
  destruct (0 <? length (List.filter _ CRISIS_KEYWORDS.HIGH_RISK))%nat eqn:EH.
  { cbn [fst snd app]. apply reference_high; [now apply HH|].
    apply found_matched, tier_lower_case; auto. }
  destruct (0 <? length (List.filter _ CRISIS_KEYWORDS.MEDIUM_RISK))%nat eqn:EM.
  { cbn [fst snd app]. apply reference_medium.
    - rewrite <- HH. discriminate.
    - now apply HM.
    - apply found_matched, tier_lower_case; auto. }
  destruct (0 <? length (List.filter _ CRISIS_KEYWORDS.LOW_RISK))%nat eqn:EL.
  { cbn [fst snd app]. apply reference_low.
    - rewrite <- HH. discriminate.
    - rewrite <- HM. discriminate.
    - now apply HL.
    - apply found_matched, tier_lower_case; auto. }
  cbn [fst snd]. apply reference_none.
  - rewrite <- HH. discriminate.
  - rewrite <- HM. discriminate.
  - rewrite <- HL. discriminate.
Qed.

Lemma detectCrisis_tier (message : string) (profile : option WellnessProfile) :
  riskLevel (detectCrisis message profile) = fst (detectTier message)
  /\ keywords (detectCrisis message profile) = snd (detectTier message).
Proof.
  unfold detectCrisis.
  pose proof (detectTier_reference message) as H.
  destruct (detectTier message) as [[r|] ks]; cbn in *; [auto|].
  inversion H; auto.
Qed.

Lemma isCrisis_riskLevel (d : CrisisDetection) :
  isCrisis d = false <-> riskLevel d = None.
Proof. destruct d; simpl; split; (reflexivity || discriminate). Qed.

End Classifier.

Section ClassifierClaims.

(** C2.  For every input string, [detectCrisis] implements the tiered
    reference algorithm: HIGH with all matched HIGH phrases when some HIGH
    phrase occurs in the text up to letter case, whatever MEDIUM or LOW
    phrases occur too; otherwise MEDIUM with all matched MEDIUM phrases;
    otherwise LOW with all matched LOW phrases; and no risk exactly when no
    phrase of the three lists occurs. *)
Theorem detectCrisis_tiered (message : string) (profile : option WellnessProfile) :
  let d := detectCrisis message profile in
  TieredReference message (riskLevel d) (keywords d)
  /\ (AnyMatch CRISIS_KEYWORDS.HIGH_RISK message ->
      riskLevel d = Some HIGH
      /\ MatchedKeywords CRISIS_KEYWORDS.HIGH_RISK message (keywords d))
  /\ (~ AnyMatch CRISIS_KEYWORDS.HIGH_RISK message ->
      AnyMatch CRISIS_KEYWORDS.MEDIUM_RISK message ->
      riskLevel d = Some MEDIUM
      /\ MatchedKeywords CRISIS_KEYWORDS.MEDIUM_RISK message (keywords d))
  /\ (~ AnyMatch CRISIS_KEYWORDS.HIGH_RISK message ->
      ~ AnyMatch CRISIS_KEYWORDS.MEDIUM_RISK message ->
      AnyMatch CRISIS_KEYWORDS.LOW_RISK message ->
      riskLevel d = Some LOW
      /\ MatchedKeywords CRISIS_KEYWORDS.LOW_RISK message (keywords d))
  /\ (isCrisis d = false <->
      forall k, k ∈ CRISIS_KEYWORDS.HIGH_RISK ++ CRISIS_KEYWORDS.MEDIUM_RISK
                    ++ CRISIS_KEYWORDS.LOW_RISK ->
                ~ ContainsIgnoringCase message k).
Proof.
  intros d.
  assert (Href : TieredReference message (riskLevel d) (keywords d)).
  { subst d. destruct (detectCrisis_tier message profile) as [-> ->].
    apply detectTier_reference. }
  split; [exact Href|].
  rewrite isCrisis_riskLevel.
  assert (Hall : (forall k, k ∈ CRISIS_KEYWORDS.HIGH_RISK
                               ++ CRISIS_KEYWORDS.MEDIUM_RISK
                               ++ CRISIS_KEYWORDS.LOW_RISK ->
                            ~ ContainsIgnoringCase message k)
                 <-> ~ AnyMatch CRISIS_KEYWORDS.HIGH_RISK message
                     /\ ~ AnyMatch CRISIS_KEYWORDS.MEDIUM_RISK message
                     /\ ~ AnyMatch CRISIS_KEYWORDS.LOW_RISK message).
  { unfold AnyMatch. split.
    - intros H. repeat split; intros (k & Hin & Hk); apply (H k);
        rewrite ?elem_of_app; auto.
    - intros (H1 & H2 & H3) k Hin Hk.
      rewrite !elem_of_app in Hin. destruct Hin as [Hin | [Hin | Hin]];
        [apply H1 | apply H2 | apply H3]; exists k; auto. }
  rewrite Hall.
  inversion Href; subst; (split; [|split; [|split]]); intros;
    try (exfalso; tauto);
    try (split; [congruence | assumption]);
    try (split; [discriminate | tauto]);
    try tauto.
Qed.

(** A message that mixes the three tiers is classified HIGH, with the HIGH
    phrase alone. *)
Lemma detectCrisis_tiered_witness :
  AnyMatch CRISIS_KEYWORDS.HIGH_RISK
           "I want to KILL MYSELF, I am hopeless and depressed"
  /\ riskLevel (detectCrisis "I want to KILL MYSELF, I am hopeless and depressed"
                             None) = Some HIGH
  /\ keywords (detectCrisis "I want to KILL MYSELF, I am hopeless and depressed"
                            None) = ["kill myself"].
Proof.
  assert (H : AnyMatch CRISIS_KEYWORDS.HIGH_RISK
                "I want to KILL MYSELF, I am hopeless and depressed").
  { exists "kill myself". split; [left|].
    exists "I want to ", "KILL MYSELF", ", I am hopeless and depressed".
    split; reflexivity. }
  split; [exact H|].
  destruct (detectCrisis_tiered
              "I want to KILL MYSELF, I am hopeless and depressed" None)
    as (_ & Hhigh & _).
  destruct (Hhigh H) as [Hr _].
  split; [exact Hr | reflexivity].
Defined.

(** The classifier does not look at the wellness profile for its verdict,
    its risk level or its keyword list. *)
Lemma detectCrisis_ignores_profile (message : string)
    (profile1 profile2 : option WellnessProfile) :
  isCrisis (detectCrisis message profile1) = isCrisis (detectCrisis message profile2)
  /\ riskLevel (detectCrisis message profile1)
     = riskLevel (detectCrisis message profile2)
  /\ keywords (detectCrisis message profile1)
     = keywords (detectCrisis message profile2).
Proof.
  unfold detectCrisis.
  destruct (detectTier message) as [[r|] ks]; repeat split.
Qed.

End ClassifierClaims.

(** ** Region resolution *)

Section Regions.

Lemma includes_region (region k : string) :
  toLowerCase k = k ->
  includes (regionLower (Some region)) k = true <-> ContainsIgnoringCase region k.
Proof. intros Hk. unfold regionLower. now apply includes_toLowerCase. Qed.

Lemma includes_region_false (region k : string) :
  toLowerCase k = k ->
  ~ ContainsIgnoringCase region k ->
  includes (regionLower (Some region)) k = false.
Proof.
  intros Hk Hn. apply not_true_is_false. intros H.
  apply Hn. now apply includes_region.
Qed.

(** The hotline list is resolved by a case-insensitive substring match
    on a fixed table: Nigeria, USA, UK and Canada have their own lists, the
    earlier entry winning; any other region and an absent region get the
    fallback list; [detectCrisis] hands out the list resolved for the
    profile's region. *)
Lemma getCrisisHotlines_resolution :
  (forall region, ContainsIgnoringCase region "nigeria" ->
     getCrisisHotlines (Some region)
     = ["+234 809 210 6493"; "199"; "911"; "08000333333"])
  /\ getCrisisHotlines (Some "Nigeria")
     = ["+234 809 210 6493"; "199"; "911"; "08000333333"]
  /\ getCrisisHotlines (Some "USA") = ["988"; "741741"; "911"; "1-800-799-7233"]
  /\ getCrisisHotlines (Some "UK") = ["116 123"; "85258"; "999"; "0808 2000 247"]
  /\ getCrisisHotlines (Some "Canada") = ["1-833-456-4566"; "45645"; "911"]
  /\ (forall region, ~ ContainsIgnoringCase region "nigeria" ->
        ContainsIgnoringCase region "usa" ->
        getCrisisHotlines (Some region)
        = ["988"; "741741"; "911"; "1-800-799-7233"])
  /\ (forall region, ~ ContainsIgnoringCase region "nigeria" ->
        ~ ContainsIgnoringCase region "usa" ->
        ContainsIgnoringCase region "uk" ->
        getCrisisHotlines (Some region)
        = ["116 123"; "85258"; "999"; "0808 2000 247"])
  /\ (forall region, ~ ContainsIgnoringCase region "nigeria" ->
        ~ ContainsIgnoringCase region "usa" ->
        ~ ContainsIgnoringCase region "uk" ->
        ContainsIgnoringCase region "canada" ->
        getCrisisHotlines (Some region) = ["1-833-456-4566"; "45645"; "911"])
  /\ (forall region, ~ ContainsIgnoringCase region "nigeria" ->
        ~ ContainsIgnoringCase region "usa" ->
        ~ ContainsIgnoringCase region "uk" ->
        ~ ContainsIgnoringCase region "canada" ->
        getCrisisHotlines (Some region) = ["Local emergency services"])
  /\ getCrisisHotlines None = ["Local emergency services"]
  /\ (forall region,
        getCrisisHotlines region
        ∈ [ ["+234 809 210 6493"; "199"; "911"; "08000333333"];
            ["988"; "741741"; "911"; "1-800-799-7233"];
            ["116 123"; "85258"; "999"; "0808 2000 247"];
            ["1-833-456-4566"; "45645"; "911"];
            ["Local emergency services"] ])
  /\ (forall message profile,
        isCrisis (detectCrisis message profile) = true ->
        hotlines (detectCrisis message profile)
        = getCrisisHotlines (profileRegion profile)).
Proof.
  assert (Hyes : forall region k, toLowerCase k = k ->
            ContainsIgnoringCase region k ->
            includes (regionLower (Some region)) k = true)
    by (intros; now apply includes_region).
  pose proof includes_region_false as Hno.
  repeat match goal with |- _ /\ _ => split end.
  - intros region H. unfold getCrisisHotlines.
    now rewrite (Hyes region "nigeria" eq_refl H).
  - vm_compute; reflexivity.
  - vm_compute; reflexivity.
  - vm_compute; reflexivity.
  - vm_compute; reflexivity.
  - intros region H1 H2. unfold getCrisisHotlines.
    now rewrite (Hno region "nigeria" eq_refl H1), (Hyes region "usa" eq_refl H2).
  - intros region H1 H2 H3. unfold getCrisisHotlines.
    now rewrite (Hno region "nigeria" eq_refl H1), (Hno region "usa" eq_refl H2),
      (Hyes region "uk" eq_refl H3).
  - intros region H1 H2 H3 H4. unfold getCrisisHotlines.
    now rewrite (Hno region "nigeria" eq_refl H1), (Hno region "usa" eq_refl H2),
      (Hno region "uk" eq_refl H3), (Hyes region "canada" eq_refl H4).
  - intros region H1 H2 H3 H4. unfold getCrisisHotlines.
    now rewrite (Hno region "nigeria" eq_refl H1), (Hno region "usa" eq_refl H2),
      (Hno region "uk" eq_refl H3), (Hno region "canada" eq_refl H4).
  - reflexivity.
  - intros region. unfold getCrisisHotlines.
    repeat (destruct (includes (regionLower region) _);
            [rewrite !elem_of_cons; tauto|]).
    rewrite !elem_of_cons; tauto.
  - intros message profile. unfold detectCrisis.
    destruct (detectTier message) as [[r|] ks]; [reflexivity | discriminate].
Qed.

(** The hotline block of the message text is resolved by a second table,
    [getLocalHotlines], with the same match: a region that contains
    "nigeria" in any letter case gets the Nigeria block, USA and UK get
    theirs, an absent region gets the international block, and so does a
    region that matches none of its fragments. *)
Lemma getLocalHotlines_resolution :
  (forall region, ContainsIgnoringCase region "nigeria" ->
     getLocalHotlines (Some region) = nigeriaContacts)
  /\ getLocalHotlines (Some "Nigeria") = nigeriaContacts
  /\ getLocalHotlines (Some "USA") = usaResources
  /\ getLocalHotlines (Some "UK") = ukResources
  /\ getLocalHotlines None = internationalResources
  /\ (forall region,
        ~ ContainsIgnoringCase region "nigeria" ->
        ~ ContainsIgnoringCase region "ng" ->
        ~ ContainsIgnoringCase region "usa" ->
        ~ ContainsIgnoringCase region "united states" ->
        ~ ContainsIgnoringCase region "uk" ->
        ~ ContainsIgnoringCase region "united kingdom" ->
        getLocalHotlines (Some region) = internationalResources).
Proof.
  repeat match goal with |- _ /\ _ => split end.
  - intros region H. unfold getLocalHotlines.
    now rewrite (proj2 (includes_region region "nigeria" eq_refl) H).
  - vm_compute; reflexivity.
  - vm_compute; reflexivity.
  - vm_compute; reflexivity.
  - vm_compute; reflexivity.
  - intros region H1 H2 H3 H4 H5 H6. unfold getLocalHotlines.
    now rewrite !includes_region_false.
Qed.

(** C6.  On the region Canada the two region tables of the crisis
    response part: the hotline list resolves to the Canadian numbers, while
    the text block of the message, whose table has no entry for Canada,
    resolves to the international block.  A user whose profile says Canada
    and who sends a HIGH message is answered with the international block,
    and the crisis log records the Canadian numbers as provided. *)
Theorem canada_hotline_block :
  getCrisisHotlines (Some "Canada") = ["1-833-456-4566"; "45645"; "911"]
  /\ getLocalHotlines (Some "Canada") = internationalResources
  /\ (forall level,
        generateCrisisResponse (Some "Canada") level
        = generateCrisisResponse None level)
  /\ exists conv um jm log w',
       postMessage (sampleEnv (Completed "Hello")) 7
                   (newChat "I want to kill myself") canadianWorld
       = (CrisisReply conv um jm HIGH ["kill myself"], w')
       /\ crisisLogs w' = [log]
       /\ cl_userRegion log = Some "Canada"
       /\ cl_hotlinesProvided log = ["1-833-456-4566"; "45645"; "911"]
       /\ msg_content jm
          = highOpening +:+ internationalResources +:+ highClosing.
Proof.
  split; [vm_compute; reflexivity|].
  split; [vm_compute; reflexivity|].
  split; [intros []; vm_compute; reflexivity|].
  eexists _, _, _, _, _.
  split; [vm_compute; reflexivity|].
  repeat split.
Qed.

End Regions.

(** ** The message-send handler *)

Section Handler.

Variable env : Env.
Variable userId : nat.

Ltac eff :=
  cbn [bind ret leave tryCatch freshId sent
       prisma.chatConversation_findUnique prisma.chatConversation_create
       prisma.chatConversation_update prisma.chatMessage_create
       prisma.chatMessage_findMany prisma.wellnessProfile_findUnique
       prisma.crisisLog_create prisma.chatAnalytics_upsert axios_post
       setNextId setConversations setMessages setCrisisLogs setAnalytics
       setProviderCalls
       chatConversations chatMessages wellnessProfiles crisisLogs
       chatAnalytics nextId providerCalls fst snd].

Lemma bind_inr {E A B} (m : Eff E A) (k : A -> Eff E B) (w w' : World) (a : A) :
  m w = (inr a, w') -> bind m k w = k a w'.
Proof. intros H. unfold bind. now rewrite H. Qed.

Lemma bind_inl {E A B} (m : Eff E A) (k : A -> Eff E B) (w w' : World) (e : E) :
  m w = (inl e, w') -> bind m k w = (inl e, w').
Proof. intros H. unfold bind. now rewrite H. Qed.

(** *** Validation *)

Lemma validation_passes (c : string) :
  trim c <> EmptyString -> String.length c <= 2000 ->
  (match c with EmptyString => true | _ => false end
   || (String.length (trim c) =? 0)) = false
  /\ (2000 <? String.length c) = false.
Proof.
  intros Ht Hl. split.
  - destruct c; [now destruct Ht|]. cbn [orb].
    apply Nat.eqb_neq. now rewrite length_zero.
  - apply Nat.ltb_ge. lia.
Qed.

Lemma validContent_dec (body : RequestBody) :
  validContent body \/ ~ validContent body.
Proof.
  unfold validContent. destruct (content body) as [c|].
  - destruct (string_dec (trim c) EmptyString) as [Ht|Ht].
    + right. intros (c' & [= <-] & H & _). auto.
    + destruct (le_lt_dec (String.length c) 2000) as [Hl|Hl].
      * left. eauto.
      * right. intros (c' & [= <-] & _ & H). lia.
  - right. intros (c' & [=] & _).
Qed.

(** A request whose content fails the checks is answered 400 and the store
    is left as it was. *)
Lemma sendMessage_invalid (body : RequestBody) (w : World) :
  ~ validContent body ->
  exists message, sendMessage env userId body w = (inl (Rejected 400 message), w).
Proof.
  intros Hn. unfold sendMessage.
  destruct (content body) as [c|] eqn:Ec; [|eexists; reflexivity].
  destruct (match c with EmptyString => true | _ => false end
            || (String.length (trim c) =? 0)) eqn:E1; [eexists; reflexivity|].
  destruct (2000 <? String.length c) eqn:E2; [eexists; reflexivity|].
  exfalso. apply Hn. exists c. split; [exact Ec|].
  apply orb_false_iff in E1 as [_ E1]. apply Nat.eqb_neq in E1.
  apply Nat.ltb_ge in E2. rewrite length_zero in E1. auto.
Qed.

(** *** Conversation resolution *)

Lemma find_some_elem_of {A} (f : A -> bool) (l : list A) (x : A) :
  List.find f l = Some x -> x ∈ l /\ f x = true.
Proof.
  intros H. apply find_some in H as [H1 H2].
  split; [now apply list_elem_of_In | assumption].
Qed.

Lemma getOrCreateConversation_resolves (body : RequestBody) (w : World) :
  conversationResolves userId body w ->
  exists conversation w1,
    getOrCreateConversation env userId (conversationId body) w
    = (inr conversation, w1)
    /\ conversation ∈ chatConversations w1
    /\ conv_userId conversation = userId
    /\ (forall id, conversationId body = Some id ->
          conv_id conversation = id /\ w1 = w)
    /\ chatMessages w1 = chatMessages w
    /\ wellnessProfiles w1 = wellnessProfiles w
    /\ crisisLogs w1 = crisisLogs w
    /\ chatAnalytics w1 = chatAnalytics w
    /\ providerCalls w1 = providerCalls w.
Proof.
  unfold conversationResolves, getOrCreateConversation.
  destruct (conversationId body) as [id|].
  - intros (c & Hin & Hid & Hu). eff.
    destruct (List.find _ (chatConversations w)) as [conv|] eqn:Ef.
    + apply find_some_elem_of in Ef as [Hin' Hf].
      apply andb_true_iff in Hf as [H1 H2].
      apply Nat.eqb_eq in H1, H2.
      exists conv, w. repeat split; auto; now injection H as <-.
    + exfalso. apply list_elem_of_In in Hin.
      pose proof (find_none _ _ Ef c Hin) as Hf. cbn beta in Hf.
      rewrite Hid, Hu, !Nat.eqb_refl in Hf. discriminate.
  - intros _. eff. eexists _, _. split; [reflexivity|]. eff.
    repeat split; try discriminate.
    rewrite elem_of_app, list_elem_of_singleton. now right.
Qed.

Lemma getOrCreateConversation_missing (body : RequestBody) (w : World) :
  ~ conversationResolves userId body w ->
  getOrCreateConversation env userId (conversationId body) w
  = (inl (Rejected 404 "Conversation not found"), w).
Proof.
  unfold conversationResolves, getOrCreateConversation.
  destruct (conversationId body) as [id|]; [|tauto].
  intros Hn. eff.
  destruct (List.find _ (chatConversations w)) as [conv|] eqn:Ef; [|reflexivity].
  exfalso. apply Hn.
  apply find_some_elem_of in Ef as [Hin Hf].
  apply andb_true_iff in Hf as [H1 H2]. apply Nat.eqb_eq in H1, H2.
  eauto.
Qed.

(** *** The two branches *)

(** The crisis branch stores one log row and one assistant row, updates the
    conversation, and answers; it touches neither the analytics table nor
    the completion endpoint. *)
Lemma crisisBranch_run (content : string) (conv : ChatConversation)
    (um : ChatMessage) (profile : option WellnessProfile)
    (r : CrisisRiskLevel) (ks : list string) (resp : string)
    (res hot : list string) (w : World) :
  let log :=
    {| cl_id := nextId w; cl_userId := userId;
       cl_messageId := Some (msg_id um); cl_triggerContent := content;
       cl_keywords := ks; cl_riskLevel := r; cl_responseGiven := resp;
       cl_resourcesShared := res; cl_userRegion := profileRegion profile;
       cl_hotlinesProvided := hot;
       cl_followUpNeeded := bool_decide (r = HIGH);
       cl_adminNotified := bool_decide (r = HIGH) |} in
  let jm :=
    {| msg_id := S (nextId w); msg_conversationId := conv_id conv;
       msg_userId := userId; msg_content := resp; msg_sender := JOJO;
       msg_messageType := CRISIS_RESPONSE; msg_responseTime := None;
       msg_confidence := None; msg_triggerKeywords := None |} in
  crisisBranch env userId content conv um profile r ks resp res hot w
  = (inl (CrisisReply conv um jm r ks),
     mkWorld (touch (conv_id conv) (env_updatedAt env) (chatConversations w))
             (chatMessages w ++ [jm]) (wellnessProfiles w)
             (crisisLogs w ++ [log]) (chatAnalytics w) (S (S (nextId w)))
             (providerCalls w)).
Proof. reflexivity. Qed.

(** The [messages] array of the one HTTP call. *)
Lemma generateAiResponse_called (content : string)
    (profile : option WellnessProfile) (history : list ChatMessage) (w : World) :
  reachesProvider profile = true ->
  generateAiResponse env content profile history w
  = (inr (match env_outcome env with
          | Completed text =>
              {| ai_content := text;
                 ai_type := an_type (analyzeResponse text content);
                 ai_confidence := an_confidence (analyzeResponse text content);
                 ai_keywords := an_keywords (analyzeResponse text content);
                 ai_topics := an_topics (analyzeResponse text content);
                 ai_fallbackUsed := false |}
          | Failed _ => getFallbackResponse profile
          end, "groq"),
     setProviderCalls
       (providerCalls w
        ++ [SystemPrompt profile
            :: formatConversationHistory (firstn 5 history)
            ++ [Turn RoleUser content]]) w).
Proof.
  unfold reachesProvider. rewrite !andb_true_iff, !negb_true_iff.
  intros [[H1 H2] H3].
  unfold generateAiResponse, generateJoJoResponse, parseColumn.
  rewrite H1, H2, H3. eff.
  destruct (env_outcome env); reflexivity.
Qed.

(** Without the HTTP call the reply is one of the two static fallbacks and
    the world is untouched. *)
Lemma generateAiResponse_not_called (content : string)
    (profile : option WellnessProfile) (history : list ChatMessage) (w : World) :
  reachesProvider profile = false ->
  generateAiResponse env content profile history w
  = (inr (routeFallback, "fallback"), w)
  \/ generateAiResponse env content profile history w
     = (inr (getFallbackResponse profile, "groq"), w).
Proof.
  unfold reachesProvider, generateAiResponse, generateJoJoResponse, parseColumn.
  destruct (parseThrows (profile ≫= wp_healthGoals)); [now left|].
  destruct (parseThrows (profile ≫= wp_dietaryRestrictions)); [now left|].
  destruct (createSystemPromptThrows profile); [now right|discriminate].
Qed.

(** In every case the AI step yields a reply and changes nothing but the
    record of HTTP calls, which grows by at most one call. *)
Lemma generateAiResponse_frame (content : string)
    (profile : option WellnessProfile) (history : list ChatMessage) (w : World) :
  exists ai provider wa,
    generateAiResponse env content profile history w = (inr (ai, provider), wa)
    /\ chatConversations wa = chatConversations w
    /\ chatMessages wa = chatMessages w
    /\ wellnessProfiles wa = wellnessProfiles w
    /\ crisisLogs wa = crisisLogs w
    /\ chatAnalytics wa = chatAnalytics w
    /\ nextId wa = nextId w
    /\ (providerCalls wa = providerCalls w
        \/ exists call, providerCalls wa = providerCalls w ++ [call]).
Proof.
  destruct (reachesProvider profile) eqn:E.
  - eexists _, _, _. split; [now apply generateAiResponse_called|].
    eff. repeat split. right. eauto.
  - destruct (generateAiResponse_not_called content profile history w E)
      as [H|H]; eexists _, _, _; (split; [exact H|]); repeat split; now left.
Qed.

Lemma aiBranch_run (content : string) (conv : ChatConversation)
    (um : ChatMessage) (profile : option WellnessProfile)
    (history : list ChatMessage) (w wa : World) (ai : AiResponse)
    (provider : string) :
  generateAiResponse env content profile history w = (inr (ai, provider), wa) ->
  let responseTime := (env_endTime env - env_startTime env)%Z in
  let jm :=
    {| msg_id := nextId wa; msg_conversationId := conv_id conv;
       msg_userId := userId; msg_content := ai_content ai; msg_sender := JOJO;
       msg_messageType := mapMessageType (ai_type ai);
       msg_responseTime := Some responseTime;
       msg_confidence := Some (confidenceOr70 ai);
       msg_triggerKeywords := Some (ai_keywords ai) |} in
  aiBranch env userId content conv um profile history w
  = (inr (ChatReply conv um jm
            {| md_responseTime := responseTime;
               md_confidence := confidenceOr70 ai;
               md_messageType := typeOrSuggestion ai;
               md_aiProvider := provider;
               md_keywords := ai_keywords ai |}),
     mkWorld (touch (conv_id conv) (env_updatedAt env) (chatConversations wa))
             (chatMessages wa ++ [jm]) (wellnessProfiles wa) (crisisLogs wa)
             (<[(userId, env_today env) :=
                  upsertedRow userId (env_today env) (minutesOf responseTime)
                              (chatAnalytics wa)]> (chatAnalytics wa))
             (S (nextId wa)) (providerCalls wa)).
Proof.
  intros H responseTime jm. unfold aiBranch.
  rewrite (bind_inr _ _ _ _ _ H). reflexivity.
Qed.

(** *** An accepted request *)

(** Up to the crisis check: the conversation is resolved, the user's
    message is stored with the trimmed content, and the handler continues
    in one of the two branches. *)
Lemma sendMessage_accepted (body : RequestBody) (w : World) (c : string) :
  content body = Some c ->
  trim c <> EmptyString -> String.length c <= 2000 ->
  conversationResolves userId body w ->
  exists conv um w2,
    sendMessage env userId body w
    = match detectCrisis c (wellnessProfiles w !! userId) with
      | Crisis r ks resp res hot =>
          crisisBranch env userId c conv um (wellnessProfiles w !! userId)
                       r ks resp res hot w2
      | NoCrisis =>
          aiBranch env userId c conv um (wellnessProfiles w !! userId)
                   (firstn 10 (newestFirst (conv_id conv) (chatMessages w2))) w2
      end
    /\ chatMessages w2 = chatMessages w ++ [um]
    /\ msg_content um = trim c
    /\ msg_sender um = USER
    /\ msg_conversationId um = conv_id conv
    /\ conv ∈ chatConversations w2
    /\ conv_userId conv = userId
    /\ (forall id, conversationId body = Some id ->
          conv_id conv = id /\ chatConversations w2 = chatConversations w)
    /\ wellnessProfiles w2 = wellnessProfiles w
    /\ crisisLogs w2 = crisisLogs w
    /\ chatAnalytics w2 = chatAnalytics w
    /\ providerCalls w2 = providerCalls w.
Proof.
  intros Hc Ht Hl Hres.
  destruct (validation_passes c Ht Hl) as [E1 E2].
  destruct (getOrCreateConversation_resolves body w Hres)
    as (conv & w1 & Hrun & Hin & Hu & Hid & Hm & Hp & Hlog & Ha & Hcalls).
  unfold sendMessage. rewrite Hc, E1, E2.
  rewrite (bind_inr _ _ _ _ _ Hrun). unfold saveUserMessage. eff.
  rewrite Hp.
  set (um := {| msg_id := nextId w1; msg_conversationId := conv_id conv;
                msg_userId := userId; msg_content := trim c;
                msg_sender := USER; msg_messageType := TEXT;
                msg_responseTime := None; msg_confidence := None;
                msg_triggerKeywords := None |}).
  exists conv, um,
    (setMessages (chatMessages w1 ++ [um]) (setNextId (S (nextId w1)) w1)).
  split; [destruct (detectCrisis c (wellnessProfiles w !! userId)); reflexivity|].
  eff.
  rewrite Hm.
  repeat match goal with |- _ /\ _ => split end; auto.
  intros id Hsome. destruct (Hid id Hsome) as [? ->]. auto.
Qed.

(** The conversation a request runs in carries the update time afterwards. *)
Lemma touch_elem (id : nat) (t : Z) (l : list ChatConversation)
    (c : ChatConversation) :
  c ∈ l -> conv_id c = id ->
  exists c', c' ∈ touch id t l /\ conv_id c' = id
             /\ conv_userId c' = conv_userId c
             /\ conv_lastMessageAt c' = Some t.
Proof.
  intros Hin Hid.
  exists {| conv_id := conv_id c; conv_userId := conv_userId c;
            conv_isActive := conv_isActive c; conv_lastMessageAt := Some t |}.
  repeat split; auto.
  unfold touch. apply list_elem_of_fmap. exists c. split; [|assumption].
  now rewrite Hid, Nat.eqb_refl.
Qed.

(** An accepted message on which a risk tier is detected. *)
Lemma postMessage_crisis (body : RequestBody) (w : World) (c : string)
    (r : CrisisRiskLevel) (ks : list string) (resp : string)
    (res hot : list string) :
  content body = Some c ->
  trim c <> EmptyString -> String.length c <= 2000 ->
  conversationResolves userId body w ->
  detectCrisis c (wellnessProfiles w !! userId) = Crisis r ks resp res hot ->
  exists conv um jm log w',
    postMessage env userId body w = (CrisisReply conv um jm r ks, w')
    /\ chatMessages w' = chatMessages w ++ [um; jm]
    /\ msg_content um = trim c /\ msg_sender um = USER
    /\ msg_content jm = resp /\ msg_sender jm = JOJO
    /\ msg_messageType jm = CRISIS_RESPONSE
    /\ crisisLogs w' = crisisLogs w ++ [log]
    /\ cl_riskLevel log = r /\ cl_keywords log = ks
    /\ cl_messageId log = Some (msg_id um)
    /\ cl_followUpNeeded log = bool_decide (r = HIGH)
    /\ cl_adminNotified log = bool_decide (r = HIGH)
    /\ chatAnalytics w' = chatAnalytics w
    /\ providerCalls w' = providerCalls w
    /\ (exists conv', conv' ∈ chatConversations w'
                       /\ conv_id conv' = conv_id conv
                       /\ conv_lastMessageAt conv' = Some (env_updatedAt env)).
Proof.
  intros Hc Ht Hl Hres Hd.
  destruct (sendMessage_accepted body w c Hc Ht Hl Hres)
    as (conv & um & w2 & Hrun & Hm & Hum1 & Hum2 & _ & Hin & _ & _ & _
        & Hlog & Ha & Hcalls).
  unfold postMessage. rewrite Hrun, Hd, crisisBranch_run.
  eexists conv, um, _, _, _. split; [reflexivity|].
  cbn [chatMessages crisisLogs chatAnalytics providerCalls chatConversations
       msg_content msg_sender msg_messageType cl_riskLevel cl_keywords
       cl_messageId cl_followUpNeeded cl_adminNotified].
  rewrite Hm, Hlog, <- app_assoc.
  repeat match goal with |- _ /\ _ => split end; auto.
  destruct (touch_elem (conv_id conv) (env_updatedAt env) _ conv Hin eq_refl)
    as (c' & H1 & H2 & _ & H3).
  eauto.
Qed.

(** An accepted message on which no risk is detected. *)
Lemma postMessage_chat (body : RequestBody) (w : World) (c : string) :
  content body = Some c ->
  trim c <> EmptyString -> String.length c <= 2000 ->
  conversationResolves userId body w ->
  detectCrisis c (wellnessProfiles w !! userId) = NoCrisis ->
  exists conv um ai provider jm w',
    postMessage env userId body w
    = (ChatReply conv um jm
         {| md_responseTime := (env_endTime env - env_startTime env)%Z;
            md_confidence := confidenceOr70 ai;
            md_messageType := typeOrSuggestion ai;
            md_aiProvider := provider;
            md_keywords := ai_keywords ai |}, w')
    /\ chatMessages w' = chatMessages w ++ [um; jm]
    /\ msg_content um = trim c /\ msg_sender um = USER
    /\ msg_conversationId um = conv_id conv
    /\ msg_content jm = ai_content ai /\ msg_sender jm = JOJO
    /\ msg_messageType jm = mapMessageType (ai_type ai)
    /\ crisisLogs w' = crisisLogs w
    /\ chatAnalytics w'
       = <[(userId, env_today env) :=
             upsertedRow userId (env_today env)
               (minutesOf (env_endTime env - env_startTime env))
               (chatAnalytics w)]> (chatAnalytics w)
    /\ (exists conv', conv' ∈ chatConversations w'
                       /\ conv_id conv' = conv_id conv
                       /\ conv_lastMessageAt conv' = Some (env_updatedAt env))
    /\ (reachesProvider (wellnessProfiles w !! userId) = true ->
        provider = "groq"
        /\ ai = match env_outcome env with
                | Completed text =>
                    {| ai_content := text;
                       ai_type := an_type (analyzeResponse text c);
                       ai_confidence := an_confidence (analyzeResponse text c);
                       ai_keywords := an_keywords (analyzeResponse text c);
                       ai_topics := an_topics (analyzeResponse text c);
                       ai_fallbackUsed := false |}
                | Failed _ => getFallbackResponse (wellnessProfiles w !! userId)
                end
        /\ providerCalls w'
           = providerCalls w
             ++ [SystemPrompt (wellnessProfiles w !! userId)
                 :: formatConversationHistory
                      (firstn 5 (firstn 10
                         (newestFirst (conv_id conv) (chatMessages w ++ [um]))))
                 ++ [Turn RoleUser c]])
    /\ (reachesProvider (wellnessProfiles w !! userId) = false ->
        providerCalls w' = providerCalls w
        /\ (ai = routeFallback /\ provider = "fallback"
            \/ ai = getFallbackResponse (wellnessProfiles w !! userId)
               /\ provider = "groq")).
Proof.
  intros Hc Ht Hl Hres Hd.
  destruct (sendMessage_accepted body w c Hc Ht Hl Hres)
    as (conv & um & w2 & Hrun & Hm & Hum1 & Hum2 & Hum3 & Hin & _ & _ & _
        & Hlog & Ha & Hcalls).
  unfold postMessage. rewrite Hrun, Hd.
  set (profile := wellnessProfiles w !! userId).
  set (history := firstn 10 (newestFirst (conv_id conv) (chatMessages w2))).
  destruct (touch_elem (conv_id conv) (env_updatedAt env) _ conv Hin eq_refl)
    as (c' & Hc1 & Hc2 & _ & Hc3).
  destruct (reachesProvider profile) eqn:Er.
  - pose proof (generateAiResponse_called c profile history w2 Er) as Hai.
    rewrite (aiBranch_run _ _ _ _ _ _ _ _ _ Hai).
    eexists conv, um, _, _, _, _. split; [reflexivity|].
    cbn [chatMessages crisisLogs chatAnalytics providerCalls chatConversations
         setProviderCalls msg_content msg_sender msg_messageType].
    rewrite Hm, Hlog, Ha, Hcalls, <- app_assoc.
    subst history. rewrite Hm.
    repeat match goal with |- _ /\ _ => split end; auto; eauto; discriminate.
  - destruct (generateAiResponse_not_called c profile history w2 Er) as [Hai|Hai];
      rewrite (aiBranch_run _ _ _ _ _ _ _ _ _ Hai);
      (eexists conv, um, _, _, _, _; split; [reflexivity|]);
      cbn [chatMessages crisisLogs chatAnalytics providerCalls chatConversations
           msg_content msg_sender msg_messageType];
      rewrite Hm, Hlog, Ha, Hcalls, <- app_assoc;
      repeat match goal with |- _ /\ _ => split end; auto; eauto;
      discriminate.
Qed.

Lemma conversationResolves_dec (body : RequestBody) (w : World) :
  conversationResolves userId body w \/ ~ conversationResolves userId body w.
Proof.
  unfold conversationResolves.
  destruct (conversationId body) as [id|]; [|now left].
  destruct (List.find (fun c => (conv_id c =? id) && (conv_userId c =? userId))
                      (chatConversations w)) as [conv|] eqn:Ef.
  - left. apply find_some_elem_of in Ef as [Hin Hf].
    apply andb_true_iff in Hf as [H1 H2]. apply Nat.eqb_eq in H1, H2. eauto.
  - right. intros (c & Hin & Hid & Hu). apply list_elem_of_In in Hin.
    pose proof (find_none _ _ Ef c Hin) as Hf. cbn beta in Hf.
    rewrite Hid, Hu, !Nat.eqb_refl in Hf. discriminate.
Qed.

(** A request that names a conversation the caller does not own is
    answered 404 and the store is left as it was. *)
Lemma postMessage_unresolved (body : RequestBody) (w : World) :
  validContent body -> ~ conversationResolves userId body w ->
  postMessage env userId body w = (Rejected 404 "Conversation not found", w).
Proof.
  intros (c & Hc & Ht & Hl) Hn.
  destruct (validation_passes c Ht Hl) as [E1 E2].
  unfold postMessage, sendMessage. rewrite Hc, E1, E2.
  now rewrite (bind_inl _ _ _ _ _ (getOrCreateConversation_missing body w Hn)).
Qed.

Lemma postMessage_invalid (body : RequestBody) (w : World) :
  ~ validContent body ->
  exists message, postMessage env userId body w = (Rejected 400 message, w).
Proof.
  intros Hn. destruct (sendMessage_invalid body w Hn) as [m Hm].
  exists m. unfold postMessage. now rewrite Hm.
Qed.

End Handler.

(** ** The claims on the message-send operation *)

Section MessageSend.

(** C1.  For every inbound message on which the classifier detects a risk
    tier, the handler never calls the completion endpoint (the record of
    calls is the same after the request as before, whatever the endpoint
    would have answered), and for an accepted request the reply is the
    rendered safety text for the detected tier and the profile's region,
    stored as the assistant message. *)
Theorem crisis_reply_bypasses_provider (env : Env) (userId : nat)
    (body : RequestBody) (w : World) (c : string) :
  content body = Some c ->
  isCrisis (detectCrisis c (wellnessProfiles w !! userId)) = true ->
  providerCalls (snd (postMessage env userId body w)) = providerCalls w
  /\ (accepted userId body w ->
      exists conv um jm r ks,
        fst (postMessage env userId body w) = CrisisReply conv um jm r ks
        /\ riskLevel (detectCrisis c (wellnessProfiles w !! userId)) = Some r
        /\ keywords (detectCrisis c (wellnessProfiles w !! userId)) = ks
        /\ msg_content jm
           = generateCrisisResponse
               (profileRegion (wellnessProfiles w !! userId)) r
        /\ msg_sender jm = JOJO
        /\ msg_messageType jm = CRISIS_RESPONSE
        /\ jm ∈ chatMessages (snd (postMessage env userId body w))).
Proof.
  intros Hc Hcrisis.
  destruct (detectCrisis c (wellnessProfiles w !! userId))
    as [|r ks resp res hot] eqn:Hd; [discriminate|].
  assert (Hresp : resp = generateCrisisResponse
                           (profileRegion (wellnessProfiles w !! userId)) r).
  { unfold detectCrisis in Hd.
    destruct (detectTier c) as [[r'|] ks']; [|discriminate].
    now injection Hd as <- _ <- _ _. }
  assert (Hacc : accepted userId body w ->
            exists conv um jm w',
              postMessage env userId body w = (CrisisReply conv um jm r ks, w')
              /\ providerCalls w' = providerCalls w
              /\ msg_content jm = resp /\ msg_sender jm = JOJO
              /\ msg_messageType jm = CRISIS_RESPONSE
              /\ jm ∈ chatMessages w').
  { intros [(c' & Hc' & Ht & Hl) Hres].
    rewrite Hc in Hc'. injection Hc' as <-.
    destruct (postMessage_crisis env userId body w c r ks resp res hot
                Hc Ht Hl Hres Hd)
      as (conv & um & jm & log & w' & Hrun & Hm & _ & _ & Hj1 & Hj2 & Hj3 & _
          & _ & _ & _ & _ & _ & _ & Hcalls & _).
    exists conv, um, jm, w'. repeat split; auto.
    rewrite Hm, !elem_of_app, !elem_of_cons. auto. }
  split.
  - destruct (validContent_dec body) as [Hv|Hv].
    + destruct (conversationResolves_dec userId body w) as [Hr|Hr].
      * destruct (Hacc (conj Hv Hr)) as (? & ? & ? & w' & -> & Hcalls & _).
        exact Hcalls.
      * now rewrite (postMessage_unresolved env userId body w Hv Hr).
    + destruct (postMessage_invalid env userId body w Hv) as [m ->].
      reflexivity.
  - intros Ha.
    destruct (Hacc Ha) as (conv & um & jm & w' & -> & _ & H1 & H2 & H3 & H4).
    exists conv, um, jm, r, ks. cbn [fst snd riskLevel keywords].
    rewrite <- Hresp. repeat split; assumption.
Qed.

(** A HIGH message in a new conversation: no call is recorded. *)
Lemma crisis_reply_bypasses_provider_witness :
  content (newChat "I want to kill myself") = Some "I want to kill myself"
  /\ isCrisis (detectCrisis "I want to kill myself"
                            (wellnessProfiles emptyWorld !! 7)) = true
  /\ providerCalls
       (snd (postMessage (sampleEnv (Completed "Hello")) 7
                         (newChat "I want to kill myself") emptyWorld)) = [].
Proof.
  assert (H : isCrisis (detectCrisis "I want to kill myself"
                          (wellnessProfiles emptyWorld !! 7)) = true)
    by (vm_compute; reflexivity).
  split; [reflexivity|]. split; [exact H|].
  exact (proj1 (crisis_reply_bypasses_provider
                  (sampleEnv (Completed "Hello")) 7
                  (newChat "I want to kill myself") emptyWorld
                  "I want to kill myself" eq_refl H)).
Defined.

Lemma assistantMessages_exchange (l : list ChatMessage) (um jm : ChatMessage) :
  msg_sender um = USER -> msg_sender jm = JOJO ->
  assistantMessages (l ++ [um; jm]) = assistantMessages l ++ [jm].
Proof.
  intros Hu Hj. unfold assistantMessages.
  rewrite List.filter_app. cbn [List.filter]. now rewrite Hu, Hj.
Qed.

(** C3.  Every accepted user message makes the handler store exactly one
    assistant message (the message table grows by the user's row followed
    by one assistant row), and exactly one crisis log row when the
    classifier detected risk and none otherwise; in that row
    [followUpNeeded] and [adminNotified] are true exactly when the risk
    level is HIGH. *)
Theorem accepted_message_persistence (env : Env) (userId : nat)
    (body : RequestBody) (w : World) (c : string) :
  content body = Some c ->
  accepted userId body w ->
  let d := detectCrisis c (wellnessProfiles w !! userId) in
  let w' := snd (postMessage env userId body w) in
  (exists um jm,
     chatMessages w' = chatMessages w ++ [um; jm]
     /\ msg_sender um = USER /\ msg_sender jm = JOJO
     /\ assistantMessages (chatMessages w')
        = assistantMessages (chatMessages w) ++ [jm])
  /\ (isCrisis d = true ->
      exists log,
        crisisLogs w' = crisisLogs w ++ [log]
        /\ Some (cl_riskLevel log) = riskLevel d
        /\ (cl_followUpNeeded log = true <-> cl_riskLevel log = HIGH)
        /\ (cl_adminNotified log = true <-> cl_riskLevel log = HIGH))
  /\ (isCrisis d = false -> crisisLogs w' = crisisLogs w)
  /\ (length (crisisLogs w') = S (length (crisisLogs w)) <-> isCrisis d = true).
Proof.
  intros Hc [(c' & Hc' & Ht & Hl) Hres] d w'.
  rewrite Hc in Hc'. injection Hc' as <-.
  subst w'. destruct d as [|r ks resp res hot] eqn:Hd; subst d.
  - destruct (postMessage_chat env userId body w c Hc Ht Hl Hres Hd)
      as (conv & um & ai & provider & jm & w' & -> & Hm & _ & Hu & _ & _ & Hj
          & _ & Hlog & _).
    cbn [snd isCrisis]. rewrite Hm, Hlog.
    repeat match goal with |- _ /\ _ => split end; try discriminate; auto.
    + exists um, jm. repeat split; auto using assistantMessages_exchange.
    + lia.
  - destruct (postMessage_crisis env userId body w c r ks resp res hot
                Hc Ht Hl Hres Hd)
      as (conv & um & jm & log & w' & -> & Hm & _ & Hu & _ & Hj & _ & Hlog
          & Hr & _ & _ & Hf & Ha & _).
    cbn [snd isCrisis riskLevel]. rewrite Hm, Hlog.
    repeat match goal with |- _ /\ _ => split end; try discriminate; auto.
    + exists um, jm. repeat split; auto using assistantMessages_exchange.
    + intros _. exists log. rewrite Hf, Ha, Hr.
      repeat split; auto; try apply bool_decide_eq_true.
    + rewrite length_app. cbn [length]. lia.
Qed.

(** A LOW message in a new conversation: one assistant row, one log row
    that asks for no follow-up. *)
Lemma accepted_message_persistence_witness :
  accepted 7 (newChat "I'm feeling a bit overwhelmed today") emptyWorld
  /\ exists um jm log,
       chatMessages (snd (postMessage (sampleEnv (Failed "timeout")) 7
                            (newChat "I'm feeling a bit overwhelmed today")
                            emptyWorld)) = [um; jm]
       /\ crisisLogs (snd (postMessage (sampleEnv (Failed "timeout")) 7
                             (newChat "I'm feeling a bit overwhelmed today")
                             emptyWorld)) = [log]
       /\ cl_riskLevel log = LOW /\ cl_followUpNeeded log = false.
Proof.
  assert (Hacc : accepted 7 (newChat "I'm feeling a bit overwhelmed today")
                   emptyWorld).
  { split; [|exact I]. eexists. split; [reflexivity|].
    split; [vm_compute; discriminate | cbn; lia]. }
  split; [exact Hacc|].
  destruct (accepted_message_persistence (sampleEnv (Failed "timeout")) 7
              (newChat "I'm feeling a bit overwhelmed today") emptyWorld
              "I'm feeling a bit overwhelmed today" eq_refl Hacc)
    as ((um & jm & Hm & _) & Hlog & _).
  destruct (Hlog ltac:(vm_compute; reflexivity)) as (log & Hl & Hr & Hf & _).
  assert (HL : riskLevel (detectCrisis "I'm feeling a bit overwhelmed today"
                            (wellnessProfiles emptyWorld !! 7)) = Some LOW)
    by (vm_compute; reflexivity).
  rewrite HL in Hr. injection Hr as Hr.
  exists um, jm, log.
  split; [exact Hm|]. split; [exact Hl|]. split; [exact Hr|].
  destruct (cl_followUpNeeded log); [|reflexivity].
  rewrite (proj1 Hf eq_refl) in Hr. discriminate Hr.
Defined.

(** The user's row of an accepted request. *)
Lemma postMessage_accepted_user_message (env : Env) (userId : nat)
    (body : RequestBody) (w : World) (c : string) :
  content body = Some c -> accepted userId body w ->
  exists conv um jm,
    ((exists r ks, fst (postMessage env userId body w)
                   = CrisisReply conv um jm r ks)
     \/ (exists md, fst (postMessage env userId body w)
                    = ChatReply conv um jm md))
    /\ chatMessages (snd (postMessage env userId body w))
       = chatMessages w ++ [um; jm]
    /\ msg_sender um = USER
    /\ msg_content um = trim c.
Proof.
  intros Hc [(c' & Hc' & Ht & Hl) Hres].
  rewrite Hc in Hc'. injection Hc' as <-.
  destruct (detectCrisis c (wellnessProfiles w !! userId))
    as [|r ks resp res hot] eqn:Hd.
  - destruct (postMessage_chat env userId body w c Hc Ht Hl Hres Hd)
      as (conv & um & ai & provider & jm & w' & -> & Hm & Hu1 & Hu2 & _).
    exists conv, um, jm. cbn [fst snd]. split; [right; eauto|auto].
  - destruct (postMessage_crisis env userId body w c r ks resp res hot
                Hc Ht Hl Hres Hd)
      as (conv & um & jm & log & w' & -> & Hm & Hu1 & Hu2 & _).
    exists conv, um, jm. cbn [fst snd]. split; [left; eauto|auto].
Qed.

(** C5.  Content of exactly 2000 characters passes validation (it is not
    answered 400, and with a resolvable conversation the user's message is
    stored); content of 2001 characters (of more than 2000), absent content
    and empty content are answered 400 with the store left exactly as it
    was: no conversation, message, crisis log or analytics row is created
    or changed. *)
Theorem content_length_limit (env : Env) (userId : nat) (w : World) :
  (forall body c,
     content body = Some c -> String.length c = 2000 ->
     trim c <> EmptyString ->
     validContent body
     /\ (forall message,
           fst (postMessage env userId body w) <> Rejected 400 message)
     /\ (conversationResolves userId body w ->
         exists um jm,
           chatMessages (snd (postMessage env userId body w))
           = chatMessages w ++ [um; jm]
           /\ msg_sender um = USER /\ msg_content um = trim c))
  /\ (forall body c,
        content body = Some c -> String.length c = 2000 ->
        fst (postMessage env userId body w)
        <> Rejected 400 "Message too long (max 2000 characters)")
  /\ (forall body c,
        content body = Some c -> String.length c = 2001 ->
        exists message,
          postMessage env userId body w = (Rejected 400 message, w))
  /\ (forall body c,
        content body = Some c -> 2000 < String.length c ->
        exists message,
          postMessage env userId body w = (Rejected 400 message, w)
          /\ (trim c <> EmptyString ->
              message = "Message too long (max 2000 characters)"))
  /\ (forall body,
        content body = None \/ content body = Some EmptyString ->
        postMessage env userId body w
        = (Rejected 400 "Message content is required", w)).
Proof.
  assert (Hlong : forall body c,
            content body = Some c -> 2000 < String.length c ->
            exists message,
              postMessage env userId body w = (Rejected 400 message, w)
              /\ (trim c <> EmptyString ->
                  message = "Message too long (max 2000 characters)")).
  { intros body c Hc Hl. unfold postMessage, sendMessage. rewrite Hc.
    destruct (match c with EmptyString => true | _ => false end
              || (String.length (trim c) =? 0)) eqn:E1.
    - eexists. split; [reflexivity|]. intros Ht. exfalso.
      apply orb_true_iff in E1 as [E1|E1].
      + destruct c; [now apply Ht | discriminate].
      + apply Nat.eqb_eq, length_zero in E1. auto.
    - apply Nat.ltb_lt in Hl. rewrite Hl. eexists. split; reflexivity. }
  assert (Hok : forall body c,
            content body = Some c -> String.length c = 2000 ->
            trim c <> EmptyString ->
            validContent body
            /\ (forall message,
                  fst (postMessage env userId body w) <> Rejected 400 message)
            /\ (conversationResolves userId body w ->
                exists um jm,
                  chatMessages (snd (postMessage env userId body w))
                  = chatMessages w ++ [um; jm]
                  /\ msg_sender um = USER /\ msg_content um = trim c)).
  { intros body c Hc Hl Ht.
    assert (Hv : validContent body) by (exists c; repeat split; auto; lia).
    split; [exact Hv|]. split.
    + intros message.
      destruct (conversationResolves_dec userId body w) as [Hr|Hr].
      * destruct (postMessage_accepted_user_message env userId body w c Hc
                    (conj Hv Hr)) as (conv & um & jm & [(r & ks & ->)|(md & ->)] & _);
          discriminate.
      * rewrite (postMessage_unresolved env userId body w Hv Hr).
        cbn [fst]. discriminate.
    + intros Hr.
      destruct (postMessage_accepted_user_message env userId body w c Hc
                  (conj Hv Hr)) as (conv & um & jm & _ & Hm & Hu & Hcontent).
      eauto. }
  repeat match goal with |- _ /\ _ => split end.
  - exact Hok.
  - intros body c Hc Hl.
    destruct (string_dec (trim c) EmptyString) as [Ht|Ht].
    + unfold postMessage, sendMessage. rewrite Hc, Ht.
      cbn [String.length Nat.eqb]. rewrite orb_true_r. cbn [sent leave fst].
      discriminate.
    + apply (Hok body c Hc Hl Ht).
  - intros body c Hc Hl.
    destruct (Hlong body c Hc ltac:(lia)) as (m & Hm & _). eauto.
  - exact Hlong.
  - intros body [Hc|Hc]; unfold postMessage, sendMessage; rewrite Hc;
      reflexivity.
Qed.

(** 2000 letters are accepted and stored; 2001 letters are rejected. *)
Lemma content_length_limit_witness :
  (String.length (letters 2000) = 2000 /\ trim (letters 2000) <> EmptyString)
  /\ (forall message,
        fst (postMessage (sampleEnv (Completed "Hello")) 7
                         (newChat (letters 2000)) emptyWorld)
        <> Rejected 400 message)
  /\ String.length (letters 2001) = 2001
  /\ exists message,
       postMessage (sampleEnv (Completed "Hello")) 7
                   (newChat (letters 2001)) emptyWorld
       = (Rejected 400 message, emptyWorld).
Proof.
  assert (H1 : String.length (letters 2000) = 2000) by (vm_compute; reflexivity).
  assert (H2 : trim (letters 2000) <> EmptyString) by (vm_compute; discriminate).
  assert (H3 : String.length (letters 2001) = 2001) by (vm_compute; reflexivity).
  destruct (content_length_limit (sampleEnv (Completed "Hello")) 7 emptyWorld)
    as (Hok & _ & Hbad & _).
  split; [split; assumption|].
  split; [exact (proj1 (proj2 (Hok (newChat (letters 2000)) (letters 2000)
                                   eq_refl H1 H2)))|].
  split; [exact H3|].
  exact (Hbad (newChat (letters 2001)) (letters 2001) eq_refl H3).
Defined.

(** C10.  Content that is not empty but consists of white space only is
    answered 400 with the store left as it was, exactly as empty content
    is; and when a request is accepted, the body of the stored user message
    is the trimmed content. *)
Theorem blank_content_rejected (env : Env) (userId : nat) (w : World) :
  (forall body c,
     content body = Some c -> c <> EmptyString -> allWhiteSpace c = true ->
     postMessage env userId body w
     = (Rejected 400 "Message content is required", w)
     /\ postMessage env userId body w
        = postMessage env userId
            {| conversationId := conversationId body;
               content := Some EmptyString |} w)
  /\ (forall body c,
        content body = Some c -> accepted userId body w ->
        exists conv um jm,
          ((exists r ks, fst (postMessage env userId body w)
                         = CrisisReply conv um jm r ks)
           \/ (exists md, fst (postMessage env userId body w)
                          = ChatReply conv um jm md))
          /\ chatMessages (snd (postMessage env userId body w))
             = chatMessages w ++ [um; jm]
          /\ msg_sender um = USER
          /\ msg_content um = trim c).
Proof.
  split.
  - intros body c Hc _ Hws.
    assert (E : postMessage env userId body w
                = (Rejected 400 "Message content is required", w)).
    { unfold postMessage, sendMessage. rewrite Hc.
      apply trim_empty in Hws. rewrite Hws. cbn [String.length Nat.eqb].
      now rewrite orb_true_r. }
    split; [exact E|]. now rewrite E.
  - intros body c. apply postMessage_accepted_user_message.
Qed.

(** Three blanks are rejected; a padded greeting is stored trimmed. *)
Lemma blank_content_rejected_witness :
  postMessage (sampleEnv (Completed "Hello")) 7 (newChat "   ") emptyWorld
  = (Rejected 400 "Message content is required", emptyWorld)
  /\ accepted 7 (newChat "  good morning  ") emptyWorld
  /\ exists um jm,
       chatMessages (snd (postMessage (sampleEnv (Completed "Hello")) 7
                            (newChat "  good morning  ") emptyWorld))
       = [um; jm]
       /\ msg_content um = "good morning".
Proof.
  destruct (blank_content_rejected (sampleEnv (Completed "Hello")) 7 emptyWorld)
    as [Hblank Hok].
  split.
  { refine (proj1 (Hblank (newChat "   ") "   " eq_refl _ eq_refl)).
    discriminate. }
  assert (Hacc : accepted 7 (newChat "  good morning  ") emptyWorld).
  { split; [|exact I]. eexists. split; [reflexivity|].
    split; [vm_compute; discriminate | cbn; lia]. }
  split; [exact Hacc|].
  destruct (Hok (newChat "  good morning  ") "  good morning  " eq_refl Hacc)
    as (conv & um & jm & _ & Hm & _ & Hc).
  exists um, jm. split; [exact Hm | exact Hc].
Defined.

(** *** Fallback and analytics *)

Lemma messagesCountOn_upsert (userId : nat) (date minutes : Z) (w w' : World) :
  chatAnalytics w'
  = <[(userId, date) := upsertedRow userId date minutes (chatAnalytics w)]>
      (chatAnalytics w) ->
  messagesCountOn userId date w' = (messagesCountOn userId date w + 1)%Z.
Proof.
  intros H. unfold messagesCountOn. rewrite H, lookup_insert_eq.
  unfold upsertedRow. destruct (chatAnalytics w !! (userId, date)); reflexivity.
Qed.

Lemma mapMessageType_range (aiType : string) :
  mapMessageType aiType = TEXT \/ mapMessageType aiType = RECIPE.
Proof.
  unfold mapMessageType, typeMapping. cbn [assoc].
  repeat (destruct (String.eqb aiType _); [auto|]). auto.
Qed.

(** The claim of the specification fails on a new conversation whose
    completion call times out: the stored assistant row has type TEXT, and
    the day's message count goes from 0 to 1. *)
Lemma provider_failure_counterexample :
  let run := postMessage (sampleEnv (Failed "timeout of 30000ms exceeded")) 7
                         (newChat "What's a good beginner workout?")
                         emptyWorld in
  length (providerCalls (snd run)) = 1
  /\ (exists jm, assistantMessages (chatMessages (snd run)) = [jm]
                 /\ msg_messageType jm = TEXT
                 /\ msg_messageType jm <> SUGGESTION)
  /\ messagesCountOn 7 0 emptyWorld = 0%Z
  /\ messagesCountOn 7 0 (snd run) = 1%Z.
Proof.
  vm_compute. split; [reflexivity|]. split; [|split; reflexivity].
  eexists. split; [reflexivity|]. split; [reflexivity|discriminate].
Qed.

(** C4 (amended).  When the completion call is made and fails or times
    out, the handler stores one assistant message with the fixed fallback
    text of the AI service and the message type TEXT (the tag SUGGESTION is
    reported in the response metadata only), sets the conversation's
    [lastMessageAt] to the update time, and increments the day's analytics
    row (creating it with count 1 when absent) as for a successful
    exchange. *)
Theorem provider_failure_fallback (env : Env) (userId : nat)
    (body : RequestBody) (w : World) (c message : string) :
  content body = Some c ->
  accepted userId body w ->
  isCrisis (detectCrisis c (wellnessProfiles w !! userId)) = false ->
  reachesProvider (wellnessProfiles w !! userId) = true ->
  env_outcome env = Failed message ->
  exists conv um jm md w' call,
    postMessage env userId body w = (ChatReply conv um jm md, w')
    /\ providerCalls w' = providerCalls w ++ [call]
    /\ chatMessages w' = chatMessages w ++ [um; jm]
    /\ msg_sender jm = JOJO
    /\ msg_content jm = "Hi there! " +:+ fallbackBody
    /\ msg_messageType jm = TEXT
    /\ md_messageType md = "SUGGESTION"
    /\ md_aiProvider md = "groq"
    /\ messagesCountOn userId (env_today env) w'
       = (messagesCountOn userId (env_today env) w + 1)%Z
    /\ (exists conv', conv' ∈ chatConversations w'
                       /\ conv_id conv' = conv_id conv
                       /\ conv_lastMessageAt conv' = Some (env_updatedAt env)).
Proof.
  intros Hc [(c' & Hc' & Ht & Hl) Hres] Hno Hreach Hfail.
  rewrite Hc in Hc'. injection Hc' as <-.
  destruct (detectCrisis c (wellnessProfiles w !! userId)) eqn:Hd;
    [|discriminate].
  destruct (postMessage_chat env userId body w c Hc Ht Hl Hres Hd)
    as (conv & um & ai & provider & jm & w' & Hrun & Hm & _ & _ & _ & Hj1 & Hj2
        & Hj3 & _ & Han & Hconv & Hcalled & _).
  destruct (Hcalled Hreach) as (-> & Hai & Hcalls).
  rewrite Hfail in Hai. subst ai.
  eexists conv, um, jm, _, w', _. split; [exact Hrun|].
  split; [exact Hcalls|].
  repeat match goal with |- _ /\ _ => split end; auto.
  eapply messagesCountOn_upsert; eauto.
Qed.

Lemma provider_failure_fallback_witness :
  accepted 7 (newChat "What's a good beginner workout?") emptyWorld
  /\ exists conv um jm md w' call,
       postMessage (sampleEnv (Failed "timeout of 30000ms exceeded")) 7
                   (newChat "What's a good beginner workout?") emptyWorld
       = (ChatReply conv um jm md, w')
       /\ providerCalls w' = [call]
       /\ msg_messageType jm = TEXT
       /\ md_messageType md = "SUGGESTION"
       /\ messagesCountOn 7 0 w' = 1%Z.
Proof.
  assert (Hacc : accepted 7 (newChat "What's a good beginner workout?")
                   emptyWorld).
  { split; [|exact I]. eexists. split; [reflexivity|].
    split; [vm_compute; discriminate | cbn; lia]. }
  split; [exact Hacc|].
  destruct (provider_failure_fallback
              (sampleEnv (Failed "timeout of 30000ms exceeded")) 7
              (newChat "What's a good beginner workout?") emptyWorld
              "What's a good beginner workout?" "timeout of 30000ms exceeded"
              eq_refl Hacc ltac:(vm_compute; reflexivity)
              ltac:(vm_compute; reflexivity) eq_refl)
    as (conv & um & jm & md & w' & call & H1 & H2 & _ & _ & _ & H3 & H4 & _
        & H5 & _).
  exists conv, um, jm, md, w', call.
  split; [exact H1|]. split; [exact H2|]. split; [exact H3|].
  split; [exact H4|]. exact H5.
Defined.

(** *** The type of the stored reply *)

(** Without a greeting in the input, the tag is decided by the reply text
    alone. *)
Lemma analyzeResponse_no_greeting (response userInput : string) :
  includes (toLowerCase userInput) "hello"
  || includes (toLowerCase userInput) "hi"
  || includes (toLowerCase userInput) "hey" = false ->
  an_type (analyzeResponse response userInput)
  ∈ ["SUGGESTION"; "EXERCISE"; "NUTRITION"; "MENTAL_HEALTH"; "SLEEP"].
Proof.
  intros H. unfold analyzeResponse. cbv zeta. rewrite H.
  cbn [an_type].
  repeat match goal with
         | |- context [if ?b then _ else _] => destruct b
         end;
    cbn [fst snd]; rewrite !elem_of_cons; tauto.
Qed.

(** The claim of the specification fails on a new conversation whose
    completion mentions a workout: the reply is tagged EXERCISE in the
    metadata, and the stored assistant row has type TEXT. *)
Lemma beginner_workout_counterexample :
  let run := postMessage
               (sampleEnv (Completed "Try a full-body workout three times a week."))
               7 (newChat "What's a good beginner workout?") emptyWorld in
  (exists conv um jm md,
     fst run = ChatReply conv um jm md /\ md_messageType md = "EXERCISE")
  /\ exists jm, assistantMessages (chatMessages (snd run)) = [jm]
                /\ msg_messageType jm = TEXT
                /\ msg_messageType jm <> EXERCISE.
Proof.
  vm_compute. split.
  - eexists _, _, _, _. split; reflexivity.
  - eexists. split; [reflexivity|]. split; [reflexivity|discriminate].
Qed.

(** C7 (amended).  When the user sends "What's a good beginner workout?"
    and the completion call succeeds, the stored assistant message carries
    the completion text and the type [mapMessageType] gives to the tag of
    the reply: TEXT, or RECIPE for a reply tagged NUTRITION, never
    EXERCISE; the tag itself (EXERCISE, SUGGESTION, NUTRITION,
    MENTAL_HEALTH or SLEEP, decided by the words of the completion) is
    reported in the response metadata; and the day's analytics message
    count is incremented by exactly 1. *)
Theorem beginner_workout_exchange (env : Env) (userId : nat)
    (body : RequestBody) (w : World) (text : string) :
  content body = Some "What's a good beginner workout?" ->
  conversationResolves userId body w ->
  reachesProvider (wellnessProfiles w !! userId) = true ->
  env_outcome env = Completed text ->
  exists conv um jm md w',
    postMessage env userId body w = (ChatReply conv um jm md, w')
    /\ chatMessages w' = chatMessages w ++ [um; jm]
    /\ msg_sender jm = JOJO
    /\ msg_content jm = text
    /\ md_messageType md
       = an_type (analyzeResponse text "What's a good beginner workout?")
    /\ md_messageType md
       ∈ ["SUGGESTION"; "EXERCISE"; "NUTRITION"; "MENTAL_HEALTH"; "SLEEP"]
    /\ msg_messageType jm = mapMessageType (md_messageType md)
    /\ (msg_messageType jm = TEXT \/ msg_messageType jm = RECIPE)
    /\ msg_messageType jm <> EXERCISE
    /\ (md_messageType md = "EXERCISE" -> msg_messageType jm = TEXT)
    /\ messagesCountOn userId (env_today env) w'
       = (messagesCountOn userId (env_today env) w + 1)%Z.
Proof.
  intros Hc Hres Hreach Hok.
  set (c := "What's a good beginner workout?") in *.
  assert (Ht : trim c <> EmptyString) by (vm_compute; discriminate).
  assert (Hl : String.length c <= 2000) by (cbn; lia).
  assert (Hd : detectCrisis c (wellnessProfiles w !! userId) = NoCrisis).
  { unfold detectCrisis.
    replace (detectTier c) with (@None CrisisRiskLevel, @nil string)
      by (vm_compute; reflexivity).
    reflexivity. }
  assert (Hg : includes (toLowerCase c) "hello" || includes (toLowerCase c) "hi"
               || includes (toLowerCase c) "hey" = false)
    by (vm_compute; reflexivity).
  pose proof (analyzeResponse_no_greeting text c Hg) as Htag.
  destruct (postMessage_chat env userId body w c Hc Ht Hl Hres Hd)
    as (conv & um & ai & provider & jm & w' & Hrun & Hm & _ & _ & _ & Hj1 & Hj2
        & Hj3 & _ & Han & _ & Hcalled & _).
  destruct (Hcalled Hreach) as (-> & Hai & _).
  rewrite Hok in Hai. subst ai. cbn [ai_content ai_type] in Hj1, Hj3.
  assert (Hmd : typeOrSuggestion
                  {| ai_content := text;
                     ai_type := an_type (analyzeResponse text c);
                     ai_confidence := an_confidence (analyzeResponse text c);
                     ai_keywords := an_keywords (analyzeResponse text c);
                     ai_topics := an_topics (analyzeResponse text c);
                     ai_fallbackUsed := false |}
                = an_type (analyzeResponse text c)).
  { unfold typeOrSuggestion. cbn [ai_type].
    destruct (an_type (analyzeResponse text c)) eqn:E; [|reflexivity].
    rewrite !elem_of_cons, elem_of_nil in Htag.
    exfalso. intuition discriminate. }
  eexists conv, um, jm, _, w'. split; [exact Hrun|].
  cbn [md_messageType]. rewrite Hmd, Hj3.
  pose proof (mapMessageType_range (an_type (analyzeResponse text c))) as Hrange.
  repeat match goal with |- _ /\ _ => split end;
    try assumption; try reflexivity.
  - destruct Hrange as [-> | ->]; discriminate.
  - intros ->. reflexivity.
  - eapply messagesCountOn_upsert; eauto.
Qed.

Lemma beginner_workout_exchange_witness :
  conversationResolves 7 (newChat "What's a good beginner workout?") emptyWorld
  /\ exists conv um jm md w',
       postMessage
         (sampleEnv (Completed "Try a full-body workout three times a week."))
         7 (newChat "What's a good beginner workout?") emptyWorld
       = (ChatReply conv um jm md, w')
       /\ msg_messageType jm <> EXERCISE
       /\ messagesCountOn 7 0 w' = 1%Z.
Proof.
  split; [exact I|].
  destruct (beginner_workout_exchange
              (sampleEnv (Completed "Try a full-body workout three times a week."))
              7 (newChat "What's a good beginner workout?") emptyWorld
              "Try a full-body workout three times a week."
              eq_refl I ltac:(vm_compute; reflexivity) eq_refl)
    as (conv & um & jm & md & w' & H1 & _ & _ & _ & _ & _ & _ & _ & H2 & _ & H3).
  exists conv, um, jm, md, w'.
  split; [exact H1|]. split; [exact H2 | exact H3].
Defined.

(** *** The history sent to the completion endpoint *)

Lemma sliceLast_short {A} (n : nat) (l : list A) :
  length l <= n -> sliceLast n l = l.
Proof.
  intros H. unfold sliceLast.
  replace (length l - n) with 0 by lia. reflexivity.
Qed.

Lemma formatConversationHistory_take5 (l : list ChatMessage) :
  formatConversationHistory (firstn 5 (firstn 10 l))
  = map formatMessage (firstn 5 l).
Proof.
  unfold formatConversationHistory.
  rewrite take_take. change (5 `min` 10) with 5.
  rewrite sliceLast_short; [reflexivity|].
  rewrite length_take. lia.
Qed.

Lemma substring0_length (n : nat) (s : string) :
  String.length (substring0 n s) = Nat.min n (String.length s).
Proof.
  revert s; induction n as [|n IH]; intros [|x s]; simpl; auto.
Qed.

(** A formatted entry keeps a text of at most 1000 characters and cuts a
    longer one to its first 1000 characters followed by three dots. *)
Lemma formatMessage_content (msg : ChatMessage) :
  (String.length (msg_content msg) <= 1000 ->
   turnContent (formatMessage msg) = msg_content msg)
  /\ (1000 < String.length (msg_content msg) ->
      turnContent (formatMessage msg)
      = substring0 1000 (msg_content msg) +:+ "..."
      /\ String.length (turnContent (formatMessage msg)) = 1003)
  /\ String.length (turnContent (formatMessage msg)) <= 1003.
Proof.
  unfold formatMessage. cbn [turnContent].
  destruct (1000 <? String.length (msg_content msg)) eqn:E.
  - apply Nat.ltb_lt in E.
    assert (Hlen : String.length (substring0 1000 (msg_content msg) +:+ "...")
                   = 1003).
    { rewrite length_append, substring0_length.
      change (String.length "...") with 3. lia. }
    repeat split; auto; lia.
  - apply Nat.ltb_ge in E. repeat split; auto; lia.
Qed.

Lemma newestFirst_snoc (id : nat) (l : list ChatMessage) (um : ChatMessage) :
  msg_conversationId um = id ->
  newestFirst id (l ++ [um]) = um :: newestFirst id l.
Proof.
  intros H. unfold newestFirst.
  rewrite List.filter_app. cbn [List.filter].
  rewrite H, Nat.eqb_refl, rev_app_distr. reflexivity.
Qed.

(** The claim of the specification fails on the second message of a
    conversation: the history is sent newest first (the message being
    answered, then the earlier reply, then the first message), and a text
    of 1001 characters is sent as 1003 characters. *)
Lemma provider_history_counterexample :
  let w1 := snd (postMessage (sampleEnv (Completed "Sure!")) 7
                             (newChat "hello") emptyWorld) in
  let w2 := snd (postMessage (sampleEnv (Completed "Noted.")) 7
                             (inChat 0 (letters 1001)) w1) in
  map msg_content (chatMessages w1) = ["hello"; "Sure!"]
  /\ last (providerCalls w2)
     = Some ([SystemPrompt None;
              Turn RoleUser (letters 1000 +:+ "...");
              Turn RoleAssistant "Sure!";
              Turn RoleUser "hello";
              Turn RoleUser (letters 1001)])
  /\ String.length (letters 1000 +:+ "...") = 1003.
Proof. vm_compute. repeat split. Qed.

(** C8 (amended).  The history sent to the completion endpoint consists
    of the (at most) 5 most recent messages of the conversation across
    both senders, the user's message just stored being the first of them,
    in the descending creation order in which they were fetched (no
    reversal), each with its role; a text of at most 1000 characters is
    sent whole, a longer one as its first 1000 characters followed by
    three dots, 1003 characters in all. *)
Theorem provider_history (env : Env) (userId : nat) (body : RequestBody)
    (w : World) (c : string) :
  content body = Some c ->
  accepted userId body w ->
  isCrisis (detectCrisis c (wellnessProfiles w !! userId)) = false ->
  reachesProvider (wellnessProfiles w !! userId) = true ->
  exists conv um history,
    providerCalls (snd (postMessage env userId body w))
    = providerCalls w
      ++ [SystemPrompt (wellnessProfiles w !! userId)
          :: history ++ [Turn RoleUser c]]
    /\ history
       = map formatMessage
             (firstn 5 (newestFirst (conv_id conv) (chatMessages w ++ [um])))
    /\ firstn 5 (newestFirst (conv_id conv) (chatMessages w ++ [um]))
       = um :: firstn 4 (newestFirst (conv_id conv) (chatMessages w))
    /\ msg_sender um = USER /\ msg_content um = trim c
    /\ length history <= 5
    /\ Forall (fun t => String.length (turnContent t) <= 1003) history
    /\ (forall msg,
          (String.length (msg_content msg) <= 1000 ->
           turnContent (formatMessage msg) = msg_content msg)
          /\ (1000 < String.length (msg_content msg) ->
              turnContent (formatMessage msg)
              = substring0 1000 (msg_content msg) +:+ "..."
              /\ String.length (turnContent (formatMessage msg)) = 1003)).
Proof.
  intros Hc [(c' & Hc' & Ht & Hl) Hres] Hno Hreach.
  rewrite Hc in Hc'. injection Hc' as <-.
  destruct (detectCrisis c (wellnessProfiles w !! userId)) eqn:Hd;
    [|discriminate].
  destruct (postMessage_chat env userId body w c Hc Ht Hl Hres Hd)
    as (conv & um & ai & provider & jm & w' & -> & _ & Hu1 & Hu2 & Hu3 & _ & _
        & _ & _ & _ & _ & Hcalled & _).
  destruct (Hcalled Hreach) as (_ & _ & Hcalls).
  rewrite formatConversationHistory_take5 in Hcalls.
  eexists conv, um, _. cbn [snd]. split; [exact Hcalls|].
  split; [reflexivity|].
  split; [now rewrite (newestFirst_snoc _ _ _ Hu3)|].
  split; [exact Hu2|]. split; [exact Hu1|].
  split; [rewrite length_map, length_take; lia|].
  split.
  - apply Forall_forall. intros t Hin.
    apply list_elem_of_fmap in Hin as (msg & -> & _).
    apply formatMessage_content.
  - intros msg. destruct (formatMessage_content msg) as (H1 & H2 & _). auto.
Qed.

Lemma provider_history_witness :
  accepted 7 (newChat "How do I start running?") emptyWorld
  /\ exists conv um history,
       providerCalls (snd (postMessage (sampleEnv (Completed "Start slowly."))
                                       7 (newChat "How do I start running?")
                                       emptyWorld))
       = [SystemPrompt None :: history ++ [Turn RoleUser "How do I start running?"]]
       /\ history
          = map formatMessage
              (firstn 5 (newestFirst (conv_id conv) ([] ++ [um])))
       /\ msg_content um = "How do I start running?".
Proof.
  assert (Hacc : accepted 7 (newChat "How do I start running?") emptyWorld).
  { split; [|exact I]. eexists. split; [reflexivity|].
    split; [vm_compute; discriminate | cbn; lia]. }
  split; [exact Hacc|].
  destruct (provider_history (sampleEnv (Completed "Start slowly.")) 7
              (newChat "How do I start running?") emptyWorld
              "How do I start running?" eq_refl Hacc
              ltac:(vm_compute; reflexivity) ltac:(vm_compute; reflexivity))
    as (conv & um & history & H1 & H2 & _ & _ & H3 & _).
  exists conv, um, history.
  split; [exact H1|]. split; [exact H2 | exact H3].
Defined.

(** *** Detection and the profile *)

(** C9.  Crisis detection runs whatever the wellness profile says: for any
    text and any two profiles (absent, or with [crisisMonitoring] false or
    true) the classifier yields the same verdict, the same risk level and
    the same keyword list; and the handler answers an accepted message
    with the crisis reply exactly when the classifier reports a tier on its
    text, under any profile. *)
Theorem crisis_detection_unconditional :
  (forall message profile1 profile2,
     isCrisis (detectCrisis message profile1)
     = isCrisis (detectCrisis message profile2)
     /\ riskLevel (detectCrisis message profile1)
        = riskLevel (detectCrisis message profile2)
     /\ keywords (detectCrisis message profile1)
        = keywords (detectCrisis message profile2))
  /\ (forall env userId body w c profile,
        content body = Some c ->
        accepted userId body w ->
        (isCrisis (detectCrisis c profile) = true <->
         exists conv um jm r ks,
           fst (postMessage env userId body w) = CrisisReply conv um jm r ks
           /\ riskLevel (detectCrisis c profile) = Some r
           /\ keywords (detectCrisis c profile) = ks)).
Proof.
  split; [exact detectCrisis_ignores_profile|].
  intros env userId body w c profile Hc [(c' & Hc' & Ht & Hl) Hres].
  rewrite Hc in Hc'. injection Hc' as <-.
  destruct (detectCrisis_ignores_profile c profile (wellnessProfiles w !! userId))
    as (Hi & Hr & Hk).
  rewrite Hi, Hr, Hk.
  destruct (detectCrisis c (wellnessProfiles w !! userId))
    as [|r ks resp res hot] eqn:Hd.
  - destruct (postMessage_chat env userId body w c Hc Ht Hl Hres Hd)
      as (conv & um & ai & provider & jm & w' & -> & _).
    cbn [fst isCrisis]. split; [discriminate|].
    intros (? & ? & ? & ? & ? & H & _). discriminate H.
  - destruct (postMessage_crisis env userId body w c r ks resp res hot
                Hc Ht Hl Hres Hd)
      as (conv & um & jm & log & w' & -> & _).
    cbn [fst isCrisis riskLevel keywords]. split; [|reflexivity].
    intros _. exists conv, um, jm, r, ks. repeat split.
Qed.

(** A MEDIUM message from a user who switched crisis monitoring off is
    answered with the crisis reply. *)
Lemma crisis_detection_unconditional_witness :
  accepted 7 (newChat "I feel hopeless") optedOutWorld
  /\ wp_crisisMonitoring optedOutProfile = false
  /\ exists conv um jm,
       fst (postMessage (sampleEnv (Completed "Hello")) 7
                        (newChat "I feel hopeless") optedOutWorld)
       = CrisisReply conv um jm MEDIUM ["hopeless"].
Proof.
  assert (Hacc : accepted 7 (newChat "I feel hopeless") optedOutWorld).
  { split; [|exact I]. eexists. split; [reflexivity|].
    split; [vm_compute; discriminate | cbn; lia]. }
  split; [exact Hacc|]. split; [reflexivity|].
  destruct (proj1 (proj2 crisis_detection_unconditional
                     (sampleEnv (Completed "Hello")) 7
                     (newChat "I feel hopeless") optedOutWorld
                     "I feel hopeless" None eq_refl Hacc)
                  ltac:(vm_compute; reflexivity))
    as (conv & um & jm & r & ks & Hrun & Hr & Hk).
  vm_compute in Hr. injection Hr as <-.
  vm_compute in Hk. subst ks.
  exists conv, um, jm. exact Hrun.
Defined.

End MessageSend.

(** * Further properties of the code *)

(** ** The response type classifier (aiService.js) *)

Section Analysis.

Lemma terms_any_match (terms : list string) (text : string) :
  Forall (fun k => toLowerCase k = k) terms ->
  existsb (includes (toLowerCase text)) terms = true <-> AnyMatch terms text.
Proof.
  intros Hlow. rewrite Forall_forall in Hlow.
  rewrite existsb_exists. unfold AnyMatch. split.
  - intros (k & Hin & Hk). exists k. apply list_elem_of_In in Hin.
    split; [assumption|]. apply includes_toLowerCase; auto.
  - intros (k & Hin & Hk). exists k. split; [now apply list_elem_of_In|].
    apply includes_toLowerCase; auto.
Qed.

Lemma terms_no_match (terms : list string) (text : string) :
  Forall (fun k => toLowerCase k = k) terms ->
  existsb (includes (toLowerCase text)) terms = false <-> ~ AnyMatch terms text.
Proof.
  intros Hlow. rewrite <- (terms_any_match terms text Hlow).
  destruct (existsb _ terms); split; intros H; try discriminate; auto.
  now destruct H.
Qed.

(** [analyzeResponse] written with the five checks as [existsb]. *)
Lemma analyzeResponse_checks (response userInput : string) :
  let ex := existsb (includes (toLowerCase response)) exerciseTerms in
  let nu := existsb (includes (toLowerCase response)) nutritionTerms in
  let me := existsb (includes (toLowerCase response)) mentalHealthTerms in
  let sl := existsb (includes (toLowerCase response)) sleepTerms in
  let gr := existsb (includes (toLowerCase userInput)) greetingTerms in
  an_type (analyzeResponse response userInput)
  = (if gr then "GREETING" else if sl then "SLEEP"
     else if me then "MENTAL_HEALTH" else if nu then "NUTRITION"
     else if ex then "EXERCISE" else "SUGGESTION")
  /\ an_topics (analyzeResponse response userInput)
     = (if ex then ["fitness"] else [])
       ++ (if nu then ["nutrition"] else [])
       ++ (if me then ["mental_health"] else [])
       ++ (if sl then ["sleep"] else [])
       ++ (if gr then ["introduction"] else []).
Proof.
  unfold analyzeResponse, exerciseTerms, nutritionTerms, mentalHealthTerms,
    sleepTerms, greetingTerms.
  cbn [existsb an_type an_topics]. cbv zeta.
  rewrite !orb_false_r, !orb_assoc.
  repeat match goal with
         | |- context [if ?b then _ else _] => destruct b
         end; split; reflexivity.
Qed.

(** X1.  The type [analyzeResponse] returns is decided by the last check
    that matches, in the fixed order exercise, nutrition, mental health,
    sleep, greeting: a greeting word in the user's input wins over
    everything said in the reply, then a sleep word in the reply, and so
    on down to SUGGESTION when nothing matches; the topics list holds one
    entry per matching check, in that order.  Matching is containment up
    to letter case, so a word inside a longer one counts. *)
Theorem analyzeResponse_last_match_wins (response userInput : string) :
  let a := analyzeResponse response userInput in
  let ex := AnyMatch exerciseTerms response in
  let nu := AnyMatch nutritionTerms response in
  let me := AnyMatch mentalHealthTerms response in
  let sl := AnyMatch sleepTerms response in
  let gr := AnyMatch greetingTerms userInput in
  (gr -> an_type a = "GREETING")
  /\ (~ gr -> sl -> an_type a = "SLEEP")
  /\ (~ gr -> ~ sl -> me -> an_type a = "MENTAL_HEALTH")
  /\ (~ gr -> ~ sl -> ~ me -> nu -> an_type a = "NUTRITION")
  /\ (~ gr -> ~ sl -> ~ me -> ~ nu -> ex -> an_type a = "EXERCISE")
  /\ (~ gr -> ~ sl -> ~ me -> ~ nu -> ~ ex -> an_type a = "SUGGESTION")
  /\ an_topics a
     `sublist_of` ["fitness"; "nutrition"; "mental_health"; "sleep"; "introduction"]
  /\ ("fitness" ∈ an_topics a <-> ex)
  /\ ("nutrition" ∈ an_topics a <-> nu)
  /\ ("mental_health" ∈ an_topics a <-> me)
  /\ ("sleep" ∈ an_topics a <-> sl)
  /\ ("introduction" ∈ an_topics a <-> gr).
Proof.
  intros a ex nu me sl gr. subst a ex nu me sl gr.
  destruct (analyzeResponse_checks response userInput) as [-> ->].
  assert (Hlow : forall terms,
            terms = exerciseTerms \/ terms = nutritionTerms
            \/ terms = mentalHealthTerms \/ terms = sleepTerms
            \/ terms = greetingTerms ->
            Forall (fun k => toLowerCase k = k) terms).
  { intros terms [-> | [-> | [-> | [-> | ->]]]];
      repeat (constructor; [vm_compute; reflexivity|]); constructor. }
  pose proof (fun t => terms_any_match exerciseTerms t
                         (Hlow exerciseTerms ltac:(auto 6))) as Hex.
  pose proof (fun t => terms_any_match nutritionTerms t
                         (Hlow nutritionTerms ltac:(auto 6))) as Hnu.
  pose proof (fun t => terms_any_match mentalHealthTerms t
                         (Hlow mentalHealthTerms ltac:(auto 6))) as Hme.
  pose proof (fun t => terms_any_match sleepTerms t
                         (Hlow sleepTerms ltac:(auto 6))) as Hsl.
  pose proof (fun t => terms_any_match greetingTerms t
                         (Hlow greetingTerms ltac:(auto 6))) as Hgr.
  rewrite <- (Hex response), <- (Hnu response), <- (Hme response),
    <- (Hsl response), <- (Hgr userInput).
  destruct (existsb _ exerciseTerms), (existsb _ nutritionTerms),
    (existsb _ mentalHealthTerms), (existsb _ sleepTerms),
    (existsb _ greetingTerms);
    cbn [app];
    repeat match goal with |- _ /\ _ => split end;
    try (intros; first [reflexivity | exfalso; auto; congruence]);
    try (solve [repeat constructor]);
    rewrite ?elem_of_cons, ?elem_of_nil;
    intuition (discriminate || congruence).
Qed.

(** A reply about sleep to a user who wrote "this" is a GREETING: "this"
    contains "hi". *)
Lemma analyzeResponse_last_match_wins_witness :
  AnyMatch greetingTerms "Is this enough sleep?"
  /\ an_type (analyzeResponse "Seven hours of sleep is a good start."
                              "Is this enough sleep?") = "GREETING".
Proof.
  assert (H : AnyMatch greetingTerms "Is this enough sleep?").
  { exists "hi". split; [right; left|].
    exists "Is t", "hi", "s enough sleep?". split; reflexivity. }
  split; [exact H|].
  exact (proj1 (analyzeResponse_last_match_wins
                  "Seven hours of sleep is a good start."
                  "Is this enough sleep?") H).
Defined.

Lemma inList_spec (k : string) (l : list string) :
  inList k l = true <-> k ∈ l.
Proof.
  unfold inList. rewrite existsb_exists. split.
  - intros (x & Hin & Hx). apply String.eqb_eq in Hx. subst x.
    now apply list_elem_of_In.
  - intros Hin. exists k. split; [now apply list_elem_of_In|].
    apply String.eqb_refl.
Qed.

Lemma dedupeFrom_spec (l seen : list string) :
  NoDup (dedupeFrom seen l)
  /\ (forall x, x ∈ dedupeFrom seen l <-> x ∈ l /\ x ∉ seen).
Proof.
  revert seen; induction l as [|y l IH]; intros seen; cbn [dedupeFrom].
  - split; [constructor|]. intros x. rewrite elem_of_nil. tauto.
  - destruct (inList y seen) eqn:E.
    + apply inList_spec in E. destruct (IH seen) as [Hnd Hin].
      split; [exact Hnd|]. intros x. rewrite Hin, elem_of_cons.
      split; [tauto|]. intros [[-> | Hx] Hs]; tauto.
    + assert (Hy : y ∉ seen).
      { intros H. apply inList_spec in H. congruence. }
      destruct (IH (y :: seen)) as [Hnd Hin]. split.
      * constructor; [|exact Hnd]. rewrite Hin, elem_of_cons. tauto.
      * intros x. rewrite !elem_of_cons, Hin, elem_of_cons.
        destruct (string_dec x y) as [-> | Hne]; tauto.
Qed.

(** A word read by [wordsFrom] is a run of characters of the text. *)
Lemma wordsFrom_substring (s cur w : string) :
  w ∈ wordsFrom cur s -> IsSubstring w (cur +:+ s).
Proof.
  revert cur; induction s as [|c s IH]; intros cur; cbn [wordsFrom].
  - destruct cur as [|x cur]; [now rewrite elem_of_nil|].
    rewrite list_elem_of_singleton. intros ->.
    exists EmptyString, EmptyString. now rewrite append_empty_r.
  - destruct (isWordChar c).
    + intros H. apply IH in H.
      now rewrite append_assoc in H.
    + assert (Hrest : w ∈ wordsFrom EmptyString s ->
                      IsSubstring w (cur +:+ String c s)).
      { intros H. apply IH in H as (a & b & H).
        rewrite append_empty_l in H.
        exists (cur +:+ String c a), b.
        rewrite append_assoc, append_cons. now rewrite H. }
      destruct cur as [|x cur]; [exact Hrest|].
      rewrite elem_of_cons. intros [-> | H]; [|auto].
      exists EmptyString, (String c s). reflexivity.
Qed.

(** X2.  The keywords [analyzeResponse] extracts from the user's input
    are pairwise distinct, each is one of the 21 alternatives of the
    regular expression (so lower-case), each occurs in the input up to
    letter case, and a keyword is extracted exactly when a whole run of
    word characters of the input equals it up to letter case. *)
Theorem extractKeywords_distinct_alternatives (userInput : string) :
  NoDup (extractKeywords userInput)
  /\ extractKeywords userInput ⊆ keywordAlternatives
  /\ length (extractKeywords userInput) <= 21
  /\ (forall k, k ∈ extractKeywords userInput ->
                toLowerCase k = k /\ ContainsIgnoringCase userInput k)
  /\ (forall k, k ∈ extractKeywords userInput <->
                k ∈ keywordAlternatives
                /\ exists word, word ∈ wordsFrom EmptyString userInput
                                /\ toLowerCase word = k).
Proof.
  assert (Hchar : forall k, k ∈ extractKeywords userInput <->
                    k ∈ keywordAlternatives
                    /\ exists word, word ∈ wordsFrom EmptyString userInput
                                    /\ toLowerCase word = k).
  { intros k. unfold extractKeywords. cbv zeta.
    rewrite (proj2 (dedupeFrom_spec _ [])), list_elem_of_fmap.
    split.
    - intros [(w & -> & Hw) _].
      apply list_elem_of_In, filter_In in Hw as [Hw Hk].
      apply inList_spec in Hk. apply list_elem_of_In in Hw. eauto.
    - intros [Hk (w & Hw & <-)]. split; [|apply not_elem_of_nil].
      exists w. split; [reflexivity|].
      apply list_elem_of_In, filter_In. split; [now apply list_elem_of_In|].
      now apply inList_spec. }
  assert (Hnd : NoDup (extractKeywords userInput))
    by apply dedupeFrom_spec.
  assert (Hsub : extractKeywords userInput ⊆ keywordAlternatives)
    by (intros k Hk; now apply Hchar in Hk).
  repeat match goal with |- _ /\ _ => split end; auto.
  - change 21 with (length keywordAlternatives).
    apply submseteq_length, NoDup_submseteq; auto.
  - intros k Hk. apply Hchar in Hk as [Halt (w & Hw & <-)].
    split; [apply toLowerCase_idem|].
    apply wordsFrom_substring in Hw as (a & b & Hw).
    rewrite append_empty_l in Hw.
    exists a, w, b. split; [exact Hw | now rewrite toLowerCase_idem].
Qed.


End Analysis.

(** ** The history formatter (aiService.js) *)

Section HistoryFormat.

Lemma substring0_short (n : nat) (s : string) :
  String.length s <= n -> substring0 n s = s.
Proof.
  revert s; induction n as [|n IH]; intros [|x s] H; simpl in *;
    try reflexivity; try lia.
  rewrite IH; [reflexivity | lia].
Qed.

Lemma substring0_cut_again (n : nat) (s tail : string) :
  n <= String.length s ->
  substring0 n (substring0 n s +:+ tail) = substring0 n s.
Proof.
  revert s; induction n as [|n IH]; intros [|x s] H; simpl in *;
    try reflexivity; try lia.
  rewrite ?append_cons. simpl. rewrite IH; [reflexivity | lia].
Qed.

(** X4.  [formatConversationHistory] keeps the last five entries of the
    history it is given, in their order (all of them when there are at
    most five), one prompt entry per message; a message of the user gets
    the role user, any other the role assistant; the text sent agrees
    with the stored text on its first 1000 characters and is never longer
    than 1003 characters. *)
Theorem formatConversationHistory_last_five (history : list ChatMessage) :
  length (formatConversationHistory history) = Nat.min 5 (length history)
  /\ (length history <= 5 ->
      formatConversationHistory history = map formatMessage history)
  /\ (forall older recent,
        history = older ++ recent -> length recent = 5 ->
        formatConversationHistory history = map formatMessage recent)
  /\ (forall msg,
        (exists text, formatMessage msg = Turn RoleUser text)
        <-> msg_sender msg = USER)
  /\ (forall msg,
        substring0 1000 (turnContent (formatMessage msg))
        = substring0 1000 (msg_content msg))
  /\ Forall (fun t => String.length (turnContent t) <= 1003)
            (formatConversationHistory history).
Proof.
  unfold formatConversationHistory.
  repeat match goal with |- _ /\ _ => split end.
  - rewrite length_map. unfold sliceLast. rewrite length_drop. lia.
  - intros H. now rewrite sliceLast_short.
  - intros older recent -> H. unfold sliceLast.
    rewrite length_app, H.
    replace (length older + 5 - 5) with (length older) by lia.
    now rewrite drop_app_length.
  - intros msg. unfold formatMessage.
    destruct (msg_sender msg); split;
      [eauto | intros _; eauto | intros [t [=]] | discriminate].
  - intros msg. unfold formatMessage. cbn [turnContent].
    destruct (1000 <? String.length (msg_content msg)) eqn:E; [|reflexivity].
    apply Nat.ltb_lt in E. apply substring0_cut_again. lia.
  - apply Forall_forall. intros t Hin.
    apply list_elem_of_fmap in Hin as (msg & -> & _).
    apply formatMessage_content.
Qed.

End HistoryFormat.

(** ** The keyword risk classifier, continued *)

Section ClassifierMore.

Lemma ContainsIgnoringCase_substring (a s k : string) :
  IsSubstring a s -> ContainsIgnoringCase a k -> ContainsIgnoringCase s k.
Proof.
  intros (x & y & ->) (u & v & w & -> & Hv).
  exists (x +:+ u), v, (w +:+ y). split; [|exact Hv].
  now rewrite !append_assoc.
Qed.

Lemma AnyMatch_substring (tier : list string) (a s : string) :
  IsSubstring a s -> AnyMatch tier a -> AnyMatch tier s.
Proof.
  intros Hs (k & Hin & Hk). exists k.
  split; [assumption|]. eapply ContainsIgnoringCase_substring; eauto.
Qed.

(** X5.  Text around a message never lowers its risk level: if [part]
    occurs in [message] as a run of characters, the verdict on [message]
    ranks at least as high as the verdict on [part], and when the two
    levels are equal every keyword found in [part] is found in
    [message]. *)
Theorem detectCrisis_monotone (part message : string)
    (profile1 profile2 : option WellnessProfile) :
  IsSubstring part message ->
  severity (riskLevel (detectCrisis part profile1))
  <= severity (riskLevel (detectCrisis message profile2))
  /\ (riskLevel (detectCrisis part profile1)
      = riskLevel (detectCrisis message profile2) ->
      keywords (detectCrisis part profile1)
      ⊆ keywords (detectCrisis message profile2)).
Proof.
  intros Hsub.
  destruct (detectCrisis_tier part profile1) as [-> ->].
  destruct (detectCrisis_tier message profile2) as [-> ->].
  pose proof (detectTier_reference part) as Hp.
  pose proof (detectTier_reference message) as Hm.
  assert (Hup : forall tier, AnyMatch tier part -> AnyMatch tier message)
    by (intros tier; now apply AnyMatch_substring).
  assert (Hkw : forall tier ks ks',
            MatchedKeywords tier part ks -> MatchedKeywords tier message ks' ->
            ks ⊆ ks').
  { intros tier ks ks' [_ H1] [_ H2] k Hk. apply H2. apply H1 in Hk as [? ?].
    split; [assumption|]. eapply ContainsIgnoringCase_substring; eauto. }
  destruct (detectTier part) as [rp kp], (detectTier message) as [rm km].
  cbn [fst snd] in *.
  inversion Hp; subst; inversion Hm; subst; cbn [severity];
    try (exfalso; auto; fail);
    (split; [lia | intros; try discriminate; eauto using list_subseteq_nil]).
Qed.

Lemma detectCrisis_monotone_witness :
  IsSubstring "hopeless" "hopeless, I want to kill myself"
  /\ severity (riskLevel (detectCrisis "hopeless" None))
     <= severity (riskLevel (detectCrisis "hopeless, I want to kill myself" None)).
Proof.
  assert (H : IsSubstring "hopeless" "hopeless, I want to kill myself").
  { exists EmptyString, ", I want to kill myself". reflexivity. }
  split; [exact H|].
  exact (proj1 (detectCrisis_monotone "hopeless"
                  "hopeless, I want to kill myself" None None H)).
Defined.

Lemma isWhiteSpace_lowerChar (c : ascii) :
  isWhiteSpace (lowerChar c) = isWhiteSpace c.
Proof. destruct c as [[] [] [] [] [] [] [] []]; vm_compute; reflexivity. Qed.

Lemma toLowerCase_trimStart (s : string) :
  toLowerCase (trimStart s) = trimStart (toLowerCase s).
Proof.
  induction s as [|c s IH]; simpl; [reflexivity|].
  rewrite isWhiteSpace_lowerChar. destruct (isWhiteSpace c); [exact IH | reflexivity].
Qed.

Lemma toLowerCase_trimEnd (s : string) :
  toLowerCase (trimEnd s) = trimEnd (toLowerCase s).
Proof.
  induction s as [|c s IH]; simpl; [reflexivity|].
  rewrite <- IH, isWhiteSpace_lowerChar.
  destruct (trimEnd s); simpl; [destruct (isWhiteSpace c)|]; reflexivity.
Qed.

Lemma toLowerCase_trim (s : string) :
  toLowerCase (trim s) = trim (toLowerCase s).
Proof. unfold trim. now rewrite toLowerCase_trimEnd, toLowerCase_trimStart. Qed.

Lemma trimStart_decompose (s : string) :
  exists a, s = a +:+ trimStart s /\ allWhiteSpace a = true.
Proof.
  induction s as [|c s (a & Ha & Hw)]; simpl.
  - now exists EmptyString.
  - destruct (isWhiteSpace c) eqn:E.
    + exists (String c a). rewrite append_cons, <- Ha. simpl. now rewrite E.
    + now exists EmptyString.
Qed.

Lemma trimEnd_decompose (s : string) :
  exists b, s = trimEnd s +:+ b /\ allWhiteSpace b = true.
Proof.
  induction s as [|c s (b & Hb & Hw)]; simpl.
  - now exists EmptyString.
  - destruct (trimEnd s) as [|x r] eqn:E.
    + destruct (isWhiteSpace c) eqn:Ec.
      * exists (String c s). split; [reflexivity|]. simpl. rewrite Ec.
        now apply trimEnd_empty.
      * exists b. rewrite append_empty_l in Hb. subst b.
        split; [now rewrite append_cons, append_empty_l | exact Hw].
    + exists b. rewrite append_cons. now rewrite <- Hb.
Qed.

Lemma trim_decompose (s : string) :
  exists a b, s = a +:+ trim s +:+ b
              /\ allWhiteSpace a = true /\ allWhiteSpace b = true.
Proof.
  destruct (trimStart_decompose s) as (a & Ha & Hwa).
  destruct (trimEnd_decompose (trimStart s)) as (b & Hb & Hwb).
  exists a, b. unfold trim. now rewrite <- Hb, <- Ha.
Qed.

(** An occurrence of a phrase that starts with no white space begins
    after leading white space. *)
Lemma strip_left (a r x k y : string) :
  allWhiteSpace a = true -> startsNonWhite k = true ->
  a +:+ r = x +:+ k +:+ y ->
  exists x', x = a +:+ x' /\ r = x' +:+ k +:+ y.
Proof.
  intros Hw Hk. revert x; induction a as [|c a IH]; intros x H.
  - exists x. auto.
  - simpl in Hw. apply andb_true_iff in Hw as [Hc Hw].
    rewrite append_cons in H.
    destruct x as [|d x].
    + rewrite append_empty_l in H. destruct k as [|k0 k]; [discriminate|].
      rewrite append_cons in H. injection H as <- _.
      simpl in Hk. rewrite Hc in Hk. discriminate.
    + rewrite append_cons in H. injection H as <- H.
      destruct (IH Hw x H) as (x' & -> & Hr).
      exists x'. now rewrite append_cons.
Qed.

Lemma endsNonWhite_not_white (v y : string) :
  endsNonWhite v = true -> allWhiteSpace (v +:+ y) = false.
Proof.
  induction v as [|c v IH]; [discriminate|].
  intros H. rewrite append_cons. simpl.
  destruct v as [|d v].
  - simpl in H. apply negb_true_iff in H. now rewrite H.
  - rewrite IH; [apply andb_false_r | exact H].
Qed.

(** An occurrence that ends with no white space ends before trailing
    white space. *)
Lemma strip_right (t b v y : string) :
  allWhiteSpace b = true -> endsNonWhite v = true ->
  t +:+ b = v +:+ y ->
  exists y', y = y' +:+ b /\ t = v +:+ y'.
Proof.
  intros Hw. revert v; induction t as [|d t IH]; intros v Hv H.
  - rewrite append_empty_l in H. subst b.
    rewrite (endsNonWhite_not_white v y Hv) in Hw. discriminate.
  - destruct v as [|e v]; [discriminate|].
    rewrite !append_cons in H. injection H as <- H.
    destruct v as [|f v].
    + rewrite append_empty_l in H. exists t. auto.
    + destruct (IH (String f v) Hv H) as (y' & -> & ->).
      exists y'. now rewrite !append_cons.
Qed.

Lemma endsNonWhite_append (x k : string) :
  k <> EmptyString -> endsNonWhite (x +:+ k) = endsNonWhite k.
Proof.
  intros Hk. induction x as [|c x IH]; [reflexivity|].
  rewrite append_cons. simpl.
  destruct (x +:+ k) eqn:E; [|exact IH].
  destruct x; [rewrite append_empty_l in E; contradiction | discriminate].
Qed.

Lemma IsSubstring_trim (k s : string) :
  startsNonWhite k = true -> endsNonWhite k = true ->
  IsSubstring k (trim s) <-> IsSubstring k s.
Proof.
  intros H1 H2.
  destruct (trim_decompose s) as (a & b & Hs & Ha & Hb).
  split.
  - intros (x & y & Ht). exists (a +:+ x), (y +:+ b).
    rewrite Hs, Ht, !append_assoc. reflexivity.
  - intros (x & y & Hk).
    assert (E : a +:+ (trim s +:+ b) = x +:+ k +:+ y)
      by (transitivity s; [symmetry; exact Hs | exact Hk]).
    destruct (strip_left a _ x k y Ha H1 E) as (x' & -> & Hr).
    rewrite <- append_assoc in Hr.
    assert (Hne : k <> EmptyString) by (destruct k; [discriminate|congruence]).
    destruct (strip_right (trim s) b (x' +:+ k) y Hb
                ltac:(now rewrite endsNonWhite_append) Hr) as (y' & _ & Ht).
    exists x', y'. now rewrite Ht, append_assoc.
Qed.

Lemma keyword_edges :
  Forall (fun k => startsNonWhite k = true /\ endsNonWhite k = true)
         (CRISIS_KEYWORDS.HIGH_RISK ++ CRISIS_KEYWORDS.MEDIUM_RISK
          ++ CRISIS_KEYWORDS.LOW_RISK).
Proof.
  repeat (constructor; [split; vm_compute; reflexivity|]). constructor.
Qed.

Lemma found_trim (tier : list string) (c : string) :
  Forall (fun k => startsNonWhite k = true /\ endsNonWhite k = true) tier ->
  List.filter (fun keyword => includes (toLowerCase (trim c)) keyword) tier
  = List.filter (fun keyword => includes (toLowerCase c) keyword) tier.
Proof.
  intros H. apply filter_ext_in. intros k Hin.
  rewrite Forall_forall in H. apply list_elem_of_In in Hin.
  destruct (H k Hin) as [H1 H2].
  rewrite toLowerCase_trim.
  apply eq_true_iff_eq. rewrite !includes_spec. now apply IsSubstring_trim.
Qed.

(** X6.  White space around a message and the letter case of a message
    change nothing in what the classifier reports: the stored user
    message (the trimmed content) is classified as the raw content the
    handler passes to [detectCrisis]. *)
Theorem detectCrisis_ignores_padding_and_case :
  (forall content profile,
     detectCrisis (trim content) profile = detectCrisis content profile)
  /\ (forall message message' profile,
        toLowerCase message = toLowerCase message' ->
        detectCrisis message profile = detectCrisis message' profile).
Proof.
  split.
  - intros c profile.
    pose proof keyword_edges as H.
    apply Forall_app in H as [HH H]. apply Forall_app in H as [HM HL].
    unfold detectCrisis, detectTier. cbv zeta.
    now rewrite (found_trim _ c HH), (found_trim _ c HM), (found_trim _ c HL).
  - intros m m' profile H. unfold detectCrisis, detectTier. cbv zeta.
    now rewrite H.
Qed.

Lemma detectCrisis_ignores_padding_and_case_witness :
  toLowerCase "I FEEL HOPELESS" = toLowerCase "i feel hopeless"
  /\ detectCrisis "I FEEL HOPELESS" None = detectCrisis "i feel hopeless" None.
Proof.
  split; [reflexivity|].
  exact (proj2 detectCrisis_ignores_padding_and_case
               "I FEEL HOPELESS" "i feel hopeless" None eq_refl).
Defined.

End ClassifierMore.

(** ** The reply templates and the region tables, continued *)

Section RegionsMore.

Lemma IsSubstring_middle (a b c : string) : IsSubstring b (a +:+ b +:+ c).
Proof. now exists a, c. Qed.

Lemma IsSubstring_trans (a b c : string) :
  IsSubstring a b -> IsSubstring b c -> IsSubstring a c.
Proof.
  intros (x & y & ->) (u & v & ->).
  exists (u +:+ x), (y +:+ v). now rewrite !append_assoc.
Qed.

Lemma IsSubstring_tail (k a b : string) :
  IsSubstring k b -> IsSubstring k (a +:+ b).
Proof.
  intros (x & y & ->). exists (a +:+ x), y. now rewrite !append_assoc.
Qed.

Lemma getLocalHotlines_range (region : option string) :
  getLocalHotlines region
  ∈ [nigeriaContacts; usaResources; ukResources; internationalResources].
Proof.
  unfold getLocalHotlines. cbv zeta.
  repeat match goal with
         | |- context [if ?b then _ else _] => destruct b
         end; rewrite !elem_of_cons; tauto.
Qed.

(** X7.  Every rendered crisis reply, for every level and region,
    contains the hotline block resolved for the region, which is one of
    the four blocks, and with it an "Emergency Services" line; the HIGH
    reply always carries the two sentences on the limits of the
    assistant; the level CRITICAL, which the classifier never reports, is
    rendered with the LOW template. *)
Theorem generateCrisisResponse_contents (region : option string)
    (level : CrisisRiskLevel) :
  IsSubstring (getLocalHotlines region) (generateCrisisResponse region level)
  /\ getLocalHotlines region
     ∈ [nigeriaContacts; usaResources; ukResources; internationalResources]
  /\ IsSubstring "**Emergency Services:**" (generateCrisisResponse region level)
  /\ IsSubstring "This is not a substitute for professional mental health care"
                 (generateCrisisResponse region HIGH)
  /\ IsSubstring "I'm an AI and cannot provide the emergency support you need"
                 (generateCrisisResponse region HIGH)
  /\ generateCrisisResponse region CRITICAL = generateCrisisResponse region LOW.
Proof.
  assert (Hblock : IsSubstring (getLocalHotlines region)
                     (generateCrisisResponse region level))
    by (destruct level; apply IsSubstring_middle).
  split; [exact Hblock|]. split; [apply getLocalHotlines_range|].
  split.
  - apply (IsSubstring_trans _ (getLocalHotlines region)); [|exact Hblock].
    pose proof (getLocalHotlines_range region) as H.
    rewrite !elem_of_cons, elem_of_nil in H.
    destruct H as [-> | [-> | [-> | [-> | []]]]];
      apply includes_spec; vm_compute; reflexivity.
  - split; [|split; [|reflexivity]]; cbn [generateCrisisResponse];
      do 2 apply IsSubstring_tail; apply includes_spec; vm_compute; reflexivity.
Qed.

(** X8.  The hotline block of the message text is resolved by a list of
    fragments tried in order: "nigeria" or "ng", then "usa" or "united
    states", then "uk" or "united kingdom", else the international block
    (also for an absent region).  Because of the fragment "ng", a region
    that contains these two letters without naming Nigeria gets the
    Nigerian contacts in the message, while the hotline list and the
    resources list stored in the crisis log are not the Nigerian ones. *)
Theorem getLocalHotlines_fragments :
  (forall region,
     ContainsIgnoringCase region "nigeria" \/ ContainsIgnoringCase region "ng" ->
     getLocalHotlines (Some region) = nigeriaContacts)
  /\ (forall region,
        ~ ContainsIgnoringCase region "nigeria" ->
        ~ ContainsIgnoringCase region "ng" ->
        ContainsIgnoringCase region "usa"
        \/ ContainsIgnoringCase region "united states" ->
        getLocalHotlines (Some region) = usaResources)
  /\ (forall region,
        ~ ContainsIgnoringCase region "nigeria" ->
        ~ ContainsIgnoringCase region "ng" ->
        ~ ContainsIgnoringCase region "usa" ->
        ~ ContainsIgnoringCase region "united states" ->
        ContainsIgnoringCase region "uk"
        \/ ContainsIgnoringCase region "united kingdom" ->
        getLocalHotlines (Some region) = ukResources)
  /\ (forall region,
        ~ ContainsIgnoringCase region "nigeria" ->
        ~ ContainsIgnoringCase region "ng" ->
        ~ ContainsIgnoringCase region "usa" ->
        ~ ContainsIgnoringCase region "united states" ->
        ~ ContainsIgnoringCase region "uk" ->
        ~ ContainsIgnoringCase region "united kingdom" ->
        getLocalHotlines (Some region) = internationalResources)
  /\ getLocalHotlines None = internationalResources
  /\ (forall region,
        ContainsIgnoringCase region "ng" ->
        ~ ContainsIgnoringCase region "nigeria" ->
        getLocalHotlines (Some region) = nigeriaContacts
        /\ getCrisisHotlines (Some region)
           <> ["+234 809 210 6493"; "199"; "911"; "08000333333"]
        /\ getCrisisResources (Some region)
           = [ "Crisis hotlines"; "Emergency services";
               "Mental health professionals"; "Hospital emergency rooms";
               "Community support services"; "Online crisis chat services" ]).
Proof.
  assert (Hyes : forall region k, toLowerCase k = k ->
            ContainsIgnoringCase region k ->
            includes (regionLower (Some region)) k = true)
    by (intros; now apply includes_region).
  pose proof includes_region_false as Hno.
  assert (Hng : forall region,
            ContainsIgnoringCase region "nigeria"
            \/ ContainsIgnoringCase region "ng" ->
            getLocalHotlines (Some region) = nigeriaContacts).
  { intros region [H|H]; unfold getLocalHotlines; cbv zeta.
    - now rewrite (Hyes region "nigeria" eq_refl H).
    - rewrite (Hyes region "ng" eq_refl H). now rewrite orb_true_r. }
  repeat match goal with |- _ /\ _ => split end.
  - exact Hng.
  - intros region H1 H2 [H|H]; unfold getLocalHotlines; cbv zeta;
      rewrite (Hno region "nigeria" eq_refl H1), (Hno region "ng" eq_refl H2).
    + now rewrite (Hyes region "usa" eq_refl H).
    + rewrite (Hyes region "united states" eq_refl H). now rewrite orb_true_r.
  - intros region H1 H2 H3 H4 [H|H]; unfold getLocalHotlines; cbv zeta;
      rewrite (Hno region "nigeria" eq_refl H1), (Hno region "ng" eq_refl H2),
        (Hno region "usa" eq_refl H3), (Hno region "united states" eq_refl H4).
    + now rewrite (Hyes region "uk" eq_refl H).
    + rewrite (Hyes region "united kingdom" eq_refl H). now rewrite orb_true_r.
  - intros region H1 H2 H3 H4 H5 H6. unfold getLocalHotlines. cbv zeta.
    now rewrite (Hno region "nigeria" eq_refl H1), (Hno region "ng" eq_refl H2),
      (Hno region "usa" eq_refl H3), (Hno region "united states" eq_refl H4),
      (Hno region "uk" eq_refl H5), (Hno region "united kingdom" eq_refl H6).
  - reflexivity.
  - intros region H1 H2. split; [apply Hng; now right|].
    unfold getCrisisHotlines, getCrisisResources. cbv zeta.
    rewrite (Hno region "nigeria" eq_refl H2). split; [|reflexivity].
    repeat match goal with
           | |- context [if ?b then _ else _] => destruct b
           end; discriminate.
Qed.

(** A user whose region is England is shown the Nigerian contacts. *)
Lemma getLocalHotlines_fragments_witness :
  ContainsIgnoringCase "England" "ng"
  /\ getLocalHotlines (Some "England") = nigeriaContacts.
Proof.
  assert (H : ContainsIgnoringCase "England" "ng").
  { exists "E", "ng", "land". split; reflexivity. }
  split; [exact H|].
  exact (proj1 getLocalHotlines_fragments "England" (or_intror H)).
Defined.

(** X9.  The hotline list is one of five lists and tells which entry of
    its table matched: the Nigerian list exactly for regions that contain
    "nigeria" up to letter case, the USA list exactly for the other
    regions that contain "usa", then "uk", then "canada", and the
    fallback list exactly for the remaining regions; the resources list
    is the Nigerian one exactly when the hotline list is. *)
Theorem getCrisisHotlines_table (region : string) :
  let ng := ContainsIgnoringCase region "nigeria" in
  let us := ContainsIgnoringCase region "usa" in
  let uk := ContainsIgnoringCase region "uk" in
  let ca := ContainsIgnoringCase region "canada" in
  (getCrisisHotlines (Some region)
   = ["+234 809 210 6493"; "199"; "911"; "08000333333"] <-> ng)
  /\ (getCrisisHotlines (Some region)
      = ["988"; "741741"; "911"; "1-800-799-7233"] <-> ~ ng /\ us)
  /\ (getCrisisHotlines (Some region)
      = ["116 123"; "85258"; "999"; "0808 2000 247"] <-> ~ ng /\ ~ us /\ uk)
  /\ (getCrisisHotlines (Some region)
      = ["1-833-456-4566"; "45645"; "911"] <-> ~ ng /\ ~ us /\ ~ uk /\ ca)
  /\ (getCrisisHotlines (Some region) = ["Local emergency services"]
      <-> ~ ng /\ ~ us /\ ~ uk /\ ~ ca)
  /\ (getCrisisResources (Some region)
      = [ "Crisis hotlines"; "Emergency services (199, 911)";
          "Mental health professionals"; "Hospital emergency rooms";
          "Lagos State DSVRT"; "Community health centers" ] <-> ng).
Proof.
  intros ng us uk ca. subst ng us uk ca.
  rewrite <- (includes_region region "nigeria" eq_refl),
    <- (includes_region region "usa" eq_refl),
    <- (includes_region region "uk" eq_refl),
    <- (includes_region region "canada" eq_refl).
  unfold getCrisisHotlines, getCrisisResources. cbv zeta.
  destruct (includes (regionLower (Some region)) "nigeria"),
    (includes (regionLower (Some region)) "usa"),
    (includes (regionLower (Some region)) "uk"),
    (includes (regionLower (Some region)) "canada");
    repeat match goal with |- _ /\ _ => split end;
    split; intros; try discriminate; try reflexivity;
    intuition (discriminate || congruence).
Qed.

End RegionsMore.

(** ** The message-send handler, continued *)

Section HandlerMore.

Ltac eff :=
  cbn [bind ret leave tryCatch freshId sent
       prisma.chatConversation_findUnique prisma.chatConversation_create
       prisma.chatConversation_update prisma.chatMessage_create
       prisma.chatMessage_findMany prisma.wellnessProfile_findUnique
       prisma.crisisLog_create prisma.chatAnalytics_upsert axios_post
       setNextId setConversations setMessages setCrisisLogs setAnalytics
       setProviderCalls
       chatConversations chatMessages wellnessProfiles crisisLogs
       chatAnalytics nextId providerCalls fst snd].

Ltac conjuncts := repeat match goal with |- _ /\ _ => split end.

(** Up to the crisis check, with the rows written so far. *)
Lemma sendMessage_accepted_store (env : Env) (userId : nat)
    (body : RequestBody) (w : World) (c : string) :
  content body = Some c ->
  trim c <> EmptyString -> String.length c <= 2000 ->
  conversationResolves userId body w ->
  exists conv um w2,
    sendMessage env userId body w
    = match detectCrisis c (wellnessProfiles w !! userId) with
      | Crisis r ks resp res hot =>
          crisisBranch env userId c conv um (wellnessProfiles w !! userId)
                       r ks resp res hot w2
      | NoCrisis =>
          aiBranch env userId c conv um (wellnessProfiles w !! userId)
                   (firstn 10 (newestFirst (conv_id conv) (chatMessages w2))) w2
      end
    /\ chatMessages w2 = chatMessages w ++ [um]
    /\ msg_userId um = userId
    /\ msg_sender um = USER
    /\ msg_content um = trim c
    /\ msg_conversationId um = conv_id conv
    /\ conv_userId conv = userId
    /\ match conversationId body with
       | Some id => conv_id conv = id /\ conv ∈ chatConversations w
                    /\ chatConversations w2 = chatConversations w
       | None => conv_isActive conv = true
                 /\ conv_lastMessageAt conv = Some (env_createdAt env)
                 /\ chatConversations w2 = chatConversations w ++ [conv]
       end
    /\ wellnessProfiles w2 = wellnessProfiles w
    /\ crisisLogs w2 = crisisLogs w
    /\ chatAnalytics w2 = chatAnalytics w
    /\ providerCalls w2 = providerCalls w.
Proof.
  intros Hc Ht Hl Hres.
  destruct (validation_passes c Ht Hl) as [E1 E2].
  unfold sendMessage. rewrite Hc, E1, E2.
  unfold conversationResolves in Hres.
  destruct (conversationId body) as [id|].
  - destruct Hres as (c0 & Hin & Hid & Hu).
    assert (Hfind : exists conv,
              getOrCreateConversation env userId (Some id) w = (inr conv, w)
              /\ conv ∈ chatConversations w /\ conv_id conv = id
              /\ conv_userId conv = userId).
    { unfold getOrCreateConversation. eff.
      destruct (List.find _ (chatConversations w)) as [conv|] eqn:Ef.
      - apply find_some_elem_of in Ef as [Hin' Hf].
        apply andb_true_iff in Hf as [H1 H2]. apply Nat.eqb_eq in H1, H2.
        exists conv. auto.
      - exfalso. apply list_elem_of_In in Hin.
        pose proof (find_none _ _ Ef c0 Hin) as Hf. cbn beta in Hf.
        rewrite Hid, Hu, !Nat.eqb_refl in Hf. discriminate Hf. }
    destruct Hfind as (conv & Hfind & Hin' & H1 & H2).
    rewrite (bind_inr _ _ _ _ _ Hfind). unfold saveUserMessage. eff.
    set (um := {| msg_id := nextId w; msg_conversationId := conv_id conv;
                  msg_userId := userId; msg_content := trim c;
                  msg_sender := USER; msg_messageType := TEXT;
                  msg_responseTime := None; msg_confidence := None;
                  msg_triggerKeywords := None |}).
    exists conv, um,
      (setMessages (chatMessages w ++ [um]) (setNextId (S (nextId w)) w)).
    split; [destruct (detectCrisis c (wellnessProfiles w !! userId));
            reflexivity|].
    eff. conjuncts; auto.
  - assert (Hnew : getOrCreateConversation env userId None w
                   = (inr {| conv_id := nextId w; conv_userId := userId;
                             conv_isActive := true;
                             conv_lastMessageAt := Some (env_createdAt env) |},
                      setConversations
                        (chatConversations w
                         ++ [{| conv_id := nextId w; conv_userId := userId;
                                conv_isActive := true;
                                conv_lastMessageAt := Some (env_createdAt env) |}])
                        (setNextId (S (nextId w)) w)))
      by reflexivity.
    rewrite (bind_inr _ _ _ _ _ Hnew). unfold saveUserMessage. eff.
    set (conv := {| conv_id := nextId w; conv_userId := userId;
                    conv_isActive := true;
                    conv_lastMessageAt := Some (env_createdAt env) |}).
    set (um := {| msg_id := S (nextId w); msg_conversationId := nextId w;
                  msg_userId := userId; msg_content := trim c;
                  msg_sender := USER; msg_messageType := TEXT;
                  msg_responseTime := None; msg_confidence := None;
                  msg_triggerKeywords := None |}).
    exists conv, um,
      (mkWorld (chatConversations w ++ [conv]) (chatMessages w ++ [um])
               (wellnessProfiles w) (crisisLogs w) (chatAnalytics w)
               (S (S (nextId w))) (providerCalls w)).
    split; [destruct (detectCrisis c (wellnessProfiles w !! userId));
            reflexivity|].
    eff. conjuncts; reflexivity.
Qed.

(** The store after an accepted request. *)
Lemma postMessage_accepted_store (env : Env) (userId : nat)
    (body : RequestBody) (w : World) (c : string) :
  content body = Some c ->
  trim c <> EmptyString -> String.length c <= 2000 ->
  conversationResolves userId body w ->
  exists conv um jm resp w',
    postMessage env userId body w = (resp, w')
    /\ ((exists conv' r ks, resp = CrisisReply conv' um jm r ks)
        \/ (exists conv' md, resp = ChatReply conv' um jm md))
    /\ repliesIn conv resp
    /\ match detectCrisis c (wellnessProfiles w !! userId) with
       | Crisis _ _ _ _ _ =>
           chatAnalytics w' = chatAnalytics w
           /\ providerCalls w' = providerCalls w
           /\ exists log, crisisLogs w' = crisisLogs w ++ [log]
                           /\ cl_userId log = userId
       | NoCrisis =>
           chatAnalytics w'
           = <[(userId, env_today env) :=
                 upsertedRow userId (env_today env)
                   (minutesOf (env_endTime env - env_startTime env))
                   (chatAnalytics w)]> (chatAnalytics w)
           /\ crisisLogs w' = crisisLogs w
           /\ (providerCalls w' = providerCalls w
               \/ exists call, providerCalls w' = providerCalls w ++ [call])
       end
    /\ chatMessages w' = chatMessages w ++ [um; jm]
    /\ msg_sender um = USER /\ msg_content um = trim c
    /\ msg_sender jm = JOJO
    /\ msg_userId um = userId /\ msg_userId jm = userId
    /\ msg_conversationId um = conv_id conv
    /\ msg_conversationId jm = conv_id conv
    /\ conv_userId conv = userId
    /\ chatConversations w'
       = touch (conv_id conv) (env_updatedAt env)
           (match conversationId body with
            | Some _ => chatConversations w
            | None => chatConversations w ++ [conv]
            end)
    /\ match conversationId body with
       | Some id => conv_id conv = id /\ conv ∈ chatConversations w
       | None => conv_isActive conv = true
                 /\ conv_lastMessageAt conv = Some (env_createdAt env)
       end
    /\ wellnessProfiles w' = wellnessProfiles w.
Proof.
  intros Hc Ht Hl Hres.
  destruct (sendMessage_accepted_store env userId body w c Hc Ht Hl Hres)
    as (conv & um & w2 & Hrun & Hm & Hu1 & Hus & Huc & Hu2 & Hcu & Hconv & Hp
        & Hlog & Ha & Hcalls).
  assert (Hconvs : chatConversations w2
                   = match conversationId body with
                     | Some _ => chatConversations w
                     | None => chatConversations w ++ [conv]
                     end)
    by (destruct (conversationId body); tauto).
  assert (Hconv' : match conversationId body with
                   | Some id => conv_id conv = id /\ conv ∈ chatConversations w
                   | None => conv_isActive conv = true
                             /\ conv_lastMessageAt conv = Some (env_createdAt env)
                   end)
    by (destruct (conversationId body); tauto).
  unfold postMessage. rewrite Hrun.
  destruct (detectCrisis c (wellnessProfiles w !! userId))
    as [|r ks resp res hot].
  - destruct (generateAiResponse_frame env c (wellnessProfiles w !! userId)
                (firstn 10 (newestFirst (conv_id conv) (chatMessages w2))) w2)
      as (ai & provider & wa & Hai & F1 & F2 & F3 & F4 & F5 & F6 & F7).
    rewrite (aiBranch_run _ _ _ _ _ _ _ _ _ _ _ Hai).
    eexists conv, um, _, _, _. split; [reflexivity|].
    split; [right; eauto|].
    cbn [repliesIn chatMessages crisisLogs chatAnalytics providerCalls
         chatConversations wellnessProfiles msg_userId msg_conversationId
         msg_sender].
    rewrite F1, F2, F3, F4, F5, Hm, Hp, Hlog, Ha, Hconvs, <- app_assoc.
    conjuncts; auto.
    destruct F7 as [->|[call ->]]; rewrite Hcalls; eauto.
  - rewrite crisisBranch_run.
    eexists conv, um, _, _, _. split; [reflexivity|].
    split; [left; eauto|].
    cbn [sent repliesIn chatMessages crisisLogs chatAnalytics providerCalls
         chatConversations wellnessProfiles msg_userId msg_conversationId
         msg_sender].
    rewrite Hm, Hp, Hlog, Ha, Hconvs, <- app_assoc.
    conjuncts; auto. eexists. split; reflexivity.
Qed.



Lemma not_accepted_unchanged (env : Env) (userId : nat) (body : RequestBody)
    (w : World) :
  ~ accepted userId body w ->
  exists status message,
    postMessage env userId body w = (Rejected status message, w)
    /\ (status = 400 /\ ~ validContent body
        \/ status = 404 /\ message = "Conversation not found"
           /\ validContent body /\ ~ conversationResolves userId body w).
Proof.
  intros Hn.
  destruct (validContent_dec body) as [Hv|Hv].
  - destruct (conversationResolves_dec userId body w) as [Hr|Hr].
    + destruct Hn. now split.
    + eexists _, _. split; [now apply postMessage_unresolved|]. right. auto.
  - destruct (postMessage_invalid env userId body w Hv) as [m Hm].
    eexists _, _. split; [exact Hm|]. left. auto.
Qed.


Lemma touch_fields (id : nat) (t : Z) (l : list ChatConversation) :
  map (fun c => (conv_id c, conv_userId c, conv_isActive c)) (touch id t l)
  = map (fun c => (conv_id c, conv_userId c, conv_isActive c)) l.
Proof.
  unfold touch. rewrite map_map. apply map_ext. intros c.
  now destruct (conv_id c =? id).
Qed.

Lemma touch_other (id : nat) (t : Z) (l : list ChatConversation)
    (c : ChatConversation) :
  c ∈ l -> conv_id c <> id -> c ∈ touch id t l.
Proof.
  intros Hin Hid. unfold touch. apply list_elem_of_fmap. exists c.
  split; [|assumption].
  apply Nat.eqb_neq in Hid. now rewrite Hid.
Qed.

Lemma touch_length (id : nat) (t : Z) (l : list ChatConversation) :
  length (touch id t l) = length l.
Proof. unfold touch. apply length_map. Qed.

(** X11.  What one request can write.  Whatever the request, the profile
    table is unchanged; the message table grows at its end by nothing or
    by two rows, which carry the caller's id and the id of a conversation
    the caller owns; the crisis log grows by at most one row, of the
    caller; at most one call of the completion endpoint is made; the only
    analytics row that may change is the caller's row of the day; and
    conversations keep their id, owner and active flag, at most one being
    added, for the caller. *)
Theorem postMessage_isolation (env : Env) (userId : nat)
    (body : RequestBody) (w : World) :
  let w' := snd (postMessage env userId body w) in
  wellnessProfiles w' = wellnessProfiles w
  /\ (exists new,
        chatMessages w' = chatMessages w ++ new
        /\ (new = [] \/ length new = 2)
        /\ forall m, m ∈ new ->
             msg_userId m = userId
             /\ exists conv, conv ∈ chatConversations w'
                              /\ conv_id conv = msg_conversationId m
                              /\ conv_userId conv = userId)
  /\ (exists new,
        crisisLogs w' = crisisLogs w ++ new /\ length new <= 1
        /\ forall l, l ∈ new -> cl_userId l = userId)
  /\ (exists new,
        providerCalls w' = providerCalls w ++ new /\ length new <= 1)
  /\ (forall key, key <> (userId, env_today env) ->
        chatAnalytics w' !! key = chatAnalytics w !! key)
  /\ (exists new,
        map (fun c => (conv_id c, conv_userId c, conv_isActive c))
            (chatConversations w')
        = map (fun c => (conv_id c, conv_userId c, conv_isActive c))
              (chatConversations w) ++ new
        /\ length new <= 1
        /\ forall x, x ∈ new -> x.1.2 = userId).
Proof.
  intros w'. subst w'.
  destruct (validContent_dec body) as [Hv|Hv];
    [destruct (conversationResolves_dec userId body w) as [Hr|Hr]|].
  - destruct Hv as (c & Hc & Ht & Hl).
    destruct (postMessage_accepted_store env userId body w c Hc Ht Hl Hr)
      as (conv & um & jm & resp & w' & -> & _ & _ & Hbranch & Hm & _ & _ & _
          & Hu1 & Hu2 & Hc1 & Hc2 & Hcu & Hconvs & Hconv & Hp).
    cbn [snd].
    assert (Hstored : exists stored, stored ∈ chatConversations w'
                        /\ conv_id stored = conv_id conv
                        /\ conv_userId stored = userId).
    { rewrite Hconvs.
      assert (Hin : conv ∈ match conversationId body with
                           | Some _ => chatConversations w
                           | None => chatConversations w ++ [conv]
                           end).
      { destruct (conversationId body); [tauto|].
        rewrite elem_of_app, list_elem_of_singleton. now right. }
      destruct (touch_elem (conv_id conv) (env_updatedAt env) _ conv Hin
                  eq_refl) as (c' & H1 & H2 & H3 & _).
      exists c'. rewrite H3. auto. }
    split; [exact Hp|].
    split.
    { exists [um; jm]. split; [exact Hm|]. split; [now right|].
      intros m Hin. rewrite !elem_of_cons, elem_of_nil in Hin.
      destruct Hstored as (stored & S1 & S2 & S3).
      destruct Hin as [-> | [-> | []]]; (split; [assumption|]);
        exists stored; rewrite ?Hc1, ?Hc2; auto. }
    assert (Hlogs : (exists new, crisisLogs w' = crisisLogs w ++ new
                       /\ length new <= 1
                       /\ forall l, l ∈ new -> cl_userId l = userId)
                    /\ (exists new, providerCalls w' = providerCalls w ++ new
                          /\ length new <= 1)
                    /\ (forall key, key <> (userId, env_today env) ->
                          chatAnalytics w' !! key = chatAnalytics w !! key)).
    { destruct (detectCrisis c (wellnessProfiles w !! userId)).
      - destruct Hbranch as (Ha & Hlog & Hcalls).
        split; [exists []; rewrite app_nil_r; split; [exact Hlog|];
                split; [cbn; lia|]; intros l Hl'; inversion Hl'|].
        split.
        + destruct Hcalls as [->|[call ->]];
            [exists []; rewrite app_nil_r | exists [call]];
            (split; [reflexivity|cbn; lia]).
        + intros key Hkey. rewrite Ha. now apply lookup_insert_ne.
      - destruct Hbranch as (Ha & Hcalls & log & Hlog & Hlu).
        split; [exists [log]; split; [exact Hlog|]; split; [cbn; lia|];
                intros l Hl'; apply list_elem_of_singleton in Hl';
                now subst|].
        split; [exists []; rewrite app_nil_r; split; [exact Hcalls|cbn; lia]|].
        intros key _. now rewrite Ha. }
    destruct Hlogs as (H1 & H2 & H3).
    split; [exact H1|]. split; [exact H2|]. split; [exact H3|].
    rewrite Hconvs, touch_fields.
    destruct (conversationId body).
    + exists []. rewrite app_nil_r. split; [reflexivity|].
      split; [cbn; lia|]. intros x Hx. inversion Hx.
    + rewrite map_app. eexists. split; [reflexivity|].
      split; [cbn; lia|]. intros x Hx. cbn [map] in Hx.
      apply list_elem_of_singleton in Hx. now subst.
  - destruct (not_accepted_unchanged env userId body w) as (s & m & -> & _);
      [intros [_ H]; auto|].
    cbn [snd]. split; [reflexivity|].
    repeat (split; [exists []; rewrite app_nil_r; split; [reflexivity|];
                    split; [auto; cbn; lia|]; intros x Hx; inversion Hx|]).
    split; [exists []; rewrite app_nil_r; split; [reflexivity|cbn; lia]|].
    split; [reflexivity|].
    exists []. rewrite app_nil_r. split; [reflexivity|].
    split; [cbn; lia|]. intros x Hx. inversion Hx.
  - destruct (not_accepted_unchanged env userId body w) as (s & m & -> & _);
      [intros [H _]; auto|].
    cbn [snd]. split; [reflexivity|].
    repeat (split; [exists []; rewrite app_nil_r; split; [reflexivity|];
                    split; [auto; cbn; lia|]; intros x Hx; inversion Hx|]).
    split; [exists []; rewrite app_nil_r; split; [reflexivity|cbn; lia]|].
    split; [reflexivity|].
    exists []. rewrite app_nil_r. split; [reflexivity|].
    split; [cbn; lia|]. intros x Hx. inversion Hx.
Qed.

(** X12.  The conversation table.  A request that is not accepted leaves
    it unchanged.  An accepted request that names a conversation creates
    none: it sets [lastMessageAt] of that conversation to the update time
    and leaves every row with another id as it was.  An accepted request
    that names none creates exactly one conversation, active and owned by
    the caller; the response carries it as it was created, with the
    creation time, while the stored row already has the update time. *)
Theorem postMessage_conversations (env : Env) (userId : nat)
    (body : RequestBody) (w : World) :
  let w' := snd (postMessage env userId body w) in
  (~ accepted userId body w -> chatConversations w' = chatConversations w)
  /\ (forall id, conversationId body = Some id -> accepted userId body w ->
        chatConversations w'
        = touch id (env_updatedAt env) (chatConversations w)
        /\ length (chatConversations w') = length (chatConversations w)
        /\ (forall conv, conv ∈ chatConversations w -> conv_id conv <> id ->
              conv ∈ chatConversations w')
        /\ exists conv, repliesIn conv (fst (postMessage env userId body w))
                         /\ conv ∈ chatConversations w
                         /\ conv_id conv = id /\ conv_userId conv = userId)
  /\ (conversationId body = None -> accepted userId body w ->
        exists conv stored,
          repliesIn conv (fst (postMessage env userId body w))
          /\ conv_userId conv = userId /\ conv_isActive conv = true
          /\ conv_lastMessageAt conv = Some (env_createdAt env)
          /\ chatConversations w'
             = touch (conv_id conv) (env_updatedAt env)
                     (chatConversations w ++ [conv])
          /\ length (chatConversations w') = S (length (chatConversations w))
          /\ stored ∈ chatConversations w'
          /\ conv_id stored = conv_id conv
          /\ conv_userId stored = userId
          /\ conv_lastMessageAt stored = Some (env_updatedAt env)).
Proof.
  intros w'. subst w'.
  split; [|split].
  - intros Hn.
    now destruct (not_accepted_unchanged env userId body w Hn)
      as (s & m & -> & _).
  - intros id Hid [(c & Hc & Ht & Hl) Hr].
    destruct (postMessage_accepted_store env userId body w c Hc Ht Hl Hr)
      as (conv & um & jm & resp & w' & -> & _ & Hresp & _ & _ & _ & _ & _ & _
          & _ & _ & _ & Hcu & Hconvs & Hconv & _).
    cbn [fst snd]. rewrite Hid in Hconvs, Hconv. destruct Hconv as [<- Hin].
    rewrite Hconvs, touch_length.
    split; [reflexivity|]. split; [reflexivity|].
    split; [intros; now apply touch_other|].
    exists conv. auto.
  - intros Hid [(c & Hc & Ht & Hl) Hr].
    destruct (postMessage_accepted_store env userId body w c Hc Ht Hl Hr)
      as (conv & um & jm & resp & w' & -> & _ & Hresp & _ & _ & _ & _ & _ & _
          & _ & _ & _ & Hcu & Hconvs & Hconv & _).
    cbn [fst snd]. rewrite Hid in Hconvs, Hconv. destruct Hconv as [Hact Hat].
    assert (Hin : conv ∈ chatConversations w ++ [conv])
      by (rewrite elem_of_app, list_elem_of_singleton; now right).
    destruct (touch_elem (conv_id conv) (env_updatedAt env) _ conv Hin eq_refl)
      as (stored & H1 & H2 & H3 & H4).
    exists conv, stored. rewrite Hconvs, touch_length, length_app.
    conjuncts; auto; try congruence. cbn [length]. lia.
Qed.

(** A first message creates one conversation. *)
Lemma postMessage_conversations_witness :
  accepted 7 (newChat "Any tips for today?") sharedWorld
  /\ length (chatConversations
               (snd (postMessage (sampleEnv (Completed "Drink water."))
                       7 (newChat "Any tips for today?") sharedWorld))) = 2.
Proof.
  assert (Hacc : accepted 7 (newChat "Any tips for today?") sharedWorld).
  { split; [|exact I]. eexists. split; [reflexivity|].
    split; [vm_compute; discriminate | cbn; lia]. }
  split; [exact Hacc|].
  destruct (proj2 (proj2 (postMessage_conversations
                            (sampleEnv (Completed "Drink water.")) 7
                            (newChat "Any tips for today?") sharedWorld))
              eq_refl Hacc)
    as (conv & stored & _ & _ & _ & _ & _ & Hlen & _).
  exact Hlen.
Defined.

Lemma generateAiResponse_without_call (env : Env) (content : string)
    (profile : option WellnessProfile) (history : list ChatMessage) (w : World) :
  reachesProvider profile = false ->
  generateAiResponse env content profile history w
  = (inr (if parseThrows (profile ≫= wp_healthGoals)
             || parseThrows (profile ≫= wp_dietaryRestrictions)
          then (routeFallback, "fallback")
          else (getFallbackResponse profile, "groq")), w).
Proof.
  unfold reachesProvider, generateAiResponse, generateJoJoResponse, parseColumn.
  destruct (parseThrows (profile ≫= wp_healthGoals)); [reflexivity|].
  destruct (parseThrows (profile ≫= wp_dietaryRestrictions)); [reflexivity|].
  destruct (createSystemPromptThrows profile); [reflexivity|discriminate].
Qed.

(** X13.  Replies produced without the completion endpoint.  When a JSON
    column of the caller's profile cannot be read, an accepted message
    without risk is answered without any HTTP call: with the fixed text of
    the handler and the provider "fallback" when [JSON.parse] raises on a
    column, and otherwise (the system prompt cannot be built) with the
    fixed text of the AI service under the provider "groq".  In both cases
    the assistant row is stored with type TEXT, confidence 0.6 and no
    keywords, the metadata reports SUGGESTION, and the exchange is counted
    in the day's analytics. *)
Theorem reply_without_provider_call (env : Env) (userId : nat)
    (body : RequestBody) (w : World) (c : string) :
  content body = Some c ->
  accepted userId body w ->
  isCrisis (detectCrisis c (wellnessProfiles w !! userId)) = false ->
  reachesProvider (wellnessProfiles w !! userId) = false ->
  let profile := wellnessProfiles w !! userId in
  let unparsable :=
    parseThrows (profile ≫= wp_healthGoals)
    || parseThrows (profile ≫= wp_dietaryRestrictions) in
  exists conv um jm md w',
    postMessage env userId body w = (ChatReply conv um jm md, w')
    /\ providerCalls w' = providerCalls w
    /\ chatMessages w' = chatMessages w ++ [um; jm]
    /\ msg_content jm = (if unparsable then routeFallbackContent
                         else "Hi there! " +:+ fallbackBody)
    /\ md_aiProvider md = (if unparsable then "fallback" else "groq")
    /\ msg_sender jm = JOJO
    /\ msg_messageType jm = TEXT
    /\ msg_confidence jm = Some 60
    /\ msg_triggerKeywords jm = Some []
    /\ md_messageType md = "SUGGESTION"
    /\ md_confidence md = 60
    /\ messagesCountOn userId (env_today env) w'
       = (messagesCountOn userId (env_today env) w + 1)%Z.
Proof.
  intros Hc [(c' & Hc' & Ht & Hl) Hres] Hno Hreach profile unparsable.
  rewrite Hc in Hc'. injection Hc' as <-.
  destruct (detectCrisis c (wellnessProfiles w !! userId)) eqn:Hd;
    [|discriminate Hno].
  destruct (sendMessage_accepted_store env userId body w c Hc Ht Hl Hres)
    as (conv & um & w2 & Hrun & Hm & _ & _ & _ & _ & _ & _ & _ & _ & Ha
        & Hcalls).
  rewrite Hd in Hrun.
  pose proof (generateAiResponse_without_call env c profile
                (firstn 10 (newestFirst (conv_id conv) (chatMessages w2))) w2
                Hreach) as Hai.
  fold unparsable in Hai.
  assert (Hai' : generateAiResponse env c profile
                   (firstn 10 (newestFirst (conv_id conv) (chatMessages w2))) w2
                 = (inr ((if unparsable then routeFallback
                          else getFallbackResponse profile),
                         (if unparsable then "fallback" else "groq")), w2))
    by (rewrite Hai; now destruct unparsable).
  unfold postMessage. rewrite Hrun.
  subst profile. rewrite (aiBranch_run _ _ _ _ _ _ _ _ _ _ _ Hai').
  eexists conv, um, _, _, _. split; [reflexivity|].
  cbn [chatMessages providerCalls msg_content msg_sender msg_messageType
       msg_confidence msg_triggerKeywords md_aiProvider md_messageType
       md_confidence].
  rewrite Hm, <- app_assoc.
  conjuncts; auto; try (now destruct unparsable).
  eapply messagesCountOn_upsert. cbn [chatAnalytics]. now rewrite Ha.
Qed.

(** A profile whose health goals are stored as plain text. *)
Lemma reply_without_provider_call_witness :
  accepted 7 (newChat "Any tips for today?") unparsableWorld
  /\ exists conv um jm md w',
       postMessage (sampleEnv (Completed "Drink water.")) 7
                   (newChat "Any tips for today?") unparsableWorld
       = (ChatReply conv um jm md, w')
       /\ providerCalls w' = []
       /\ msg_content jm = routeFallbackContent
       /\ md_aiProvider md = "fallback".
Proof.
  assert (Hacc : accepted 7 (newChat "Any tips for today?") unparsableWorld).
  { split; [|exact I]. eexists. split; [reflexivity|].
    split; [vm_compute; discriminate | cbn; lia]. }
  split; [exact Hacc|].
  destruct (reply_without_provider_call
              (sampleEnv (Completed "Drink water.")) 7
              (newChat "Any tips for today?") unparsableWorld
              "Any tips for today?" eq_refl Hacc
              ltac:(vm_compute; reflexivity) ltac:(vm_compute; reflexivity))
    as (conv & um & jm & md & w' & H1 & H2 & _ & H3 & H4 & _).
  exists conv, um, jm, md, w'.
  split; [exact H1|]. split; [exact H2|]. split; [exact H3|exact H4].
Defined.

Lemma minutesOf_ceiling (t : Z) :
  (60000 * (minutesOf t - 1) < t <= 60000 * minutesOf t)%Z.
Proof.
  unfold minutesOf. Z.div_mod_to_equations. lia.
Qed.

(** X14.  The day's analytics.  An accepted exchange on which risk was
    detected leaves the analytics table as it was.  Any other accepted
    exchange adds 1 to the caller's message count of the day and adds to
    the day's conversation time the response time rounded up to whole
    minutes (the least number of minutes that covers it), creating the
    row for the caller and the day when there was none, and leaves every
    other row alone. *)
Theorem exchange_analytics (env : Env) (userId : nat) (body : RequestBody)
    (w : World) (c : string) :
  content body = Some c ->
  accepted userId body w ->
  let w' := snd (postMessage env userId body w) in
  let responseTime := (env_endTime env - env_startTime env)%Z in
  if isCrisis (detectCrisis c (wellnessProfiles w !! userId))
  then chatAnalytics w' = chatAnalytics w
  else
    messagesCountOn userId (env_today env) w'
    = (messagesCountOn userId (env_today env) w + 1)%Z
    /\ conversationTimeOn userId (env_today env) w'
       = (conversationTimeOn userId (env_today env) w
          + minutesOf responseTime)%Z
    /\ (60000 * (minutesOf responseTime - 1) < responseTime
        <= 60000 * minutesOf responseTime)%Z
    /\ (exists row, chatAnalytics w' !! (userId, env_today env) = Some row
          /\ (chatAnalytics w !! (userId, env_today env) = None ->
              ca_userId row = userId /\ ca_date row = env_today env))
    /\ (forall key, key <> (userId, env_today env) ->
          chatAnalytics w' !! key = chatAnalytics w !! key).
Proof.
  intros Hc [(c' & Hc' & Ht & Hl) Hres] w' responseTime.
  subst w' responseTime.
  rewrite Hc in Hc'. injection Hc' as <-.
  destruct (postMessage_accepted_store env userId body w c Hc Ht Hl Hres)
    as (conv & um & jm & resp & w' & -> & _ & _ & Hbranch & _).
  cbn [snd].
  destruct (detectCrisis c (wellnessProfiles w !! userId)); cbn [isCrisis].
  - destruct Hbranch as (Ha & _).
    split; [eapply messagesCountOn_upsert; exact Ha|].
    split.
    { unfold conversationTimeOn. rewrite Ha, lookup_insert_eq.
      unfold upsertedRow.
      destruct (chatAnalytics w !! (userId, env_today env));
        cbn [ca_conversationTime]; lia. }
    split; [apply minutesOf_ceiling|].
    split.
    { eexists. rewrite Ha, lookup_insert_eq. split; [reflexivity|].
      intros Hnone. unfold upsertedRow. rewrite Hnone. now split. }
    intros key Hkey. rewrite Ha. now apply lookup_insert_ne.
  - now destruct Hbranch as (Ha & _).
Qed.

(** A response time of 90 seconds counts as two minutes. *)
Lemma exchange_analytics_witness :
  accepted 7 (newChat "Any tips for today?") emptyWorld
  /\ conversationTimeOn 7 0
       (snd (postMessage (sampleEnv (Completed "Drink water.")) 7
               (newChat "Any tips for today?") emptyWorld)) = 2%Z.
Proof.
  assert (Hacc : accepted 7 (newChat "Any tips for today?") emptyWorld).
  { split; [|exact I]. eexists. split; [reflexivity|].
    split; [vm_compute; discriminate | cbn; lia]. }
  split; [exact Hacc|].
  pose proof (exchange_analytics (sampleEnv (Completed "Drink water.")) 7
                (newChat "Any tips for today?") emptyWorld
                "Any tips for today?" eq_refl Hacc) as H.
  cbv zeta in H.
  assert (E : isCrisis (detectCrisis "Any tips for today?"
                          (wellnessProfiles emptyWorld !! 7)) = false)
    by (vm_compute; reflexivity).
  rewrite E in H. destruct H as (_ & H & _).
  exact (eq_trans H eq_refl).
Defined.

End HandlerMore.

(** ** The read routes *)

Section ReadRoutes.

Ltac conjuncts := repeat match goal with |- _ /\ _ => split end.

Lemma owned_dec (userId id : nat) (w : World) :
  (exists conv, List.find (fun c => (conv_id c =? id) && (conv_userId c =? userId))
                          (chatConversations w) = Some conv
                /\ conv ∈ chatConversations w
                /\ conv_id conv = id /\ conv_userId conv = userId)
  \/ (List.find (fun c => (conv_id c =? id) && (conv_userId c =? userId))
                (chatConversations w) = None
      /\ forall conv, conv ∈ chatConversations w -> conv_id conv = id ->
                      conv_userId conv <> userId).
Proof.
  destruct (List.find _ (chatConversations w)) as [conv|] eqn:Ef.
  - left. apply find_some_elem_of in Ef as [Hin Hf].
    apply andb_true_iff in Hf as [H1 H2]. apply Nat.eqb_eq in H1, H2.
    exists conv. auto.
  - right. split; [reflexivity|]. intros conv Hin Hid Hu.
    apply list_elem_of_In in Hin.
    pose proof (find_none _ _ Ef conv Hin) as Hf. cbn beta in Hf.
    rewrite Hid, Hu, !Nat.eqb_refl in Hf. discriminate Hf.
Qed.

Lemma getCurrentChat_run (userId id : nat) (w : World) :
  replied (getCurrentChat userId id w)
  = (match List.find (fun c => (conv_id c =? id) && (conv_userId c =? userId))
                     (chatConversations w) with
     | Some conv =>
         Served {| cc_conversationId := conv_id conv;
                   cc_messages := map chatLine (map selectRow (messagesOf id w));
                   cc_messageCount :=
                     length (map chatLine (map selectRow (messagesOf id w))) |}
     | None => Refused 404 "Conversation not found"
     end, w).
Proof.
  unfold getCurrentChat, bind, prisma.chatConversation_findUnique.
  destruct (List.find _ (chatConversations w)); reflexivity.
Qed.

Lemma getCurrentChat_owner (userId id : nat) (w : World) :
  (exists conv, conv ∈ chatConversations w
                /\ conv_id conv = id /\ conv_userId conv = userId) ->
  fst (replied (getCurrentChat userId id w))
  = Served {| cc_conversationId := id;
              cc_messages := map chatLine (map selectRow (messagesOf id w));
              cc_messageCount := length (messagesOf id w) |}.
Proof.
  intros (conv0 & Hin0 & Hid0 & Hu0).
  rewrite getCurrentChat_run. cbn [fst].
  destruct (owned_dec userId id w)
    as [(conv & -> & Hin & Hid & Hu) | [-> Hnone]].
  - now rewrite Hid, !length_map.
  - now destruct (Hnone conv0 Hin0 Hid0).
Qed.

(** X15.  The chat view.  Reading a conversation never changes the store.
    The owner is served the rows of that conversation, and only those, in
    the order of their creation, each marked as the user's or as the
    assistant's and never both, with their number; anyone else is refused
    with 404, also when the conversation exists. *)
Theorem getCurrentChat_scope (userId conversationId : nat) (w : World) :
  snd (replied (getCurrentChat userId conversationId w)) = w
  /\ ((exists conv, conv ∈ chatConversations w
                    /\ conv_id conv = conversationId
                    /\ conv_userId conv = userId) ->
      fst (replied (getCurrentChat userId conversationId w))
      = Served {| cc_conversationId := conversationId;
                  cc_messages :=
                    map chatLine (map selectRow
                                      (messagesOf conversationId w));
                  cc_messageCount := length (messagesOf conversationId w) |})
  /\ ((forall conv, conv ∈ chatConversations w ->
                    conv_id conv = conversationId ->
                    conv_userId conv <> userId) ->
      fst (replied (getCurrentChat userId conversationId w))
      = Refused 404 "Conversation not found")
  /\ (forall chat,
        fst (replied (getCurrentChat userId conversationId w)) = Served chat ->
        cc_messageCount chat = length (cc_messages chat)
        /\ forall line, line ∈ cc_messages chat ->
             line_isUser line = negb (line_isJojo line)
             /\ exists m, m ∈ chatMessages w
                          /\ msg_conversationId m = conversationId
                          /\ line_id line = msg_id m
                          /\ line_text line = msg_content m).
Proof.
  rewrite getCurrentChat_run. cbn [fst snd].
  split; [reflexivity|].
  destruct (owned_dec userId conversationId w)
    as [(conv & -> & Hin & Hid & Hu) | [-> Hnone]].
  - split; [intros _; now rewrite Hid, !length_map|].
    split; [intros Hn; now destruct (Hn conv Hin Hid)|].
    intros chat [= <-]. cbn [cc_messageCount cc_messages].
    split; [reflexivity|].
    intros line Hline.
    apply list_elem_of_fmap in Hline as (row & -> & Hrow).
    apply list_elem_of_fmap in Hrow as (m & -> & Hm).
    split; [cbn; now destruct (msg_sender m)|].
    unfold messagesOf in Hm. apply list_elem_of_In, filter_In in Hm as [Hm1 Hm2].
    apply Nat.eqb_eq in Hm2. exists m.
    split; [now apply list_elem_of_In|auto].
  - split; [intros (conv & Hin & Hid & Hu); now destruct (Hnone conv Hin Hid)|].
    split; [reflexivity|]. intros chat [=].
Qed.

Lemma getCurrentChat_scope_witness :
  fst (replied (getCurrentChat 7 3 sharedWorld))
  = Refused 404 "Conversation not found".
Proof.
  apply (proj1 (proj2 (proj2 (getCurrentChat_scope 7 3 sharedWorld)))).
  intros conv Hin _. apply list_elem_of_singleton in Hin. now subst.
Defined.

Lemma find_touch (p : ChatConversation -> bool) (id : nat) (t : Z)
    (l : list ChatConversation) :
  (forall c, p {| conv_id := conv_id c; conv_userId := conv_userId c;
                  conv_isActive := conv_isActive c;
                  conv_lastMessageAt := Some t |} = p c) ->
  option_map conv_id (List.find p (touch id t l))
  = option_map conv_id (List.find p l).
Proof.
  intros Hp. induction l as [|c l IH]; [reflexivity|].
  cbn [touch map List.find]. fold (touch id t l).
  destruct (conv_id c =? id).
  - rewrite Hp. destruct (p c); [reflexivity|exact IH].
  - destruct (p c); [reflexivity|exact IH].
Qed.

Lemma getCurrentChat_store (userId id : nat) (w w' : World) :
  option_map conv_id
    (List.find (fun c => (conv_id c =? id) && (conv_userId c =? userId))
               (chatConversations w'))
  = option_map conv_id
      (List.find (fun c => (conv_id c =? id) && (conv_userId c =? userId))
                 (chatConversations w)) ->
  forall extra,
    messagesOf id w' = messagesOf id w ++ extra ->
    fst (replied (getCurrentChat userId id w'))
    = match fst (replied (getCurrentChat userId id w)) with
      | Served chat =>
          Served {| cc_conversationId := cc_conversationId chat;
                    cc_messages :=
                      cc_messages chat ++ map chatLine (map selectRow extra);
                    cc_messageCount := cc_messageCount chat + length extra |}
      | Refused status message => Refused status message
      end.
Proof.
  intros Hfind extra Hextra. rewrite !getCurrentChat_run. cbn [fst].
  destruct (List.find _ (chatConversations w')) as [c'|],
    (List.find _ (chatConversations w)) as [c|]; try discriminate Hfind;
    [|reflexivity].
  injection Hfind as Hid.
  cbn [cc_conversationId cc_messages cc_messageCount].
  rewrite Hextra, !map_app, !length_app, !length_map, Hid. reflexivity.
Qed.

(** X16.  Reading after writing.  After an accepted message in a named
    conversation, the owner's chat view is the view from before followed
    by two lines: the user's line with the trimmed content and the
    assistant's line of the response; the views of all other
    conversations, for any reader, are as before. *)
Theorem getCurrentChat_after_postMessage (env : Env) (userId : nat)
    (body : RequestBody) (w : World) (c : string) (id : nat) :
  content body = Some c ->
  conversationId body = Some id ->
  accepted userId body w ->
  let w' := snd (postMessage env userId body w) in
  exists before um jm,
    fst (replied (getCurrentChat userId id w))
    = Served {| cc_conversationId := id; cc_messages := before;
                cc_messageCount := length before |}
    /\ fst (replied (getCurrentChat userId id w'))
       = Served {| cc_conversationId := id;
                   cc_messages := before ++ [chatLine (selectRow um);
                                              chatLine (selectRow jm)];
                   cc_messageCount := length before + 2 |}
    /\ ((exists conv r ks, fst (postMessage env userId body w)
                           = CrisisReply conv um jm r ks)
        \/ (exists conv md, fst (postMessage env userId body w)
                            = ChatReply conv um jm md))
    /\ line_text (chatLine (selectRow um)) = trim c
    /\ line_isUser (chatLine (selectRow um)) = true
    /\ line_isJojo (chatLine (selectRow jm)) = true
    /\ (forall reader other, other <> id ->
          fst (replied (getCurrentChat reader other w'))
          = fst (replied (getCurrentChat reader other w))).
Proof.
  intros Hc Hid [(c' & Hc' & Ht & Hl) Hres] w'. subst w'.
  rewrite Hc in Hc'. injection Hc' as <-.
  destruct (postMessage_accepted_store env userId body w c Hc Ht Hl Hres)
    as (conv & um & jm & resp & w' & Hrun & Hresp & _ & _ & Hm & Hsu & Hcu
        & Hsj & _ & _ & Hc1 & Hc2 & Hown0 & Hconvs & Hconv & _).
  rewrite Hrun. cbn [fst snd]. rewrite Hid in Hconvs, Hconv.
  destruct Hconv as [Hcid Hin].
  assert (Hfind : forall reader other,
            option_map conv_id
              (List.find (fun c => (conv_id c =? other)
                                   && (conv_userId c =? reader))
                         (chatConversations w'))
            = option_map conv_id
                (List.find (fun c => (conv_id c =? other)
                                     && (conv_userId c =? reader))
                           (chatConversations w)))
    by (intros; rewrite Hconvs; now apply find_touch).
  assert (Hown : fst (replied (getCurrentChat userId id w))
                 = Served {| cc_conversationId := id;
                             cc_messages :=
                               map chatLine (map selectRow (messagesOf id w));
                             cc_messageCount := length (messagesOf id w) |}).
  { apply getCurrentChat_owner. exists conv. auto. }
  exists (map chatLine (map selectRow (messagesOf id w))), um, jm.
  rewrite !length_map.
  split; [exact Hown|].
  split.
  { rewrite (getCurrentChat_store userId id w w' (Hfind userId id) [um; jm]).
    - rewrite Hown. reflexivity.
    - unfold messagesOf. rewrite Hm, List.filter_app. cbn [List.filter].
      rewrite Hc1, Hc2, Hcid, Nat.eqb_refl. reflexivity. }
  split; [exact Hresp|].
  split; [cbn; exact Hcu|].
  split; [cbn; now rewrite Hsu|].
  split; [cbn; now rewrite Hsj|].
  intros reader other Hother.
  rewrite (getCurrentChat_store reader other w w' (Hfind reader other) []).
  - destruct (fst (replied (getCurrentChat reader other w))) as [|[i ms n]];
      [reflexivity|].
    cbn. now rewrite app_nil_r, Nat.add_0_r.
  - unfold messagesOf. rewrite Hm, List.filter_app. cbn [List.filter].
    rewrite Hc1, Hc2, Hcid.
    apply Nat.eqb_neq in Hother. rewrite Nat.eqb_sym, Hother. reflexivity.
Qed.

(** A reader of the conversation from the sample store sees the exchange
    added at the end. *)
Lemma getCurrentChat_after_postMessage_witness :
  accepted 7 (inChat 1 "And for tomorrow?") chattyWorld
  /\ exists lines,
       fst (replied (getCurrentChat 7 1
                       (snd (postMessage (sampleEnv (Completed "Sleep early."))
                               7 (inChat 1 "And for tomorrow?") chattyWorld))))
       = Served {| cc_conversationId := 1; cc_messages := lines;
                   cc_messageCount := 5 |}.
Proof.
  assert (Hacc : accepted 7 (inChat 1 "And for tomorrow?") chattyWorld).
  { split.
    - eexists. split; [reflexivity|].
      split; [vm_compute; discriminate | cbn; lia].
    - exists ownConversation. split; [apply list_elem_of_here|now split]. }
  split; [exact Hacc|].
  destruct (getCurrentChat_after_postMessage
              (sampleEnv (Completed "Sleep early.")) 7
              (inChat 1 "And for tomorrow?") chattyWorld "And for tomorrow?" 1
              eq_refl eq_refl Hacc)
    as (before & um & jm & Hb & Ha & _).
  rewrite Ha. eexists.
  assert (Hlen : length before = 3).
  { assert (E : fst (replied (getCurrentChat 7 1 chattyWorld))
                = Served {| cc_conversationId := 1;
                            cc_messages :=
                              map chatLine
                                  (map selectRow (messagesOf 1 chattyWorld));
                            cc_messageCount := 3 |}) by reflexivity.
    rewrite E in Hb. injection Hb as <-. reflexivity. }
  rewrite Hlen. reflexivity.
Defined.

(** *** The list of recent chats *)

Lemma insertDesc_nonempty (c : ChatConversation) (l : list ChatConversation) :
  insertDesc c l <> [].
Proof. destruct l as [|d l]; cbn; [|destruct (sortsBefore c d)]; discriminate. Qed.

Lemma orderByLastMessageAtDesc_nil (l : list ChatConversation) :
  orderByLastMessageAtDesc l = [] <-> l = [].
Proof.
  destruct l as [|c l]; [tauto|]. cbn.
  split; [|discriminate]. intros H. now apply insertDesc_nonempty in H.
Qed.

Lemma mapM_formatChat (l : list ConversationWithMessages) (w : World) :
  l <> [] ->
  mapM formatChat l w = (inl "ReferenceError: getTimeAgo is not defined", w).
Proof. destruct l; [tauto|reflexivity]. Qed.

Lemma getRecentChats_run (userId : nat) (limit : option nat) (w : World) :
  replied (getRecentChats userId limit w)
  = (match firstn (match limit with Some n => n | None => 10 end)
                  (orderByLastMessageAtDesc (activeOf userId w)) with
     | [] => Served []
     | _ :: _ => Refused 500 "Failed to get recent chats"
     end, w).
Proof.
  unfold getRecentChats, tryCatch, bind, chatConversation_findMany.
  rewrite skipn_O.
  destruct (firstn _ (orderByLastMessageAtDesc (activeOf userId w)));
    reflexivity.
Qed.

Lemma activeOf_elem (userId : nat) (w : World) (conv : ChatConversation) :
  conv ∈ activeOf userId w
  <-> conv ∈ chatConversations w /\ conv_userId conv = userId
      /\ conv_isActive conv = true.
Proof.
  unfold activeOf. rewrite !list_elem_of_In, filter_In, andb_true_iff, Nat.eqb_eq.
  tauto.
Qed.

(** X17.  The list of recent chats is never served with an entry.  Each
    entry is built by a call of [getTimeAgo], which the module neither
    defines nor imports, so formatting the first conversation raises an
    error and the route answers 500.  The route succeeds, with an empty
    list, only for a caller without active conversation or for the limit
    0; for a caller with an active conversation and any other limit it
    answers 500.  In particular it answers 500 after the caller's first
    accepted message in a new conversation.  The store is never
    changed. *)
Theorem getRecentChats_never_lists (userId : nat) (limit : option nat)
    (w : World) :
  let take := match limit with Some n => n | None => 10 end in
  snd (replied (getRecentChats userId limit w)) = w
  /\ (forall chats, fst (replied (getRecentChats userId limit w)) = Served chats ->
        chats = [])
  /\ (fst (replied (getRecentChats userId limit w)) = Served []
      <-> take = 0
          \/ forall conv, conv ∈ chatConversations w ->
                conv_userId conv = userId -> conv_isActive conv = false)
  /\ (fst (replied (getRecentChats userId limit w))
      = Refused 500 "Failed to get recent chats"
      <-> take <> 0
          /\ exists conv, conv ∈ chatConversations w
                           /\ conv_userId conv = userId
                           /\ conv_isActive conv = true)
  /\ (forall env body,
        take <> 0 -> conversationId body = None -> accepted userId body w ->
        fst (replied (getRecentChats userId limit
                        (snd (postMessage env userId body w))))
        = Refused 500 "Failed to get recent chats").
Proof.
  intros take.
  assert (Hrun : forall w0,
            fst (replied (getRecentChats userId limit w0))
            = if bool_decide (take = 0 \/ activeOf userId w0 = [])
              then Served [] else Refused 500 "Failed to get recent chats").
  { intros w0. rewrite getRecentChats_run. cbn [fst]. fold take.
    pose proof (orderByLastMessageAtDesc_nil (activeOf userId w0)) as Hnil.
    destruct (orderByLastMessageAtDesc (activeOf userId w0)) as [|c l] eqn:El.
    - rewrite firstn_nil, bool_decide_eq_true_2; [reflexivity|].
      right. now apply Hnil.
    - destruct take as [|n].
      + rewrite bool_decide_eq_true_2; [reflexivity|now left].
      + cbn [firstn]. rewrite bool_decide_eq_false_2; [reflexivity|].
        intros [H|H]; [discriminate H|]. apply Hnil in H. discriminate H. }
  assert (Hact : forall w0,
            activeOf userId w0 = []
            <-> forall conv, conv ∈ chatConversations w0 ->
                  conv_userId conv = userId -> conv_isActive conv = false).
  { intros w0. split.
    - intros Hnil conv Hin Hu.
      destruct (conv_isActive conv) eqn:Ea; [|reflexivity].
      assert (Hel : conv ∈ activeOf userId w0) by (apply activeOf_elem; auto).
      rewrite Hnil in Hel. inversion Hel.
    - intros Hall. destruct (activeOf userId w0) as [|c l] eqn:El;
        [reflexivity|].
      assert (Hel : c ∈ activeOf userId w0)
        by (rewrite El; apply list_elem_of_here).
      apply activeOf_elem in Hel as (Hin & Hu & Ha).
      rewrite (Hall c Hin Hu) in Ha. discriminate Ha. }
  assert (Hsome : forall w0,
            activeOf userId w0 <> []
            <-> exists conv, conv ∈ chatConversations w0
                             /\ conv_userId conv = userId
                             /\ conv_isActive conv = true).
  { intros w0. split.
    - intros Hne. destruct (activeOf userId w0) as [|c l] eqn:El; [tauto|].
      exists c. apply activeOf_elem. rewrite El. apply list_elem_of_here.
    - intros (conv & Hel) Hnil. apply activeOf_elem in Hel.
      rewrite Hnil in Hel. inversion Hel. }
  split; [now rewrite getRecentChats_run|].
  split.
  { intros chats. rewrite Hrun. destruct (bool_decide _); [|discriminate].
    now intros [= <-]. }
  split.
  { rewrite Hrun, <- Hact.
    destruct (bool_decide (take = 0 \/ activeOf userId w = [])) eqn:E.
    - apply bool_decide_eq_true in E. tauto.
    - apply bool_decide_eq_false in E. split; [discriminate|tauto]. }
  split.
  { rewrite Hrun, <- Hsome.
    destruct (bool_decide (take = 0 \/ activeOf userId w = [])) eqn:E.
    - apply bool_decide_eq_true in E. split; [discriminate|tauto].
    - apply bool_decide_eq_false in E. split; [tauto|reflexivity]. }
  intros env body Htake Hid [(c & Hc & Ht & Hl) Hres].
  destruct (postMessage_accepted_store env userId body w c Hc Ht Hl Hres)
    as (conv & um & jm & resp & w' & -> & _ & _ & _ & _ & _ & _ & _ & _ & _
        & _ & _ & Hcu & Hconvs & Hconv & _).
  cbn [snd]. rewrite Hrun, bool_decide_eq_false_2; [reflexivity|].
  intros [H|H]; [tauto|]. revert H. apply Hsome.
  rewrite Hid in Hconvs, Hconv. destruct Hconv as [Hact' _].
  exists {| conv_id := conv_id conv; conv_userId := conv_userId conv;
            conv_isActive := conv_isActive conv;
            conv_lastMessageAt := Some (env_updatedAt env) |}.
  cbn [conv_userId conv_isActive]. split; [|auto].
  rewrite Hconvs. unfold touch. apply list_elem_of_fmap. exists conv.
  rewrite Nat.eqb_refl. split; [reflexivity|].
  rewrite elem_of_app, list_elem_of_singleton. now right.
Qed.

(** The owner of the conversation of the sample store gets no list. *)
Lemma getRecentChats_never_lists_witness :
  fst (replied (getRecentChats 7 None chattyWorld))
  = Refused 500 "Failed to get recent chats".
Proof.
  apply (proj2 (proj1 (proj2 (proj2 (proj2
           (getRecentChats_never_lists 7 None chattyWorld)))))).
  split; [discriminate|].
  exists ownConversation. split; [apply list_elem_of_here|now split].
Defined.

(** *** Paging *)

Lemma firstn_plus {A} (a b : nat) (l : list A) :
  firstn (a + b) l = firstn a l ++ firstn b (skipn a l).
Proof.
  revert l. induction a as [|a IH]; intros [|x l]; cbn [Nat.add firstn skipn app];
    try reflexivity.
  - now rewrite firstn_nil.
  - now rewrite IH.
Qed.

Lemma pages_concat {A} (L : nat) (l : list A) (P : nat) :
  concat (map (fun k => firstn L (skipn ((k - 1) * L) l)) (seq 1 P))
  = firstn (P * L) l.
Proof.
  induction P as [|P IH]; [reflexivity|].
  rewrite seq_S, map_app, concat_app, IH. cbn [map concat].
  rewrite app_nil_r.
  replace (1 + P - 1) with P by lia.
  replace (S P * L) with (P * L + L) by lia.
  now rewrite firstn_plus.
Qed.

Lemma pagination_facts (cap page limit total : Z) :
  (1 <= cap)%Z -> (0 <= total)%Z ->
  let pageNum := Z.max 1 page in
  let limitNum := Z.min cap (Z.max 1 limit) in
  let pages := ceilDiv total limitNum in
  (1 <= limitNum <= cap)%Z /\ (1 <= pageNum)%Z /\ (0 <= pages)%Z
  /\ ((pages - 1) * limitNum < total <= pages * limitNum)%Z
  /\ ((pageNum * limitNum <? total)%Z = true <-> (pageNum < pages)%Z)
  /\ ((1 <? pageNum)%Z = true <-> (1 < page)%Z).
Proof.
  intros Hcap Htotal pageNum limitNum pages.
  assert (Hl : (1 <= limitNum <= cap)%Z) by (subst limitNum; lia).
  assert (Hp : (1 <= pageNum)%Z) by (subst pageNum; lia).
  assert (Hpages : ((pages - 1) * limitNum < total <= pages * limitNum)%Z).
  { subst pages. unfold ceilDiv. generalize dependent limitNum.
    intros limitNum Hl. Z.div_mod_to_equations. nia. }
  split; [exact Hl|]. split; [exact Hp|].
  split; [nia|]. split; [exact Hpages|].
  rewrite !Z.ltb_lt. split; [split; nia|subst pageNum; lia].
Qed.

Lemma skip_of_page (k : nat) (limitNum : Z) :
  1 <= k -> (1 <= limitNum)%Z ->
  Z.to_nat ((Z.max 1 (Z.of_nat k) - 1) * limitNum) = (k - 1) * Z.to_nat limitNum.
Proof.
  intros Hk Hl. rewrite Z.max_r by lia.
  rewrite Z2Nat.inj_mul by lia. f_equal. lia.
Qed.

Lemma getConversationHistory_run (userId id : nat) (page limit : option Z)
    (w : World) :
  let pageNum := Z.max 1 (queryInt 1 page) in
  let limitNum := Z.min 100 (Z.max 1 (queryInt 50 limit)) in
  replied (getConversationHistory userId id page limit w)
  = (match List.find (fun c => (conv_id c =? id) && (conv_userId c =? userId))
                     (chatConversations w) with
     | Some conversation =>
         Served
           {| ch_conversationId := conv_id conversation;
              ch_lastMessageAt := conv_lastMessageAt conversation;
              ch_messageCount := length (messagesOf id w);
              ch_messages :=
                map selectRow
                    (firstn (Z.to_nat limitNum)
                       (skipn (Z.to_nat ((pageNum - 1) * limitNum))
                              (messagesOf id w)));
              ch_pagination :=
                {| pg_page := pageNum;
                   pg_limit := limitNum;
                   pg_total := Z.of_nat (length (messagesOf id w));
                   pg_pages := ceilDiv (Z.of_nat (length (messagesOf id w)))
                                       limitNum;
                   pg_hasNext :=
                     (pageNum * limitNum
                      <? Z.of_nat (length (messagesOf id w)))%Z;
                   pg_hasPrev := (1 <? pageNum)%Z |} |}
     | None => Refused 404 "Conversation not found or access denied"
     end, w).
Proof.
  unfold getConversationHistory, bind, chatConversation_findUniqueWithCount.
  destruct (List.find _ (chatConversations w)); reflexivity.
Qed.

(** X18.  Paging through a conversation.  Reading the history never
    changes the store, and refuses with 404 anyone who does not own the
    conversation.  The owner gets a page of at most [limit] rows, where
    the limit is brought into 1..100 and the page number is at least 1:
    the rows of the conversation from position (page - 1) * limit on, in
    the order of their creation; the total is the number of rows of the
    conversation, [pages] is the least number of pages that holds them,
    [hasNext] holds exactly on the pages before the last one and
    [hasPrev] exactly after the first; a page past the last one is empty;
    and the pages 1 to [pages], read with the same limit, are exactly all
    rows of the conversation, each once and in order. *)
Theorem getConversationHistory_pages (userId conversationId : nat)
    (page limit : option Z) (w : World) :
  snd (replied (getConversationHistory userId conversationId page limit w)) = w
  /\ ((forall conv, conv ∈ chatConversations w ->
                    conv_id conv = conversationId ->
                    conv_userId conv <> userId) ->
      fst (replied (getConversationHistory userId conversationId page limit w))
      = Refused 404 "Conversation not found or access denied")
  /\ ((exists conv, conv ∈ chatConversations w
                    /\ conv_id conv = conversationId
                    /\ conv_userId conv = userId) ->
      exists h,
        fst (replied (getConversationHistory userId conversationId page limit w))
        = Served h
        /\ ch_conversationId h = conversationId
        /\ ch_messageCount h = length (messagesOf conversationId w)
        /\ (1 <= pg_limit (ch_pagination h) <= 100)%Z
        /\ (1 <= pg_page (ch_pagination h))%Z
        /\ pg_total (ch_pagination h)
           = Z.of_nat (length (messagesOf conversationId w))
        /\ ((pg_pages (ch_pagination h) - 1) * pg_limit (ch_pagination h)
            < pg_total (ch_pagination h)
            <= pg_pages (ch_pagination h) * pg_limit (ch_pagination h))%Z
        /\ (pg_hasNext (ch_pagination h) = true
            <-> (pg_page (ch_pagination h) < pg_pages (ch_pagination h))%Z)
        /\ (pg_hasPrev (ch_pagination h) = true
            <-> (1 < pg_page (ch_pagination h))%Z)
        /\ ch_messages h
           = map selectRow
               (firstn (Z.to_nat (pg_limit (ch_pagination h)))
                  (skipn (Z.to_nat ((pg_page (ch_pagination h) - 1)
                                    * pg_limit (ch_pagination h)))
                         (messagesOf conversationId w)))
        /\ length (ch_messages h) <= Z.to_nat (pg_limit (ch_pagination h))
        /\ ((pg_pages (ch_pagination h) < pg_page (ch_pagination h))%Z ->
            ch_messages h = [])
        /\ concat (map (historyPage userId conversationId limit w)
                       (seq 1 (Z.to_nat (pg_pages (ch_pagination h)))))
           = map selectRow (messagesOf conversationId w)).
Proof.
  pose proof (getConversationHistory_run userId conversationId page limit w)
    as Hrun. cbv zeta in Hrun. rewrite Hrun. cbn [fst snd].
  split; [reflexivity|].
  destruct (owned_dec userId conversationId w)
    as [(conv & Hfind & Hin & Hid & Hu) | [Hfind Hnone]].
  2: { rewrite Hfind. split; [reflexivity|].
       intros (conv & Hin & Hid & Hu). now destruct (Hnone conv Hin Hid). }
  rewrite Hfind.
  split; [intros Hn; now destruct (Hn conv Hin Hid)|].
  intros _. eexists. split; [reflexivity|].
  cbn [ch_conversationId ch_messageCount ch_pagination ch_messages pg_limit
       pg_page pg_total pg_pages pg_hasNext pg_hasPrev].
  set (all := messagesOf conversationId w).
  set (pageNum := Z.max 1 (queryInt 1 page)).
  set (limitNum := Z.min 100 (Z.max 1 (queryInt 50 limit))).
  set (pages := ceilDiv (Z.of_nat (length all)) limitNum).
  destruct (pagination_facts 100 (queryInt 1 page) (queryInt 50 limit)
              (Z.of_nat (length all)) ltac:(lia) ltac:(lia))
    as (Hl & Hp & Hpages0 & Hpages & Hnext & Hprev).
  fold pageNum limitNum pages in Hl, Hp, Hpages0, Hpages, Hnext, Hprev.
  split; [exact Hid|]. split; [reflexivity|]. split; [exact Hl|].
  split; [exact Hp|]. split; [reflexivity|]. split; [exact Hpages|].
  split; [exact Hnext|].
  split; [rewrite Hprev; subst pageNum; lia|].
  split; [reflexivity|].
  split; [rewrite length_map; apply firstn_le_length|].
  split.
  { intros Hpast. rewrite skipn_all2; [now rewrite firstn_nil|].
    apply Nat2Z.inj_le. rewrite Z2Nat.id by nia. nia. }
  transitivity
    (concat (map (fun k => map selectRow
                             (firstn (Z.to_nat limitNum)
                                (skipn ((k - 1) * Z.to_nat limitNum) all)))
                 (seq 1 (Z.to_nat pages)))).
  { f_equal. apply map_ext_in. intros k Hk. apply in_seq in Hk.
    unfold historyPage.
    pose proof (getConversationHistory_run userId conversationId
                  (Some (Z.of_nat k)) limit w) as Hk'.
    cbv zeta in Hk'. rewrite Hk', Hfind. cbn [fst servedMessages ch_messages].
    fold all limitNum. cbn [queryInt].
    rewrite skip_of_page by lia. reflexivity. }
  rewrite <- (map_map (fun k => firstn (Z.to_nat limitNum)
                                  (skipn ((k - 1) * Z.to_nat limitNum) all))
                      (map selectRow)).
  rewrite <- concat_map, pages_concat, firstn_all2; [reflexivity|].
  apply Nat2Z.inj_le. rewrite Nat2Z.inj_mul, !Z2Nat.id by lia. lia.
Qed.

(** The three rows of the sample conversation, two per page. *)
Lemma getConversationHistory_pages_witness :
  historyPage 7 1 (Some 2%Z) chattyWorld 1
  ++ historyPage 7 1 (Some 2%Z) chattyWorld 2
  = map selectRow (messagesOf 1 chattyWorld).
Proof.
  destruct (proj2 (proj2 (getConversationHistory_pages 7 1 None (Some 2%Z)
                            chattyWorld)))
    as (h & Hh & _ & _ & _ & _ & _ & _ & _ & _ & _ & _ & _ & Hall).
  { exists ownConversation. split; [apply list_elem_of_here|now split]. }
  assert (E : Z.to_nat (pg_pages (ch_pagination h)) = 2)
    by (injection Hh as <-; reflexivity).
  rewrite <- Hall, E. cbn [seq map concat]. now rewrite app_nil_r.
Defined.

(** *** The list of conversations *)

Lemma insertDesc_perm (c : ChatConversation) (l : list ChatConversation) :
  Permutation (insertDesc c l) (c :: l).
Proof.
  induction l as [|d l IH]; cbn [insertDesc]; [reflexivity|].
  destruct (sortsBefore c d); [reflexivity|].
  rewrite IH. apply perm_swap.
Qed.

Lemma orderByLastMessageAtDesc_perm (l : list ChatConversation) :
  Permutation (orderByLastMessageAtDesc l) l.
Proof.
  induction l as [|c l IH]; [reflexivity|].
  cbn [orderByLastMessageAtDesc foldr].
  fold (orderByLastMessageAtDesc l).
  rewrite insertDesc_perm. now constructor.
Qed.

Lemma sortsBefore_total (a b : ChatConversation) :
  sortsBefore a b = true \/ sortsBefore b a = true.
Proof.
  unfold sortsBefore.
  destruct (conv_lastMessageAt a), (conv_lastMessageAt b); auto.
  rewrite !Z.leb_le. lia.
Qed.

Lemma sortsBefore_trans (a b c : ChatConversation) :
  sortsBefore a b = true -> sortsBefore b c = true -> sortsBefore a c = true.
Proof.
  unfold sortsBefore.
  destruct (conv_lastMessageAt a), (conv_lastMessageAt b),
    (conv_lastMessageAt c); auto; try discriminate.
  rewrite !Z.leb_le. lia.
Qed.

Lemma insertDesc_sorted (c : ChatConversation) (l : list ChatConversation) :
  StronglySorted (fun a b => sortsBefore a b = true) l ->
  StronglySorted (fun a b => sortsBefore a b = true) (insertDesc c l).
Proof.
  induction l as [|d l IH]; intros Hs; cbn [insertDesc].
  - constructor; constructor.
  - inversion Hs as [|? ? Hl Hd]; subst.
    destruct (sortsBefore c d) eqn:E.
    + constructor; [exact Hs|]. constructor; [exact E|].
      eapply Forall_impl; [exact Hd|]. intros x Hx.
      eapply sortsBefore_trans; eassumption.
    + constructor; [now apply IH|].
      apply Forall_forall. intros x Hx.
      apply list_elem_of_In in Hx.
      apply (Permutation_in _ (insertDesc_perm c l)) in Hx as [<- | Hx].
      * destruct (sortsBefore_total c d) as [H|H]; [congruence|exact H].
      * rewrite Forall_forall in Hd. apply Hd. now apply list_elem_of_In.
Qed.

Lemma orderByLastMessageAtDesc_sorted (l : list ChatConversation) :
  StronglySorted (fun a b => sortsBefore a b = true)
                 (orderByLastMessageAtDesc l).
Proof.
  induction l as [|c l IH]; [constructor|].
  cbn [orderByLastMessageAtDesc foldr]. now apply insertDesc_sorted.
Qed.

Lemma StronglySorted_skipn {A} (R : A -> A -> Prop) (n : nat) (l : list A) :
  StronglySorted R l -> StronglySorted R (skipn n l).
Proof.
  revert l. induction n as [|n IH]; intros l Hs; [exact Hs|].
  destruct l as [|x l]; [constructor|].
  inversion Hs; subst. cbn [skipn]. now apply IH.
Qed.

Lemma StronglySorted_firstn {A} (R : A -> A -> Prop) (n : nat) (l : list A) :
  StronglySorted R l -> StronglySorted R (firstn n l).
Proof.
  revert l. induction n as [|n IH]; intros l Hs; [constructor|].
  destruct l as [|x l]; [constructor|].
  inversion Hs as [|? ? Hl Hx]; subst. cbn [firstn].
  constructor; [now apply IH|].
  apply Forall_forall. intros y Hy. rewrite Forall_forall in Hx. apply Hx.
  rewrite <- (firstn_skipn n l). apply elem_of_app. now left.
Qed.

Lemma head_newest {A} (l : list A) : head (firstn 1 (rev l)) = last l.
Proof.
  destruct l as [|x l] using rev_ind; [reflexivity|].
  rewrite rev_app_distr, last_snoc. reflexivity.
Qed.

Lemma getConversations_run (userId : nat) (page limit : option Z) (w : World) :
  let pageNum := Z.max 1 (queryInt 1 page) in
  let limitNum := Z.min 50 (Z.max 1 (queryInt 20 limit)) in
  let total := length (activeOf userId w) in
  replied (getConversations userId page limit w)
  = (Served
       {| cp_conversations :=
            map (fun conv =>
                   {| cs_conversation := conv;
                      cs_lastMessage := head (cw_messages conv);
                      cs_messageCount := cw_count conv |})
                (map (includeMessages w)
                   (firstn (Z.to_nat limitNum)
                      (skipn (Z.to_nat ((pageNum - 1) * limitNum))
                             (orderByLastMessageAtDesc (activeOf userId w)))));
          cp_pagination :=
            {| pg_page := pageNum;
               pg_limit := limitNum;
               pg_total := Z.of_nat total;
               pg_pages := ceilDiv (Z.of_nat total) limitNum;
               pg_hasNext := (pageNum * limitNum <? Z.of_nat total)%Z;
               pg_hasPrev := (1 <? pageNum)%Z |} |}, w).
Proof. reflexivity. Qed.

Lemma served_page (w : World) (l : list ChatConversation) :
  map (fun s => cw_conversation (cs_conversation s))
      (map (fun conv =>
              {| cs_conversation := conv;
                 cs_lastMessage := head (cw_messages conv);
                 cs_messageCount := cw_count conv |})
           (map (includeMessages w) l))
  = l.
Proof. rewrite !map_map. cbn. apply map_id. Qed.

(** X19.  The list of conversations.  The route always succeeds and never
    changes the store.  It serves at most [limit] conversations, the
    limit being brought into 1..50 and the page number being at least 1;
    every one of them is in the store, belongs to the caller and is
    active, and comes with the number of its messages and with its newest
    message, or none when it has no message; a conversation never comes
    after one whose last message is older, and those without a time come
    last; the total is the number of the caller's active conversations,
    [pages] the least number of pages that holds them, [hasNext] holds
    exactly before the last page and [hasPrev] exactly after the first;
    and the pages 1 to [pages], read with the same limit, list exactly
    the caller's active conversations, each once. *)
Theorem getConversations_pages (userId : nat) (page limit : option Z)
    (w : World) :
  snd (replied (getConversations userId page limit w)) = w
  /\ exists p,
       fst (replied (getConversations userId page limit w)) = Served p
       /\ (1 <= pg_limit (cp_pagination p) <= 50)%Z
       /\ (1 <= pg_page (cp_pagination p))%Z
       /\ pg_total (cp_pagination p) = Z.of_nat (length (activeOf userId w))
       /\ ((pg_pages (cp_pagination p) - 1) * pg_limit (cp_pagination p)
           < pg_total (cp_pagination p)
           <= pg_pages (cp_pagination p) * pg_limit (cp_pagination p))%Z
       /\ (pg_hasNext (cp_pagination p) = true
           <-> (pg_page (cp_pagination p) < pg_pages (cp_pagination p))%Z)
       /\ (pg_hasPrev (cp_pagination p) = true
           <-> (1 < pg_page (cp_pagination p))%Z)
       /\ length (cp_conversations p) <= Z.to_nat (pg_limit (cp_pagination p))
       /\ (forall s, s ∈ cp_conversations p ->
             cw_conversation (cs_conversation s) ∈ chatConversations w
             /\ conv_userId (cw_conversation (cs_conversation s)) = userId
             /\ conv_isActive (cw_conversation (cs_conversation s)) = true
             /\ cs_messageCount s
                = length (messagesOf
                            (conv_id (cw_conversation (cs_conversation s))) w)
             /\ cs_lastMessage s
                = last (messagesOf
                          (conv_id (cw_conversation (cs_conversation s))) w))
       /\ StronglySorted (fun a b => sortsBefore a b = true)
                         (servedConversations (Served p))
       /\ Permutation
            (concat (map (conversationsPage userId limit w)
                         (seq 1 (Z.to_nat (pg_pages (cp_pagination p))))))
            (activeOf userId w).
Proof.
  pose proof (getConversations_run userId page limit w) as Hrun.
  cbv zeta in Hrun. rewrite Hrun. cbn [fst snd].
  split; [reflexivity|]. eexists. split; [reflexivity|].
  cbn [cp_pagination cp_conversations pg_limit pg_page pg_total pg_pages
       pg_hasNext pg_hasPrev servedConversations].
  set (sorted := orderByLastMessageAtDesc (activeOf userId w)).
  set (pageNum := Z.max 1 (queryInt 1 page)).
  set (limitNum := Z.min 50 (Z.max 1 (queryInt 20 limit))).
  set (total := length (activeOf userId w)).
  set (pages := ceilDiv (Z.of_nat total) limitNum).
  destruct (pagination_facts 50 (queryInt 1 page) (queryInt 20 limit)
              (Z.of_nat total) ltac:(lia) ltac:(lia))
    as (Hl & Hp & Hpages0 & Hpages & Hnext & Hprev).
  fold pageNum limitNum pages in Hl, Hp, Hpages0, Hpages, Hnext, Hprev.
  assert (Hlen : length sorted = total)
    by (subst sorted total; apply Permutation_length,
                              orderByLastMessageAtDesc_perm).
  split; [exact Hl|]. split; [exact Hp|]. split; [reflexivity|].
  split; [exact Hpages|]. split; [exact Hnext|].
  split; [rewrite Hprev; subst pageNum; lia|].
  split; [rewrite !length_map; apply firstn_le_length|].
  split.
  { intros s Hs.
    apply list_elem_of_fmap in Hs as (cw & -> & Hcw).
    apply list_elem_of_fmap in Hcw as (c & -> & Hc).
    cbn [cs_conversation cs_messageCount cs_lastMessage includeMessages
         cw_conversation cw_messages cw_count].
    assert (Hact : c ∈ activeOf userId w).
    { assert (Hin : c ∈ sorted).
      { rewrite <- (firstn_skipn (Z.to_nat ((pageNum - 1) * limitNum)) sorted).
        apply elem_of_app. right.
        rewrite <- (firstn_skipn (Z.to_nat limitNum) (skipn _ sorted)).
        apply elem_of_app. now left. }
      apply list_elem_of_In.
      apply (Permutation_in _ (orderByLastMessageAtDesc_perm _)).
      now apply list_elem_of_In. }
    apply activeOf_elem in Hact as (H1 & H2 & H3).
    conjuncts; auto. apply head_newest. }
  split.
  { rewrite served_page.
    apply StronglySorted_firstn, StronglySorted_skipn,
      orderByLastMessageAtDesc_sorted. }
  assert (Hpagesk :
            concat (map (conversationsPage userId limit w)
                        (seq 1 (Z.to_nat pages)))
            = concat (map (fun k => firstn (Z.to_nat limitNum)
                                      (skipn ((k - 1) * Z.to_nat limitNum)
                                             sorted))
                          (seq 1 (Z.to_nat pages)))).
  { f_equal. apply map_ext_in. intros k Hk. apply in_seq in Hk.
    unfold conversationsPage.
    pose proof (getConversations_run userId (Some (Z.of_nat k)) limit w)
      as Hk'.
    cbv zeta in Hk'. rewrite Hk'.
    cbn [fst servedConversations cp_conversations].
    rewrite served_page. fold sorted limitNum. cbn [queryInt].
    rewrite skip_of_page by lia. reflexivity. }
  rewrite Hpagesk, pages_concat, firstn_all2.
  - apply orderByLastMessageAtDesc_perm.
  - rewrite Hlen. apply Nat2Z.inj_le.
    rewrite Nat2Z.inj_mul, !Z2Nat.id by lia. lia.
Qed.

End ReadRoutes.

(** ** The AI service call (aiService.js) *)

Section AiService.

(** X20.  [generateJoJoResponse] never raises: it always returns a reply.
    When the system prompt cannot be built it makes no HTTP call and
    returns the fallback.  Otherwise it makes exactly one call, whose
    messages are the system prompt, then at most five history entries,
    then the user's input as the last entry, and changes nothing else;
    a completion is returned with its text, confidence 0.85 and the tag
    and keywords of [analyzeResponse], a failed call gives the fallback.
    The fallback is the same for every profile and input: it greets with
    "Hi there! " (the profile has no first name column), is tagged
    SUGGESTION with confidence 0.6, no keywords and the topic "general",
    and it is the only reply flagged [fallbackUsed]. *)
Theorem generateJoJoResponse_never_raises (outcome : ProviderOutcome)
    (userInput : string) (profile : option WellnessProfile)
    (history : list ChatMessage) (w : World) :
  exists r w',
    generateJoJoResponse outcome userInput profile history w = (inr r, w')
    /\ (createSystemPromptThrows profile = true ->
        w' = w /\ r = getFallbackResponse profile)
    /\ (createSystemPromptThrows profile = false ->
        exists call,
          w' = setProviderCalls (providerCalls w ++ [call]) w
          /\ call = SystemPrompt profile
                    :: formatConversationHistory history
                    ++ [Turn RoleUser userInput]
          /\ head call = Some (SystemPrompt profile)
          /\ last call = Some (Turn RoleUser userInput)
          /\ length call <= 7
          /\ match outcome with
             | Completed text =>
                 ai_content r = text /\ ai_fallbackUsed r = false
                 /\ ai_confidence r = 85
                 /\ ai_type r = an_type (analyzeResponse text userInput)
                 /\ ai_keywords r = extractKeywords userInput
             | Failed _ => r = getFallbackResponse profile
             end)
    /\ (ai_fallbackUsed r = true <-> r = getFallbackResponse profile)
    /\ ai_content (getFallbackResponse profile) = "Hi there! " +:+ fallbackBody
    /\ ai_type (getFallbackResponse profile) = "SUGGESTION"
    /\ ai_confidence (getFallbackResponse profile) = 60
    /\ ai_keywords (getFallbackResponse profile) = []
    /\ ai_topics (getFallbackResponse profile) = ["general"].
Proof.
  unfold generateJoJoResponse, tryCatch, bind.
  destruct (createSystemPromptThrows profile) eqn:Ethrow.
  - eexists _, _. split; [reflexivity|].
    split; [auto|]. split; [discriminate|].
    split; [split; [reflexivity|intros _; reflexivity]|].
    repeat split.
  - cbn [ret]. unfold axios_post.
    destruct outcome as [text|message].
    + eexists _, _. split; [reflexivity|].
      split; [discriminate|].
      split.
      { intros _. eexists. split; [reflexivity|]. split; [reflexivity|].
        split; [reflexivity|]. split; [now rewrite app_comm_cons, last_snoc|].
        split.
        { cbn [length]. rewrite length_app.
          unfold formatConversationHistory, sliceLast.
          rewrite length_map, length_skipn. cbn [length]. lia. }
        repeat split. }
      split; [|repeat split].
      cbn [ai_fallbackUsed]. split; [discriminate|].
      intros H. apply (f_equal ai_fallbackUsed) in H. discriminate H.
    + eexists _, _. split; [reflexivity|].
      split; [discriminate|].
      split.
      { intros _. eexists. split; [reflexivity|]. split; [reflexivity|].
        split; [reflexivity|]. split; [now rewrite app_comm_cons, last_snoc|].
        split; [|reflexivity].
        cbn [length]. rewrite length_app.
        unfold formatConversationHistory, sliceLast.
        rewrite length_map, length_skipn. cbn [length]. lia. }
      split; [split; [reflexivity|intros _; reflexivity]|].
      repeat split.
Qed.

End AiService.
